(** * form-date-picker: the date codec, the shortcut and flexible parsers and
      the commit handlers of the [FormDatePicker] variants

    The development embeds the TypeScript sources shallowly:

    - [Throwing]: the outcome of a call that may throw;
    - [JSString]: the string primitives the handlers call ([trim],
      [toLowerCase], [split], [parseInt], [Number]) and the regular
      expressions written in the sources, as anchored item patterns;
    - [ESDate]: ECMAScript time values (milliseconds since the epoch, as [Z]),
      the calendar arithmetic of the language standard ([Day], [DayFromYear],
      [YearFromTime], [MakeDay], ...), the [Date] getters, setters and
      constructors and [toISOString];
    - [Dayjs], [DateFns]: [add] of dayjs and [addMonths]/[addYears] of date-fns,
      written with the [Date] setters they call;
    - [Codec]: [dateToISOString], [parseDateFromISO], [parseDateString];
    - [Picker], [PickerUTC], [PickerLocaleFirst], [PickerInline]: the handlers
      of the component variants, as functions on the component state.

    Modelling conventions.  Characters are 8-bit ([ascii]).  Numbers are exact
    integers; [NaN] is [None], an invalid [Date] is [InvalidDate] and [null]
    is [None]; a call that can throw has an [Outcome].  The range of time
    values is kept by [TimeClip] in [DateParse] and in [addMonths]; the
    constructors, the setters and [Dayjs.add] give the time value they
    compute, and the statements about them are made for dates in the range.
    The local time zone is one fixed offset ([LocalTZA], in milliseconds),
    without daylight saving changes; the statements about local time are
    about calendar dates.  The locale grammar of date-fns ([parse] and
    [format] with the token P) and the engine's parsing of the strings that
    are no instance of the standard's format are fields of [Runtime]. *)

From Stdlib Require Import ZArith List String Ascii Bool Lia DecimalString.
Import ListNotations.
Open Scope string_scope.
Open Scope Z_scope.

(* ================================================================== *)
(** * Part I: definitions *)
(* ================================================================== *)

Module Throwing.

(** A call returns a value or throws; the only exception in these sources is
    the [RangeError] of formatting an invalid date. *)
Inductive Exception : Type := RangeError.

Inductive Outcome (A : Type) : Type :=
| Returned (a : A)
| Thrown (e : Exception).

Arguments Returned {A} a.
Arguments Thrown {A} e.

(** Statements in sequence: a throw ends the handler. *)
Definition bind {A B : Type} (o : Outcome A) (k : A -> Outcome B) : Outcome B :=
  match o with
  | Returned a => k a
  | Thrown e => Thrown e
  end.

Notation "'let*' x ':=' c 'in' k" := (bind c (fun x => k))
  (at level 10, x name, c at level 100, k at level 200).

Definition outcome_map {A B : Type} (f : A -> B) (o : Outcome A) : Outcome B :=
  match o with
  | Returned a => Returned (f a)
  | Thrown e => Thrown e
  end.

End Throwing.

Module JSString.

(** ** Characters *)

Definition code (c : ascii) : Z := Z.of_nat (nat_of_ascii c).

Definition isDigit (c : ascii) : bool := (48 <=? code c) && (code c <=? 57).

(** White space stripped by [String.prototype.trim] (the 8-bit part). *)
Definition isSpace (c : ascii) : bool :=
  let n := code c in
  ((9 <=? n) && (n <=? 13)) || (n =? 32) || (n =? 160).

(** The capital letters among the 8-bit characters: A to Z, and the accented
    capitals 192 to 222 without the multiplication sign. *)
Definition isUpper (c : ascii) : bool :=
  let n := code c in
  ((65 <=? n) && (n <=? 90)) || ((192 <=? n) && (n <=? 222) && negb (n =? 215)).

Definition lowerChar (c : ascii) : ascii :=
  if isUpper c then ascii_of_nat (nat_of_ascii c + 32) else c.

Definition digitValue (c : ascii) : Z := code c - 48.

Definition digitChar (d : Z) : ascii := ascii_of_nat (Z.to_nat (48 + d)).

(** ** Strings *)

Fixpoint toLowerCase (s : string) : string :=
  match s with
  | EmptyString => EmptyString
  | String c r => String (lowerChar c) (toLowerCase r)
  end.

Fixpoint trimStart (s : string) : string :=
  match s with
  | EmptyString => EmptyString
  | String c r => if isSpace c then trimStart r else s
  end.

Fixpoint trimEnd (s : string) : string :=
  match s with
  | EmptyString => EmptyString
  | String c r =>
      match trimEnd r with
      | EmptyString => if isSpace c then EmptyString else String c EmptyString
      | r' => String c r'
      end
  end.

Definition trim (s : string) : string := trimEnd (trimStart s).

Definition isEmpty (s : string) : bool :=
  match s with EmptyString => true | _ => false end.

Fixpoint allDigits (s : string) : bool :=
  match s with
  | EmptyString => true
  | String c r => isDigit c && allDigits r
  end.

(** [s.split(sep)] for a one-character separator. *)
Fixpoint split (sep : ascii) (s : string) : list string :=
  match s with
  | EmptyString => [EmptyString]
  | String c r =>
      if Ascii.eqb c sep then EmptyString :: split sep r
      else match split sep r with
           | p :: ps => String c p :: ps
           | [] => [String c EmptyString]
           end
  end.

(** [s.slice(1)]. *)
Definition slice1 (s : string) : string :=
  match s with EmptyString => EmptyString | String _ r => r end.

Definition startsWith (s : string) (c : ascii) : bool :=
  match s with String c' _ => Ascii.eqb c' c | EmptyString => false end.

(** ** Numbers *)

(** Value of a run of decimal digits, most significant first. *)
Fixpoint digitsValueFrom (acc : Z) (s : string) : Z :=
  match s with
  | EmptyString => acc
  | String c r => digitsValueFrom (10 * acc + digitValue c) r
  end.

Definition digitsValue (s : string) : Z := digitsValueFrom 0 s.

Fixpoint spanDigits (s : string) : string * string :=
  match s with
  | EmptyString => (EmptyString, EmptyString)
  | String c r =>
      if isDigit c then let (a, b) := spanDigits r in (String c a, b)
      else (EmptyString, s)
  end.

(** [parseInt(s)] and [parseInt(s, 10)]: leading white space, an optional
    sign, then the longest run of digits; [None] is [NaN].  (The hexadecimal
    prefix that [parseInt] without a radix also accepts starts with 0x and
    is never a run of digits.) *)
Definition parseInt (s : string) : option Z :=
  let s1 := trimStart s in
  let '(neg, s2) :=
    match s1 with
    | String "-" r => (true, r)
    | String "+" r => (false, r)
    | _ => (false, s1)
    end in
  let (ds, _) := spanDigits s2 in
  if isEmpty ds then None
  else Some (if neg then - digitsValue ds else digitsValue ds).

(** [Number(s)] on the strings the sources pass to it: a non-empty run of
    digits has its decimal value, anything else is [NaN] here. *)
Definition Number (s : string) : option Z :=
  if isEmpty s then None
  else if allDigits s then Some (digitsValue s) else None.

(** Zero-padded decimal numerals of fixed width. *)
Definition pad2 (n : Z) : string :=
  String (digitChar (n / 10 mod 10)) (String (digitChar (n mod 10)) EmptyString).

Definition pad3 (n : Z) : string :=
  String (digitChar (n / 100 mod 10)) (pad2 n).

Definition pad4 (n : Z) : string :=
  String (digitChar (n / 1000 mod 10)) (pad3 n).

Definition pad6 (n : Z) : string :=
  String (digitChar (n / 100000 mod 10))
    (String (digitChar (n / 10000 mod 10)) (pad4 n)).

(** ** Regular expressions of the sources

    Every regular expression in the sources is anchored at the start and is
    a sequence of literal characters, character sets and bounded runs of
    digits, each run followed by a non-digit literal or by the end of the
    pattern; matching such a sequence left to right, each run taking as many
    digits as its bound allows, is what the backtracking matcher finds. *)

Inductive item : Type :=
| Lit (c : ascii)
| OneOf (cs : list ascii)
| Digits (lo : nat) (hi : option nat).

Fixpoint takeDigits (hi : option nat) (s : string) : string * string :=
  match s with
  | EmptyString => (EmptyString, EmptyString)
  | String c r =>
      if isDigit c then
        match hi with
        | Some O => (EmptyString, s)
        | Some (S k) => let (a, b) := takeDigits (Some k) r in (String c a, b)
        | None => let (a, b) := takeDigits None r in (String c a, b)
        end
      else (EmptyString, s)
  end.

Fixpoint memChar (c : ascii) (cs : list ascii) : bool :=
  match cs with
  | [] => false
  | x :: r => Ascii.eqb c x || memChar c r
  end.

(** The pieces matched by the items, in order, and the unread rest. *)
Fixpoint exec (p : list item) (s : string) : option (list string * string) :=
  match p with
  | [] => Some ([], s)
  | Lit c :: p' =>
      match s with
      | String c' r =>
          if Ascii.eqb c' c then
            match exec p' r with
            | Some (ps, rest) => Some (String c' EmptyString :: ps, rest)
            | None => None
            end
          else None
      | EmptyString => None
      end
  | OneOf cs :: p' =>
      match s with
      | String c' r =>
          if memChar c' cs then
            match exec p' r with
            | Some (ps, rest) => Some (String c' EmptyString :: ps, rest)
            | None => None
            end
          else None
      | EmptyString => None
      end
  | Digits lo hi :: p' =>
      let (ds, r) := takeDigits hi s in
      if (lo <=? String.length ds)%nat then
        match exec p' r with
        | Some (ps, rest) => Some (ds :: ps, rest)
        | None => None
        end
      else None
  end.

(** [^p$]: the whole string. *)
Definition matchFull (p : list item) (s : string) : option (list string) :=
  match exec p s with
  | Some (ps, EmptyString) => Some ps
  | _ => None
  end.

(** [^p]: a prefix of the string. *)
Definition matchPrefix (p : list item) (s : string) : option (list string) :=
  match exec p s with
  | Some (ps, _) => Some ps
  | None => None
  end.

Definition test (p : list item) (s : string) : bool :=
  match matchFull p s with Some _ => true | None => false end.

Definition D (lo hi : nat) : item := Digits lo (Some hi).

(** The expression of [parseShortcut]: start, a group of one of d, m, y, a
    group of any number of digits, end. *)
Definition reShortcut : list item :=
  [OneOf ["d"; "m"; "y"]%char; Digits 0 None].

(** [/^\d{1,2}\/\d{1,2}$/] *)
Definition reMonthDay : list item := [D 1 2; Lit "/"; D 1 2].

(** [/^\d{1,2}\/\d{1,2}\/\d{2}$/] *)
Definition reMonthDayYear2 : list item :=
  [D 1 2; Lit "/"; D 1 2; Lit "/"; D 2 2].

(** [/^\d{1,2}\/\d{1,2}\/\d{4}$/], also with its three groups. *)
Definition reMonthDayYear4 : list item :=
  [D 1 2; Lit "/"; D 1 2; Lit "/"; D 4 4].

(** [/^\d{1,2}\/\d{1,2}(\/\d{2,4})?$/]: the optional group written as the two
    alternatives. *)
Definition testNumericDate (s : string) : bool :=
  test [D 1 2; Lit "/"; D 1 2] s
  || test [D 1 2; Lit "/"; D 1 2; Lit "/"; D 2 4] s.

(** [/^(\d{4}-\d{2}-\d{2})/] *)
Definition reIsoDate : list item :=
  [D 4 4; Lit "-"; D 2 2; Lit "-"; D 2 2].

Definition concat (ps : list string) : string :=
  fold_right String.append EmptyString ps.

(** The string is empty or starts with a character that is not a digit. *)
Definition headNotDigit (s : string) : bool :=
  match s with
  | EmptyString => true
  | String c _ => negb (isDigit c)
  end.

End JSString.

Module ESDate.
Import Throwing JSString.

(** ** Time values and calendar arithmetic (ECMAScript, Date objects) *)

Definition msPerDay : Z := 86400000.
Definition msPerHour : Z := 3600000.
Definition msPerMinute : Z := 60000.
Definition msPerSecond : Z := 1000.

Definition Day (t : Z) : Z := t / msPerDay.
Definition TimeWithinDay (t : Z) : Z := t mod msPerDay.

Definition DaysInYear (y : Z) : Z :=
  if negb (y mod 4 =? 0) then 365
  else if negb (y mod 100 =? 0) then 366
  else if negb (y mod 400 =? 0) then 365
  else 366.

Definition DayFromYear (y : Z) : Z :=
  365 * (y - 1970) + (y - 1969) / 4 - (y - 1901) / 100 + (y - 1601) / 400.

Definition TimeFromYear (y : Z) : Z := msPerDay * DayFromYear y.

(** The standard defines [YearFromTime t] as the largest [y] with
    [TimeFromYear y <= t]; this computes it from an estimate that is off by
    at most one year ([YearFromDay_bounds], [YearFromDay_largest]). *)
Definition YearFromDay (d : Z) : Z :=
  let y := 1970 + (400 * d) / 146097 in
  if DayFromYear (y + 1) <=? d then y + 1
  else if DayFromYear y <=? d then y
  else y - 1.

Definition YearFromTime (t : Z) : Z := YearFromDay (Day t).

Definition leapDays (y : Z) : Z := if DaysInYear y =? 366 then 1 else 0.

Definition InLeapYear (t : Z) : Z := leapDays (YearFromTime t).

Definition DayWithinYear (t : Z) : Z := Day t - DayFromYear (YearFromTime t).

(** Day number within the year of the first day of month [m] (0 is January);
    12 stands for the first day of the next year. *)
Definition firstDayOfMonth (L : Z) (m : Z) : Z :=
  match m with
  | 0 => 0
  | 1 => 31
  | 2 => 59 + L
  | 3 => 90 + L
  | 4 => 120 + L
  | 5 => 151 + L
  | 6 => 181 + L
  | 7 => 212 + L
  | 8 => 243 + L
  | 9 => 273 + L
  | 10 => 304 + L
  | 11 => 334 + L
  | _ => 365 + L
  end.

Definition monthOfDayInYear (L : Z) (d : Z) : Z :=
  if d <? 31 then 0
  else if d <? 59 + L then 1
  else if d <? 90 + L then 2
  else if d <? 120 + L then 3
  else if d <? 151 + L then 4
  else if d <? 181 + L then 5
  else if d <? 212 + L then 6
  else if d <? 243 + L then 7
  else if d <? 273 + L then 8
  else if d <? 304 + L then 9
  else if d <? 334 + L then 10
  else 11.

Definition MonthFromTime (t : Z) : Z :=
  monthOfDayInYear (InLeapYear t) (DayWithinYear t).

Definition DateFromTime (t : Z) : Z :=
  DayWithinYear t - firstDayOfMonth (InLeapYear t) (MonthFromTime t) + 1.

Definition HourFromTime (t : Z) : Z := (t / msPerHour) mod 24.
Definition MinFromTime (t : Z) : Z := (t / msPerMinute) mod 60.
Definition SecFromTime (t : Z) : Z := (t / msPerSecond) mod 60.
Definition msFromTime (t : Z) : Z := t mod msPerSecond.

Definition MakeTime (h m s ms : Z) : Z :=
  h * msPerHour + m * msPerMinute + s * msPerSecond + ms.

(** [MakeDay]: the day number of the first of month [month mod 12] of year
    [year + month / 12], plus [date - 1]. *)
Definition MakeDay (year month date : Z) : Z :=
  let ym := year + month / 12 in
  let mn := month mod 12 in
  DayFromYear ym + firstDayOfMonth (leapDays ym) mn + date - 1.

Definition MakeDate (day time : Z) : Z := day * msPerDay + time.

(** Years 0 to 99 given to [Date.UTC] or to the [Date] constructor mean
    1900 to 1999. *)
Definition MakeFullYear (y : Z) : Z :=
  if (0 <=? y) && (y <=? 99) then 1900 + y else y.

(** Number of days of month [m] (0 is January) of year [y]. *)
Definition DaysInMonth (y m : Z) : Z :=
  firstDayOfMonth (leapDays y) (m + 1) - firstDayOfMonth (leapDays y) m.

(** ** Date objects *)

Inductive Date : Type :=
| TimeValue (t : Z)
| InvalidDate.

Definition isValid (d : Date) : bool :=
  match d with TimeValue _ => true | InvalidDate => false end.

(** The time values that a [Date] can hold: a hundred million days either
    side of the epoch.  [TimeClip] is what a constructor and a setter make
    of the time value they have computed. *)
Definition maxTime : Z := 8640000000000000.

Definition representable (t : Z) : Prop := - maxTime <= t <= maxTime.

Definition TimeClip (t : Z) : Date :=
  if (- maxTime <=? t) && (t <=? maxTime) then TimeValue t else InvalidDate.

(** What a handler takes from its environment. *)
Record Runtime : Type := {
  LocalTZA : Z;                 (* offset of local time from UTC, in ms *)
  now : Z;                      (* the time value of [new Date()] and [dayjs()] *)
  parse_P : string -> Date;     (* date-fns [parse(s, 'P', new Date(), {locale})] *)
  format_P : Z -> string;       (* date-fns [format(d, 'P', {locale})] *)
  parse_other : string -> Date  (* [new Date(s)] on what [DateParse] leaves to the engine *)
}.

Definition LocalTime (rt : Runtime) (t : Z) : Z := t + LocalTZA rt.
Definition UTC (rt : Runtime) (t : Z) : Z := t - LocalTZA rt.

Definition getFullYear (rt : Runtime) (t : Z) : Z := YearFromTime (LocalTime rt t).
Definition getMonth (rt : Runtime) (t : Z) : Z := MonthFromTime (LocalTime rt t).
Definition getDate (rt : Runtime) (t : Z) : Z := DateFromTime (LocalTime rt t).

Definition getUTCFullYear (t : Z) : Z := YearFromTime t.
Definition getUTCMonth (t : Z) : Z := MonthFromTime t.
Definition getUTCDate (t : Z) : Z := DateFromTime t.

(** [Date.UTC(year, month, day, hours, minutes, seconds, ms)] *)
Definition DateUTC (year month day h mi s ms : Z) : Z :=
  MakeDate (MakeDay (MakeFullYear year) month day) (MakeTime h mi s ms).

(** [new Date(year, monthIndex, day)]: local midnight. *)
Definition newDateLocal (rt : Runtime) (year month day : Z) : Z :=
  UTC rt (MakeDate (MakeDay (MakeFullYear year) month day) (MakeTime 0 0 0 0)).

(** The time value that [setDate(date)] computes; the method stores its
    [TimeClip], and so do the two setters below. *)
Definition setDate (rt : Runtime) (t : Z) (dt : Z) : Z :=
  let lt := LocalTime rt t in
  UTC rt (MakeDate (MakeDay (YearFromTime lt) (MonthFromTime lt) dt)
                   (TimeWithinDay lt)).

(** [setMonth(month [, date])] *)
Definition setMonth (rt : Runtime) (t : Z) (m : Z) (odt : option Z) : Z :=
  let lt := LocalTime rt t in
  let dt := match odt with Some dt => dt | None => DateFromTime lt end in
  UTC rt (MakeDate (MakeDay (YearFromTime lt) m dt) (TimeWithinDay lt)).

(** [setFullYear(year [, month [, date]])] *)
Definition setFullYear (rt : Runtime) (t : Z) (y : Z) (om odt : option Z) : Z :=
  let lt := LocalTime rt t in
  let m := match om with Some m => m | None => MonthFromTime lt end in
  let dt := match odt with Some dt => dt | None => DateFromTime lt end in
  UTC rt (MakeDate (MakeDay y m dt) (TimeWithinDay lt)).

(** [toISOString()] of a valid date (on an invalid one it throws, which the
    callers below spell out): four digits for the years 0 to 9999,
    a sign and six digits otherwise. *)
Definition isoYear (y : Z) : string :=
  if (0 <=? y) && (y <=? 9999) then pad4 y
  else if y <? 0 then String "-" (pad6 (- y))
  else String "+" (pad6 y).

Definition toISOString (t : Z) : string :=
  isoYear (YearFromTime t) ++ "-" ++ pad2 (MonthFromTime t + 1) ++ "-"
  ++ pad2 (DateFromTime t) ++ "T" ++ pad2 (HourFromTime t) ++ ":"
  ++ pad2 (MinFromTime t) ++ ":" ++ pad2 (SecFromTime t) ++ "."
  ++ pad3 (msFromTime t) ++ "Z".

(** [date.toISOString()] *)
Definition toISOStringOf (date : Date) : Outcome string :=
  match date with
  | TimeValue t => Returned (toISOString t)
  | InvalidDate => Thrown RangeError
  end.

(** [new Date(s)] for a string.  The forms of the standard's date-time
    string format read here are the date alone and the date with a time in
    UTC, with or without milliseconds, and the form of [toISOString] with a
    signed year of six digits.  The hour 24 is the end of the day (with zero
    minutes, seconds and milliseconds), and a time value out of the range of
    [Date] is no date.  A string in one of these forms with a field out of
    its range is not an instance of the format, and what the engine makes of
    it, like of any other string, is [parse_other]. *)
Definition inRange (lo x hi : Z) : bool := (lo <=? x) && (x <=? hi).

Definition isoInstant (y mo d h mi s ms : Z) : Date :=
  if inRange 1 mo 12 && inRange 1 d (DaysInMonth y (mo - 1))
     && ((inRange 0 h 23 && inRange 0 mi 59 && inRange 0 s 59)
         || ((h =? 24) && (mi =? 0) && (s =? 0) && (ms =? 0)))
  then TimeClip (MakeDate (MakeDay y (mo - 1) d) (MakeTime h mi s ms))
  else InvalidDate.

Definition reTimeUTC : list item :=
  [Lit "T"; D 2 2; Lit ":"; D 2 2; Lit ":"; D 2 2; Lit "Z"].

Definition reTimeMsUTC : list item :=
  [Lit "T"; D 2 2; Lit ":"; D 2 2; Lit ":"; D 2 2; Lit "."; D 3 3; Lit "Z"].

Definition reExpandedDate : list item :=
  [OneOf ["+"; "-"]%char; D 6 6; Lit "-"; D 2 2; Lit "-"; D 2 2].

(** The numbers of a string in one of the forms: year, month, day, hours,
    minutes, seconds, milliseconds.  The year -000000 is not written. *)
Definition isoFields (s : string) : option (list Z) :=
  match matchFull reIsoDate s with
  | Some [y; _; mo; _; d] =>
      Some [digitsValue y; digitsValue mo; digitsValue d; 0; 0; 0; 0]
  | _ =>
    match matchFull (reIsoDate ++ reTimeUTC) s with
    | Some [y; _; mo; _; d; _; h; _; mi; _; sec; _] =>
        Some [digitsValue y; digitsValue mo; digitsValue d;
              digitsValue h; digitsValue mi; digitsValue sec; 0]
    | _ =>
      match matchFull (reIsoDate ++ reTimeMsUTC) s with
      | Some [y; _; mo; _; d; _; h; _; mi; _; sec; _; ms; _] =>
          Some [digitsValue y; digitsValue mo; digitsValue d;
                digitsValue h; digitsValue mi; digitsValue sec; digitsValue ms]
      | _ =>
        match matchFull (reExpandedDate ++ reTimeMsUTC) s with
        | Some [sign; y; _; mo; _; d; _; h; _; mi; _; sec; _; ms; _] =>
            let year :=
              if String.eqb sign "-" then - digitsValue y else digitsValue y in
            if String.eqb sign "-" && (digitsValue y =? 0) then None
            else Some [year; digitsValue mo; digitsValue d;
                       digitsValue h; digitsValue mi; digitsValue sec; digitsValue ms]
        | _ => None
        end
      end
    end
  end.

Definition DateParse (rt : Runtime) (s : string) : Date :=
  match isoFields s with
  | Some [y; mo; d; h; mi; sec; ms] =>
      match isoInstant y mo d h mi sec ms with
      | TimeValue t => TimeValue t
      | InvalidDate => parse_other rt s
      end
  | _ => parse_other rt s
  end.

(** Calendar dates, as the specification has them (month 1 to 12). *)
Record CalendarDate : Type := mkDate { year : Z; month : Z; day : Z }.

Definition validDate (d : CalendarDate) : Prop :=
  1 <= month d <= 12 /\ 1 <= day d <= DaysInMonth (year d) (month d - 1).

Definition utcDate (t : Z) : CalendarDate :=
  mkDate (getUTCFullYear t) (getUTCMonth t + 1) (getUTCDate t).

Definition localDate (rt : Runtime) (t : Z) : CalendarDate :=
  mkDate (getFullYear rt t) (getMonth rt t + 1) (getDate rt t).

End ESDate.

Module Dayjs.
Import ESDate.

Inductive unit : Type := day | month | year.

(** [daysInMonth()]: the date of the end of the month. *)
Definition daysInMonth (rt : Runtime) (t : Z) : Z :=
  DaysInMonth (getFullYear rt t) (getMonth rt t).

(** The private setter for the units month and year: go to the first of the
    month, call the native setter, then restore the day of the month, capped
    by the length of the month reached. *)
Definition setClamped (rt : Runtime) (t : Z) (u : unit) (arg : Z) : Z :=
  let dayOfMonth := getDate rt t in
  let date := setDate rt t 1 in
  let date :=
    match u with
    | year => setFullYear rt date arg None None
    | _ => setMonth rt date arg None
    end in
  setDate rt date (Z.min dayOfMonth (daysInMonth rt date)).

(** [dayjs().add(number, unit).toDate()]; a [NaN] number gives an invalid
    date.  The time value is the one the setters compute: the statements
    below about its results are for counts that keep it in the range of
    [Date]. *)
Definition add (rt : Runtime) (t : Z) (number : option Z) (u : unit) : Date :=
  match number with
  | None => InvalidDate
  | Some n =>
      TimeValue
        match u with
        | day => setDate rt t (getDate rt t + n)
        | month => setClamped rt t month (getMonth rt t + n)
        | year => setClamped rt t year (getFullYear rt t + n)
        end
  end.

End Dayjs.

Module DateFns.
Import ESDate.

(** [addMonths(date, amount)].  When the end of the desired month is out of
    the range of [Date] its day of the month is [NaN], the comparison is
    false, and [setFullYear] with a [NaN] year leaves an invalid date. *)
Definition addMonths (rt : Runtime) (date : Date) (amount : Z) : Date :=
  match date with
  | InvalidDate => InvalidDate
  | TimeValue t =>
      if amount =? 0 then date
      else
        let dayOfMonth := getDate rt t in
        match TimeClip (setMonth rt t (getMonth rt t + amount + 1) (Some 0)) with
        | InvalidDate => InvalidDate
        | TimeValue endOfDesiredMonth =>
            let daysInMonth := getDate rt endOfDesiredMonth in
            if dayOfMonth >=? daysInMonth then TimeValue endOfDesiredMonth
            else
              TimeClip
                (setFullYear rt t (getFullYear rt endOfDesiredMonth)
                   (Some (getMonth rt endOfDesiredMonth)) (Some dayOfMonth))
        end
  end.

(** [addYears(date, amount)] is [addMonths(date, amount * 12)]. *)
Definition addYears (rt : Runtime) (date : Date) (amount : Z) : Date :=
  addMonths rt date (amount * 12).

End DateFns.

(** ** The canonical date codec (original-date-picker.component.tsx) *)

Module Codec.
Import Throwing JSString ESDate.

(** [dateToISOString(date)]: the local year, month and day of [date], put at
    UTC midnight.  On an invalid date [toISOString] throws. *)
Definition dateToISOString (rt : Runtime) (date : Date) : Outcome string :=
  match date with
  | InvalidDate => Thrown RangeError
  | TimeValue t =>
      let year := getFullYear rt t in
      let month := getMonth rt t in
      let day := getDate rt t in
      let utcDate := DateUTC year month day 0 0 0 0 in
      Returned (toISOString utcDate)
  end.

(** [new Date(Date.UTC(year, month - 1, day, 12, 0, 0, 0))] for the three
    numbers destructured from an array; a missing or [NaN] element makes the
    date invalid. *)
Definition utcNoonOf (parts : list (option Z)) : Date :=
  match parts with
  | Some year :: Some month :: Some day :: _ =>
      TimeValue (DateUTC year (month - 1) day 12 0 0 0)
  | _ => InvalidDate
  end.

(** [parseDateFromISO(isoString)]; [None] is [null]. *)
Definition parseDateFromISO (isoString : string) : option Date :=
  if isEmpty isoString then None
  else
    match matchPrefix reIsoDate isoString with
    | None => None
    | Some dateMatch =>
        Some (utcNoonOf (map Number (split "-" (concat dateMatch))))
    end.

(** [parseDateString(dateString)]: the ISO prefix first, then the localized
    form with its three groups (month, day, year) and its range check. *)
Definition parseDateString (dateString : string) : option Date :=
  if isEmpty dateString then None
  else
    match matchPrefix reIsoDate dateString with
    | Some isoMatch =>
        Some (utcNoonOf (map Number (split "-" (concat isoMatch))))
    | None =>
        match matchFull reMonthDayYear4 dateString with
        | Some [g1; _; g2; _; g3] =>
            match Number g1, Number g2, Number g3 with
            | Some month, Some day, Some year =>
                if (month <? 1) || (month >? 12) || (day <? 1) || (day >? 31)
                then None
                else Some (TimeValue (DateUTC year (month - 1) day 12 0 0 0))
            | _, _, _ => Some InvalidDate
            end
        | _ => None
        end
    end.

(** [extractDateOnly(isoString)] *)
Definition extractDateOnly (isoString : string) : option string :=
  if isEmpty isoString then None
  else
    match matchPrefix reIsoDate isoString with
    | Some dateMatch => Some (concat dateMatch)
    | None => None
    end.

End Codec.

(** ** The state of a [FormDatePicker] and the events it handles *)

Module Form.
Import Throwing JSString ESDate.

(** The Formik field ([field.value], [meta.error], [meta.touched]) and the
    component's own state.  The helpers of Formik are plain assignments
    here; the validation runs that Formik may start on its own are outside
    the components and are not modelled. *)
Record State : Type := mkState {
  value : option string;
  error : option string;
  touched : bool;
  inputValue : string;
  isFocused : bool
}.

Definition setValue (v : option string) (st : State) : State :=
  mkState v (error st) (touched st) (inputValue st) (isFocused st).

Definition setError (e : option string) (st : State) : State :=
  mkState (value st) e (touched st) (inputValue st) (isFocused st).

Definition setTouched (b : bool) (st : State) : State :=
  mkState (value st) (error st) b (inputValue st) (isFocused st).

Definition setInputValue (s : string) (st : State) : State :=
  mkState (value st) (error st) (touched st) s (isFocused st).

Definition setIsFocused (b : bool) (st : State) : State :=
  mkState (value st) (error st) (touched st) (inputValue st) b.

(** Truthiness of a [string | null | undefined]. *)
Definition truthy (o : option string) : bool :=
  match o with Some s => negb (isEmpty s) | None => false end.

(** [errorState]: [meta.touched && Boolean(meta.error)]. *)
Definition errorState (st : State) : bool := touched st && truthy (error st).

Inductive Key : Type :=
| ArrowLeft | ArrowRight | ArrowUp | ArrowDown | Tab | Enter | OtherKey.

Definition invalidDateFormat : string := "Invalid date format".

(** [format(date, 'P', {locale})]: date-fns throws on an invalid date. *)
Definition formatDate (rt : Runtime) (date : Date) : Outcome string :=
  match date with
  | TimeValue t => Returned (format_P rt t)
  | InvalidDate => Thrown RangeError
  end.

End Form.

(** ** date-picker-component.tsx *)

Module Picker.
Import Throwing JSString ESDate Form.

(** The effect that runs once on mount: a default value from the props of
    the text field replaces the initial value; [None] is [undefined], and a
    default that is not a non-blank string stores [null]. *)
Definition initFromDefault (st : State) (defaultValue : option string) : State :=
  match defaultValue with
  | None => st
  | Some s => if isEmpty (trim s) then setValue None st else setValue (Some s) st
  end.

(** The effect that runs when the field value changes: the input shows the
    formatted [new Date(field.value)]. *)
Definition syncInputValue (rt : Runtime) (st : State) : Outcome State :=
  if truthy (value st) then
    match value st with
    | Some v =>
        let* formatted := formatDate rt (DateParse rt v) in
        Returned (setInputValue formatted st)
    | None => Returned (setInputValue EmptyString st)
    end
  else Returned (setInputValue EmptyString st).

(** [parseShortcut(input)] *)
Definition parseShortcut (rt : Runtime) (input : string) : option Date :=
  let trimmed := toLowerCase (trim input) in
  match matchFull reShortcut trimmed with
  | Some [type; numStr] =>
      let num := if isEmpty numStr then Some 0 else parseInt numStr in
      if String.eqb type "d" then Some (Dayjs.add rt (now rt) num Dayjs.day)
      else if String.eqb type "m" then Some (Dayjs.add rt (now rt) num Dayjs.month)
      else if String.eqb type "y" then Some (Dayjs.add rt (now rt) num Dayjs.year)
      else None
  | _ => None
  end.

(** [handleInputChange] *)
Definition handleInputChange (st : State) (newValue : string) : State :=
  let st := setInputValue newValue st in
  if truthy (error st) then setError None st else st.

(** The three statements of every successful commit: the value is
    [date.toISOString()], which throws on an invalid date, the error is
    cleared and the input shows the formatted date. *)
Definition commit (rt : Runtime) (st : State) (date : Date) : Outcome State :=
  let* isoDate := toISOStringOf date in
  let st := setError None (setValue (Some isoDate) st) in
  let* formatted := formatDate rt date in
  Returned (setInputValue formatted st).

(** [handleKeyDown]; [text] is the value of the input element. *)
Definition handleKeyDown (rt : Runtime) (st : State)
    (ctrlKey : bool) (key : Key) (text : string) : Outcome State :=
  let currentValue := value st in
  match ctrlKey, key with
  | true, (ArrowLeft | ArrowRight) =>
      if truthy currentValue then
        match currentValue with
        | Some v =>
            let currentDate := DateParse rt v in
            let newDate :=
              match key with
              | ArrowLeft => DateFns.addMonths rt currentDate (-1)
              | _ => DateFns.addMonths rt currentDate 1
              end in
            commit rt st newDate
        | None => Returned st
        end
      else Returned st
  | true, (ArrowUp | ArrowDown) =>
      if truthy currentValue then
        match currentValue with
        | Some v =>
            let currentDate := DateParse rt v in
            let newDate :=
              match key with
              | ArrowUp => DateFns.addYears rt currentDate 1
              | _ => DateFns.addYears rt currentDate (-1)
              end in
            commit rt st newDate
        | None => Returned st
        end
      else Returned st
  | _, (Tab | Enter) =>
      match parseShortcut rt (trim text) with
      | Some shortcutDate => commit rt st shortcutDate
      | None => Returned st
      end
  | _, _ => Returned st
  end.

(** [handleFocus] *)
Definition handleFocus (st : State) : State := setIsFocused true st.

(** The month and day range check of [handleBlur], made before any parsing:
    [true] when the input is numeric and out of range. *)
Definition numericOutOfRange (v : string) : bool :=
  if testNumericDate v then
    let parts := split "/" v in
    match parseInt (nth 0 parts EmptyString), parseInt (nth 1 parts EmptyString) with
    | Some month, Some day =>
        (month <? 1) || (month >? 12) || (day <? 1) || (day >? 31)
    | _, _ => false
    end
  else false.

(** [new Date(y, parseInt(month) - 1, parseInt(day))] on split parts. *)
Definition dateOfParts (rt : Runtime) (y month day : option Z) : Date :=
  match y, month, day with
  | Some y, Some m, Some d => TimeValue (newDateLocal rt y (m - 1) d)
  | _, _, _ => InvalidDate
  end.

(** The chain of patterns of [handleBlur] that computes [parsed]. *)
Definition parsePatterns (rt : Runtime) (v : string) : Date :=
  let currentYear := getFullYear rt (now rt) in
  let parts := split "/" v in
  let month := nth 0 parts EmptyString in
  let day := nth 1 parts EmptyString in
  let year := nth 2 parts EmptyString in
  if test reMonthDay v then
    dateOfParts rt (Some currentYear) (parseInt month) (parseInt day)
  else if test reMonthDayYear2 v then
    let fullYear := option_map (fun y => y + 2000) (parseInt year) in
    dateOfParts rt fullYear (parseInt month) (parseInt day)
  else if test reMonthDayYear4 v then
    dateOfParts rt (parseInt year) (parseInt month) (parseInt day)
  else parse_P rt v.

(** [handleBlur]; [text] is [event.target.value]. *)
Definition handleBlur (rt : Runtime) (st : State) (text : string) : Outcome State :=
  let st := setTouched true (setIsFocused false st) in
  let v := trim text in
  if isEmpty v then
    Returned (setInputValue EmptyString (setError None (setValue None st)))
  else
    match parseShortcut rt v with
    | Some shortcutDate => commit rt st shortcutDate
    | None =>
        if numericOutOfRange v then Returned (setError (Some invalidDateFormat) st)
        else
          let parsed := parsePatterns rt v in
          match parsed with
          | TimeValue _ => commit rt st parsed
          | InvalidDate => Returned (setError (Some invalidDateFormat) st)
          end
    end.

(** [handleDateChange]: a selection in the calendar. *)
Definition handleDateChange (rt : Runtime) (st : State) (date : option Date)
  : Outcome State :=
  match date with
  | Some d => commit rt st d
  | None => Returned (setInputValue EmptyString (setError None (setValue None st)))
  end.

(** [clearDate] *)
Definition clearDate (st : State) : State :=
  setInputValue EmptyString (setError None (setValue None st)).

(** [dateValue]: what the calendar is given. *)
Definition dateValue (rt : Runtime) (st : State) : option Date :=
  if truthy (value st) then
    match value st with
    | Some v => Some (DateParse rt v)
    | None => None
    end
  else None.

(** The events wired to the text field, the calendar and the clear button. *)
Inductive Event : Type :=
| Change (newValue : string)
| KeyDown (ctrlKey : bool) (key : Key) (text : string)
| Focus
| Blur (text : string)
| DateChange (date : option Date)
| Clear.

Definition handle (rt : Runtime) (st : State) (ev : Event) : Outcome State :=
  match ev with
  | Change newValue => Returned (handleInputChange st newValue)
  | KeyDown ctrlKey key text => handleKeyDown rt st ctrlKey key text
  | Focus => Returned (handleFocus st)
  | Blur text => handleBlur rt st text
  | DateChange date => handleDateChange rt st date
  | Clear => Returned (clearDate st)
  end.

End Picker.

(** ** original-date-picker.component.tsx, the variant that stores UTC
       midnight *)

Module PickerUTC.
Import Throwing JSString ESDate Form Codec.

Definition parseShortcut := Picker.parseShortcut.

Definition handleInputChange := Picker.handleInputChange.

(** The effect that runs once on mount: a default value is parsed and stored
    in canonical form. *)
Definition initFromDefault (rt : Runtime) (st : State) (defaultValue : option string)
  : Outcome State :=
  match defaultValue with
  | None => Returned st
  | Some s =>
      if isEmpty (trim s) then Returned (setValue None st)
      else
        match parseDateString s with
        | Some parsedDate =>
            let* normalizedISO := dateToISOString rt parsedDate in
            Returned (setValue (Some normalizedISO) st)
        | None => Returned (setValue None st)
        end
  end.

(** The effect that runs when the field value changes: the input shows the
    formatted date that [parseDateString] reads from the value (or from the
    default value while the field has none). *)
Definition syncInputValue (rt : Runtime) (st : State) (defaultValue : option string)
  : Outcome State :=
  let valueToUse := match value st with Some v => Some v | None => defaultValue end in
  if truthy valueToUse then
    match valueToUse with
    | Some v =>
        match parseDateString v with
        | Some parsedDate =>
            let* formatted := formatDate rt parsedDate in
            Returned (setInputValue formatted st)
        | None => Returned (setInputValue EmptyString st)
        end
    | None => Returned (setInputValue EmptyString st)
    end
  else Returned (setInputValue EmptyString st).

(** A successful commit: the value is [dateToISOString(date)]. *)
Definition commit (rt : Runtime) (st : State) (date : Date) : Outcome State :=
  let* isoDate := dateToISOString rt date in
  let st := setError None (setValue (Some isoDate) st) in
  let* formatted := formatDate rt date in
  Returned (setInputValue formatted st).

(** [handleKeyDown] *)
Definition handleKeyDown (rt : Runtime) (st : State)
    (ctrlKey : bool) (key : Key) (text : string) : Outcome State :=
  let currentValue := value st in
  match ctrlKey, key with
  | true, (ArrowLeft | ArrowRight) =>
      if truthy currentValue then
        match currentValue with
        | Some v =>
            match parseDateString v with
            | Some currentDate =>
                let newDate :=
                  match key with
                  | ArrowLeft => DateFns.addMonths rt currentDate (-1)
                  | _ => DateFns.addMonths rt currentDate 1
                  end in
                commit rt st newDate
            | None => Returned st
            end
        | None => Returned st
        end
      else Returned st
  | true, (ArrowUp | ArrowDown) =>
      if truthy currentValue then
        match currentValue with
        | Some v =>
            match parseDateString v with
            | Some currentDate =>
                let newDate :=
                  match key with
                  | ArrowUp => DateFns.addYears rt currentDate 1
                  | _ => DateFns.addYears rt currentDate (-1)
                  end in
                commit rt st newDate
            | None => Returned st
            end
        | None => Returned st
        end
      else Returned st
  | _, (Tab | Enter) =>
      match parseShortcut rt (trim text) with
      | Some shortcutDate => commit rt st shortcutDate
      | None => Returned st
      end
  | _, _ => Returned st
  end.

(** [handleBlur] *)
Definition handleBlur (rt : Runtime) (st : State) (text : string) : Outcome State :=
  let st := setTouched true (setIsFocused false st) in
  let v := trim text in
  if isEmpty v then
    Returned (setInputValue EmptyString (setError None (setValue None st)))
  else
    match parseShortcut rt v with
    | Some shortcutDate => commit rt st shortcutDate
    | None =>
        if Picker.numericOutOfRange v
        then Returned (setError (Some invalidDateFormat) st)
        else
          let parsed := Picker.parsePatterns rt v in
          match parsed with
          | TimeValue _ => commit rt st parsed
          | InvalidDate => Returned (setError (Some invalidDateFormat) st)
          end
    end.

(** [handleDateChange]: only a selection in the day view commits. *)
Definition handleDateChange (rt : Runtime) (st : State) (dayView : bool)
    (date : option Date) : Outcome State :=
  if dayView then
    match date with
    | Some d => commit rt st d
    | None => Returned (setInputValue EmptyString (setError None (setValue None st)))
    end
  else Returned st.

(** [dateValue] *)
Definition dateValue (st : State) : option Date :=
  if truthy (value st) then
    match value st with
    | Some v => parseDateString v
    | None => None
    end
  else None.

End PickerUTC.

(** ** The variant that tries the locale format first and has no error
       message (unnamed part 0) *)

Module PickerLocaleFirst.
Import Throwing JSString ESDate Form.

Definition parseShortcut := Picker.parseShortcut.

(** [validateField] clears the error. *)
Definition validateField (st : State) : State := setError None st.

Definition commit (rt : Runtime) (st : State) (date : Date) : Outcome State :=
  let* isoDate := toISOStringOf date in
  let st := validateField (setValue (Some isoDate) st) in
  let* formatted := formatDate rt date in
  Returned (setInputValue formatted st).

(** The partial dates tried when the locale format fails. *)
Definition parsePartial (rt : Runtime) (v : string) (parsed : Date) : Date :=
  let currentYear := getFullYear rt (now rt) in
  let parts := split "/" v in
  let month := nth 0 parts EmptyString in
  let day := nth 1 parts EmptyString in
  let year := nth 2 parts EmptyString in
  if test reMonthDay v then
    Picker.dateOfParts rt (Some currentYear) (parseInt month) (parseInt day)
  else if test reMonthDayYear2 v then
    let fullYear := option_map (fun y => y + 2000) (parseInt year) in
    Picker.dateOfParts rt fullYear (parseInt month) (parseInt day)
  else if test reMonthDayYear4 v then
    Picker.dateOfParts rt (parseInt year) (parseInt month) (parseInt day)
  else parsed.

(** [handleBlur] *)
Definition handleBlur (rt : Runtime) (st : State) (text : string) : Outcome State :=
  let st := setIsFocused false st in
  let v := trim text in
  if isEmpty v then Returned (setInputValue EmptyString (setValue None st))
  else
    match parseShortcut rt v with
    | Some shortcutDate => commit rt st shortcutDate
    | None =>
        let parsed := parse_P rt v in
        let parsed :=
          match parsed with
          | InvalidDate => parsePartial rt v parsed
          | TimeValue _ => parsed
          end in
        match parsed with
        | TimeValue _ => commit rt st parsed
        | InvalidDate =>
            Returned (validateField (setInputValue EmptyString (setValue None st)))
        end
    end.

End PickerLocaleFirst.

(** ** The variant built on the library's [DatePicker], with the shortcuts
       written inside [handleInputBlur] (unnamed part 1) *)

Module PickerInline.
Import Throwing JSString ESDate Form.

Definition validateField (st : State) : State := setError None st.

(** The expression tested on the trimmed input, with the flag i: d, m or y
    followed by any number of digits.  Ignoring case is matching the
    lower-cased input. *)
Definition testShortcutToken (trimmed : string) : bool :=
  let s := toLowerCase trimmed in
  test [Lit "d"; Digits 0 None] s || test [Lit "m"; Digits 0 None] s
  || test [Lit "y"; Digits 0 None] s || test [Lit "d"] s.

(** [handleInputBlur]; the text is the current [inputValue]. *)
Definition handleInputBlur (rt : Runtime) (st : State) : Outcome State :=
  let trimmed := trim (inputValue st) in
  if isEmpty trimmed then Returned (setValue None st)
  else
    let parsedDate : option Date :=
      if testShortcutToken trimmed then
        let token := toLowerCase trimmed in
        if String.eqb token "d" then Some (TimeValue (now rt))
        else if startsWith token "d" then
          Some (Dayjs.add rt (now rt) (parseInt (slice1 token)) Dayjs.day)
        else if startsWith token "m" then
          Some (Dayjs.add rt (now rt) (parseInt (slice1 token)) Dayjs.month)
        else if startsWith token "y" then
          Some (Dayjs.add rt (now rt) (parseInt (slice1 token)) Dayjs.year)
        else None
      else
        match parse_P rt trimmed with
        | TimeValue t => Some (TimeValue t)
        | InvalidDate => None
        end in
    match parsedDate with
    | Some (TimeValue t) =>
        Returned (validateField
                    (setInputValue (format_P rt t) (setValue (Some (toISOString t)) st)))
    | _ => Returned (validateField (setInputValue EmptyString (setValue None st)))
    end.

End PickerInline.

(** ** The shortcut branches of [CustomDateField.handleBlur]
       (original-date-picker.component.tsx, the dayjs variant) *)

Module CustomDateField.
Import JSString ESDate.

(** The date given to [pickerContext.setValue] by the first four branches;
    [None] when the input goes on to the date branches. *)
Definition shortcutBranch (rt : Runtime) (text : string) : option Date :=
  let currentInput := trim text in
  let lower := toLowerCase currentInput in
  if String.eqb lower "d" then Some (TimeValue (now rt))
  else if test [Lit "d"; Digits 1 None] lower then
    Some (Dayjs.add rt (now rt) (parseInt (slice1 lower)) Dayjs.day)
  else if test [Lit "m"; Digits 1 None] lower then
    Some (Dayjs.add rt (now rt) (parseInt (slice1 lower)) Dayjs.month)
  else if test [Lit "y"; Digits 1 None] lower then
    Some (Dayjs.add rt (now rt) (parseInt (slice1 lower)) Dayjs.year)
  else None.

End CustomDateField.

(** ** Vocabulary of the statements *)

Module Spec.
Import Throwing JSString ESDate Form.

(** The canonical text of a date: its numerals and a zero time of day in
    UTC. *)
Definition canonicalText (y m d : Z) : string :=
  pad4 y ++ "-" ++ pad2 m ++ "-" ++ pad2 d ++ "T00:00:00.000Z".

(** A run of between [lo] and [hi] digits. *)
Definition digitRun (lo hi : nat) (s : string) : Prop :=
  allDigits s = true /\ (lo <= String.length s <= hi)%nat.

(** The slash-delimited numeric inputs: month, day and an optional year. *)
Definition slashed (ms ds : string) (oy : option string) : string :=
  match oy with
  | None => ms ++ "/" ++ ds
  | Some ys => ms ++ "/" ++ ds ++ "/" ++ ys
  end.

(** The string begins with four digits, a dash, two digits, a dash and two
    digits. *)
Definition hasDatePrefix (s : string) : Prop :=
  exists y m d rest,
    digitRun 4 4 y /\ digitRun 2 2 m /\ digitRun 2 2 d /\
    s = y ++ "-" ++ m ++ "-" ++ d ++ rest.

(** The range check of the sources on a month and a day. *)
Definition outOfRange (m d : Z) : bool :=
  (m <? 1) || (m >? 12) || (d <? 1) || (d >? 31).

(** An optional year of two or of four digits. *)
Definition yearRun (oy : option string) : Prop :=
  match oy with
  | None => True
  | Some ys => digitRun 2 2 ys \/ digitRun 4 4 ys
  end.

(** The year the slash forms give to the [Date] constructor: the current
    year, 2000 plus a two-digit year, or a four-digit year. *)
Definition yearOf (rt : Runtime) (oy : option string) : Z :=
  match oy with
  | None => getFullYear rt (now rt)
  | Some ys =>
      if (String.length ys =? 2)%nat then digitsValue ys + 2000
      else digitsValue ys
  end.

(** The state after the first two statements of [handleBlur], and after its
    error branch. *)
Definition blurred (st : State) : State :=
  setTouched true (setIsFocused false st).

Definition rejected (st : State) : State :=
  setError (Some invalidDateFormat) (blurred st).

(** Month stepping as the specification words it: [delta] months later, the
    day of the month capped by the length of the month reached. *)
Definition shiftMonth (d : CalendarDate) (delta : Z) : CalendarDate :=
  let k := month d - 1 + delta in
  let y' := year d + k / 12 in
  let m' := k mod 12 in
  mkDate y' (m' + 1) (Z.min (day d) (DaysInMonth y' m')).

(** A commit (blur) whose non-empty input is no shortcut and that the
    flexible parser of date-picker-component.tsx rejects. *)
Definition failsToParse (rt : Runtime) (text : string) : Prop :=
  trim text <> EmptyString /\
  Picker.parseShortcut rt (trim text) = None /\
  (Picker.numericOutOfRange (trim text) = true \/
   Picker.parsePatterns rt (trim text) = InvalidDate).

(** A runtime for the examples: a fixed offset; the short date format of
    the en-US locale, MM/dd/yyyy, as date-fns writes and reads it (the year
    of the era, which is one minus the year for the years up to 0, written
    with four digits or more; read with a month and a day of one or two
    digits and a year from 1 of one to four digits, the day valid for its
    month); and an engine that reads a day of the month up to 31 in any
    month, counting on into the next month, and no other date string
    outside the forms of [DateParse]. *)
Definition decimal (n : Z) : string :=
  NilZero.string_of_uint (N.to_uint (Z.to_N n)).

Definition yearOfEra (y : Z) : Z := if 0 <? y then y else 1 - y.

Definition format_yyyy (y : Z) : string :=
  if yearOfEra y <? 10000 then pad4 (yearOfEra y) else decimal (yearOfEra y).

Definition format_enUS (tz : Z) (t : Z) : string :=
  let lt := t + tz in
  pad2 (MonthFromTime lt + 1) ++ "/" ++ pad2 (DateFromTime lt) ++ "/"
  ++ format_yyyy (YearFromTime lt).

Definition parse_enUS (tz : Z) (s : string) : Date :=
  match matchFull [D 1 2; Lit "/"; D 1 2; Lit "/"; D 1 4] s with
  | Some [ms; _; ds; _; ys] =>
      let m := digitsValue ms in
      let d := digitsValue ds in
      let y := digitsValue ys in
      if (1 <=? y) && inRange 1 m 12 && inRange 1 d (DaysInMonth y (m - 1))
      then TimeValue (MakeDate (MakeDay y (m - 1) d) 0 - tz)
      else InvalidDate
  | _ => InvalidDate
  end.

Definition parse_lenient (s : string) : Date :=
  match isoFields s with
  | Some [y; mo; d; h; mi; sec; ms] =>
      if inRange 1 mo 12 && inRange 1 d 31
         && ((inRange 0 h 23 && inRange 0 mi 59 && inRange 0 sec 59)
             || ((h =? 24) && (mi =? 0) && (sec =? 0) && (ms =? 0)))
      then TimeClip (MakeDate (MakeDay y (mo - 1) d) (MakeTime h mi sec ms))
      else InvalidDate
  | _ => InvalidDate
  end.

Definition sampleRuntime (tz : Z) (now : Z) : Runtime :=
  {| LocalTZA := tz;
     now := now;
     parse_P := parse_enUS tz;
     format_P := format_enUS tz;
     parse_other := parse_lenient |}.

(** 2025-01-15T10:30:00Z *)
Definition sampleNow : Z := 1736937000000.

(** UTC, India (UTC+5:30) and Auckland in winter (UTC+12). *)
Definition rtUTC : Runtime := sampleRuntime 0 sampleNow.
Definition rtIST : Runtime := sampleRuntime 19800000 sampleNow.
Definition rtNZST : Runtime := sampleRuntime 43200000 sampleNow.

Definition emptyState : State := mkState None None false EmptyString false.

End Spec.

(** ** More vocabulary of the statements *)

Module Token.
Import JSString ESDate.

(** The letters of the shortcuts and the units they stand for. *)
Definition isUnitLetter (c : ascii) : Prop :=
  c = "d"%char \/ c = "m"%char \/ c = "y"%char.

Definition unitOf (c : ascii) : Dayjs.unit :=
  if Ascii.eqb c "d" then Dayjs.day
  else if Ascii.eqb c "m" then Dayjs.month else Dayjs.year.

(** A string of white space only. *)
Fixpoint allSpaces (s : string) : bool :=
  match s with
  | EmptyString => true
  | String c r => isSpace c && allSpaces r
  end.

(** The text of an instant at midnight in UTC. *)
Definition utcMidnightText (v : string) : Prop :=
  exists t, v = toISOString t /\ TimeWithinDay t = 0.

(** The current instant is in the years 1970 to 9999 and the offset of the
    time zone is at most a day. *)
Definition plausibleNow (rt : Runtime) : Prop :=
  0 <= now rt <= 253402300799999 /\ - msPerDay <= LocalTZA rt <= msPerDay.

(** If the text is a shortcut, its count has at most [n] digits. *)
Definition countWithin (n : nat) (text : string) : Prop :=
  forall c ds,
    toLowerCase (trim text) = String c ds -> isUnitLetter c -> allDigits ds = true ->
    (String.length ds <= n)%nat.

End Token.

(** ** [getLocaleFromBrowser] *)

Module Locale.
Import JSString Form.

(** The locales of date-fns that the components import. *)
Inductive Locale : Type :=
| enUS | enGB | fr | de | es | it | ja | zhCN | zhTW | ptBR.

(** What a property lookup on the object [localeMap] finds: one of its ten
    own properties, or a property that every object inherits. *)
Inductive Found : Type :=
| own (l : Locale)
| inherited (name : string).

Definition inheritedNames : list string :=
  ["constructor"; "__defineGetter__"; "__defineSetter__"; "hasOwnProperty";
   "__lookupGetter__"; "__lookupSetter__"; "isPrototypeOf";
   "propertyIsEnumerable"; "toString"; "valueOf"; "__proto__";
   "toLocaleString"].

Definition ownProperties : list (string * Locale) :=
  [("en-us", enUS); ("en-gb", enGB); ("fr", fr); ("de", de); ("es", es);
   ("it", it); ("ja", ja); ("zh-cn", zhCN); ("zh-tw", zhTW); ("pt-br", ptBR)].

Fixpoint assoc (key : string) (props : list (string * Locale)) : option Locale :=
  match props with
  | [] => None
  | (k, l) :: rest => if String.eqb key k then Some l else assoc key rest
  end.

Fixpoint memString (s : string) (l : list string) : bool :=
  match l with
  | [] => false
  | x :: r => String.eqb s x || memString s r
  end.

(** [localeMap[key]]; [None] is [undefined]. *)
Definition localeMap (key : string) : option Found :=
  match assoc key ownProperties with
  | Some l => Some (own l)
  | None => if memString key inheritedNames then Some (inherited key) else None
  end.

(** [getLocaleFromBrowser()]; the argument is [navigator.language]. *)
Definition getLocaleFromBrowser (language : option string) : Found :=
  let lang :=
    toLowerCase
      match language with
      | Some s => if isEmpty s then "en-US" else s
      | None => "en-US"
      end in
  match localeMap lang with
  | Some found => found
  | None =>
      match localeMap (nth 0 (split "-" lang) EmptyString) with
      | Some found => found
      | None => own enUS
      end
  end.

(** [locale || getLocaleFromBrowser()] *)
Definition detectedLocale (locale : option Locale) (language : option string) : Found :=
  match locale with
  | Some l => own l
  | None => getLocaleFromBrowser language
  end.

End Locale.

(** ** What the text field of date-picker-component.tsx is given *)

Module Display.
Import Throwing JSString ESDate Form.

(** [displayError]: the error once the field is touched, the helper text
    otherwise. *)
Definition displayError (st : State) (helperText : option string) : option string :=
  if touched st && truthy (error st) then error st else helperText.

(** The clear button is rendered when [inputValue && isFocused]. *)
Definition showsClearButton (st : State) : bool :=
  negb (isEmpty (inputValue st)) && isFocused st.

Definition newline : string := String (ascii_of_nat 10) EmptyString.

(** [tooltipTitle]: the text of the tooltip, with the four dates computed
    from the current instant. *)
Definition tooltipTitle (rt : Runtime) : Outcome string :=
  let today := TimeValue (now rt) in
  let* todayFormatted := formatDate rt today in
  let* oneDayMore := formatDate rt (Dayjs.add rt (now rt) (Some 1) Dayjs.day) in
  let* oneMonthMore := formatDate rt (DateFns.addMonths rt today 1) in
  let* oneYearMore := formatDate rt (DateFns.addYears rt today 1) in
  Returned
    ("d - Current date (" ++ todayFormatted ++ ")" ++ newline ++
     "d1 - One day more (" ++ oneDayMore ++ ")" ++ newline ++
     "m1 - One month more (" ++ oneMonthMore ++ ")" ++ newline ++
     "y1 - One year more (" ++ oneYearMore ++ ")" ++ newline ++
     "Ctrl+Left/Right - Previous/Next month" ++ newline ++
     "Ctrl+Up/Down - Next/Previous year").

End Display.

(** ** A run of the component of date-picker-component.tsx *)

Module Session.
Import Throwing JSString ESDate Form.

Definition sameValue (a b : option string) : bool :=
  match a, b with
  | Some x, Some y => String.eqb x y
  | None, None => true
  | _, _ => false
  end.

(** One event: its handler, then the effect that depends on [field.value]
    when the value has changed. *)
Definition step (rt : Runtime) (st : State) (ev : Picker.Event) : Outcome State :=
  let* st' := Picker.handle rt st ev in
  if sameValue (value st') (value st) then Returned st'
  else Picker.syncInputValue rt st'.

Fixpoint run (rt : Runtime) (st : State) (evs : list Picker.Event) : Outcome State :=
  match evs with
  | [] => Returned st
  | ev :: rest => let* st' := step rt st ev in run rt st' rest
  end.

Definition isBlur (ev : Picker.Event) : bool :=
  match ev with Picker.Blur _ => true | _ => false end.

End Session.

(** ** The calendar of original-date-picker.component.tsx, with its views *)

Module CalendarPopover.
Import Throwing JSString ESDate Form.

Inductive DateView : Type := year | month | day.

(** The form state with [calendarView] and whether the popover is open
    ([anchorEl] is set). *)
Record State : Type := mkState {
  form : Form.State;
  calendarView : DateView;
  open : bool
}.

Definition onForm (f : Form.State -> Form.State) (st : State) : State :=
  mkState (f (form st)) (calendarView st) (open st).

(** [handleViewChange] *)
Definition handleViewChange (st : State) (newView : DateView) : State :=
  mkState (form st) newView (open st).

(** [handleOpenCalendar] *)
Definition handleOpenCalendar (st : State) : State :=
  mkState (form st) day true.

(** [onClose] of the popover. *)
Definition handleClose (st : State) : State :=
  mkState (form st) (calendarView st) false.

(** [handleDateChange]: in the day view the selection is committed and the
    popover closed; in the other views nothing is done. *)
Definition handleDateChange (rt : Runtime) (st : State) (date : option Date)
  : Outcome State :=
  match calendarView st with
  | day =>
      let* f := PickerUTC.handleDateChange rt (form st) true date in
      Returned (mkState f (calendarView st) false)
  | _ => Returned st
  end.

(** [clearDate] *)
Definition clearDate (st : Form.State) : Form.State :=
  setInputValue EmptyString (setError None (setValue None st)).

Inductive Event : Type :=
| Change (newValue : string)
| KeyDown (ctrlKey : bool) (key : Key) (text : string)
| Focus
| Blur (text : string)
| OpenCalendar
| ViewChange (newView : DateView)
| DateChange (date : option Date)
| Close
| Clear.

Definition liftForm (st : State) (o : Outcome Form.State) : Outcome State :=
  outcome_map (fun f => mkState f (calendarView st) (open st)) o.

Definition handle (rt : Runtime) (st : State) (ev : Event) : Outcome State :=
  match ev with
  | Change newValue => Returned (onForm (fun f => PickerUTC.handleInputChange f newValue) st)
  | KeyDown ctrlKey key text =>
      liftForm st (PickerUTC.handleKeyDown rt (form st) ctrlKey key text)
  | Focus => Returned (onForm Picker.handleFocus st)
  | Blur text => liftForm st (PickerUTC.handleBlur rt (form st) text)
  | OpenCalendar => Returned (handleOpenCalendar st)
  | ViewChange newView => Returned (handleViewChange st newView)
  | DateChange date => handleDateChange rt st date
  | Close => Returned (handleClose st)
  | Clear => Returned (onForm clearDate st)
  end.

End CalendarPopover.


(* ================================================================== *)
(** * Part II: properties *)
(* ================================================================== *)

(** ** Calendar arithmetic *)

Module DateFacts.
Import Throwing JSString ESDate.

Lemma div_succ_step a n : 0 < n ->
  (a + 1) / n = a / n + (if (a + 1) mod n =? 0 then 1 else 0).
Proof.
  intros Hn. destruct ((a + 1) mod n =? 0) eqn:E.
  - apply Z.eqb_eq in E.
    pose proof (Z.div_mod (a+1) n ltac:(lia)). pose proof (Z.div_mod a n ltac:(lia)).
    pose proof (Z.mod_pos_bound a n Hn). nia.
  - apply Z.eqb_neq in E.
    pose proof (Z.div_mod (a+1) n ltac:(lia)). pose proof (Z.div_mod a n ltac:(lia)).
    pose proof (Z.mod_pos_bound a n Hn). pose proof (Z.mod_pos_bound (a+1) n Hn). nia.
Qed.

Lemma DayFromYear_succ y : DayFromYear (y + 1) = DayFromYear y + DaysInYear y.
Proof.
  unfold DayFromYear, DaysInYear.
  replace (y + 1 - 1969) with (y - 1969 + 1) by lia.
  replace (y + 1 - 1901) with (y - 1901 + 1) by lia.
  replace (y + 1 - 1601) with (y - 1601 + 1) by lia.
  rewrite !div_succ_step by lia.
  replace (y - 1969 + 1) with (y + (-492) * 4) by lia.
  replace (y - 1901 + 1) with (y + (-19) * 100) by lia.
  replace (y - 1601 + 1) with (y + (-4) * 400) by lia.
  rewrite !Z.mod_add by lia.
  destruct (y mod 4 =? 0) eqn:E4; destruct (y mod 100 =? 0) eqn:E100;
  destruct (y mod 400 =? 0) eqn:E400; cbn [negb]; try lia;
  rewrite ?Z.eqb_eq, ?Z.eqb_neq in *.
  all: exfalso; Z.div_mod_to_equations; lia.
Qed.

Lemma DaysInYear_cases y : DaysInYear y = 365 \/ DaysInYear y = 366.
Proof. unfold DaysInYear. repeat destruct (_ =? _); cbn [negb]; auto. Qed.

Lemma leapDays_DaysInYear y : DaysInYear y = 365 + leapDays y.
Proof. unfold leapDays. destruct (DaysInYear_cases y) as [H|H]; rewrite H; reflexivity. Qed.

Lemma leapDays_cases y : leapDays y = 0 \/ leapDays y = 1.
Proof. unfold leapDays. destruct (_ =? _); auto. Qed.

Lemma DayFromYear_mono y y' : y <= y' -> DayFromYear y <= DayFromYear y'.
Proof. intros H. unfold DayFromYear. Z.div_mod_to_equations. lia. Qed.

Lemma DayFromYear_lt y y' : y < y' -> DayFromYear y < DayFromYear y'.
Proof.
  intros H. apply Z.lt_le_trans with (DayFromYear (y + 1)).
  - rewrite DayFromYear_succ. destruct (DaysInYear_cases y); lia.
  - apply DayFromYear_mono. lia.
Qed.

Lemma YearFromDay_bounds d :
  DayFromYear (YearFromDay d) <= d < DayFromYear (YearFromDay d + 1).
Proof.
  unfold YearFromDay.
  set (y := 1970 + (400 * d) / 146097).
  assert (Hlo : DayFromYear (y - 1) <= d).
  { unfold DayFromYear, y. Z.div_mod_to_equations. lia. }
  assert (Hhi : d < DayFromYear (y + 2)).
  { unfold DayFromYear, y. Z.div_mod_to_equations. lia. }
  destruct (DayFromYear (y + 1) <=? d) eqn:E1.
  - apply Z.leb_le in E1. replace (y + 1 + 1) with (y + 2) by lia. lia.
  - apply Z.leb_gt in E1. destruct (DayFromYear y <=? d) eqn:E0.
    + apply Z.leb_le in E0. lia.
    + apply Z.leb_gt in E0. replace (y - 1 + 1) with y by lia. lia.
Qed.

Lemma YearFromDay_unique d y :
  DayFromYear y <= d < DayFromYear (y + 1) -> YearFromDay d = y.
Proof.
  intros H. pose proof (YearFromDay_bounds d) as B.
  destruct (Z.lt_trichotomy (YearFromDay d) y) as [L|[E|G]]; auto; exfalso.
  - assert (DayFromYear (YearFromDay d + 1) <= DayFromYear y) by (apply DayFromYear_mono; lia). lia.
  - assert (DayFromYear (y + 1) <= DayFromYear (YearFromDay d)) by (apply DayFromYear_mono; lia). lia.
Qed.

(* largest y with DayFromYear y <= d *)
Lemma YearFromDay_largest d y : DayFromYear y <= d <-> y <= YearFromDay d.
Proof.
  pose proof (YearFromDay_bounds d) as B. split; intros H.
  - destruct (Z_le_gt_dec y (YearFromDay d)); auto. exfalso.
    assert (DayFromYear (YearFromDay d + 1) <= DayFromYear y) by (apply DayFromYear_mono; lia). lia.
  - apply Z.le_trans with (DayFromYear (YearFromDay d)); [apply DayFromYear_mono; lia | lia].
Qed.

Lemma Day_MakeDate day time :
  0 <= time < msPerDay -> Day (MakeDate day time) = day.
Proof.
  intros H. unfold Day, MakeDate, msPerDay in *.
  rewrite Z.add_comm, Z.div_add by lia. rewrite Z.div_small by lia. lia.
Qed.

Lemma TimeWithinDay_MakeDate day time :
  0 <= time < msPerDay -> TimeWithinDay (MakeDate day time) = time.
Proof.
  intros H. unfold TimeWithinDay, MakeDate, msPerDay in *.
  rewrite Z.add_comm, Z.mod_add by lia. apply Z.mod_small; lia.
Qed.

Lemma TimeWithinDay_range t : 0 <= TimeWithinDay t < msPerDay.
Proof. unfold TimeWithinDay, msPerDay. apply Z.mod_pos_bound. lia. Qed.

Lemma MakeDate_Day t : MakeDate (Day t) (TimeWithinDay t) = t.
Proof.
  unfold MakeDate, Day, TimeWithinDay, msPerDay.
  pose proof (Z.div_mod t 86400000 ltac:(lia)). lia.
Qed.

Lemma month_cases m : 0 <= m <= 11 ->
  m = 0 \/ m = 1 \/ m = 2 \/ m = 3 \/ m = 4 \/ m = 5 \/ m = 6 \/ m = 7 \/
  m = 8 \/ m = 9 \/ m = 10 \/ m = 11.
Proof. lia. Qed.

Ltac each_month H :=
  apply month_cases in H;
  destruct H as [H|[H|[H|[H|[H|[H|[H|[H|[H|[H|[H|H]]]]]]]]]]]; subst.

Ltac norm_fdm :=
  repeat match goal with
  | |- context [firstDayOfMonth ?L ?m] =>
      let v := eval vm_compute in (firstDayOfMonth L m) in
      change (firstDayOfMonth L m) with v
  | H : context [firstDayOfMonth ?L ?m] |- _ =>
      let v := eval vm_compute in (firstDayOfMonth L m) in
      change (firstDayOfMonth L m) with v in H
  end.

Ltac split_ltb :=
  repeat match goal with
  | |- context [?a <? ?b] => destruct (Z.ltb_spec a b); try lia
  end.

Lemma monthOfDayInYear_first L m d :
  (L = 0 \/ L = 1) -> 0 <= m <= 11 ->
  1 <= d <= firstDayOfMonth L (m + 1) - firstDayOfMonth L m ->
  monthOfDayInYear L (firstDayOfMonth L m + d - 1) = m.
Proof.
  intros HL Hm Hd. unfold monthOfDayInYear.
  destruct HL; subst L; each_month Hm; norm_fdm; split_ltb.
Qed.

Lemma monthOfDayInYear_range L d :
  0 <= monthOfDayInYear L d <= 11.
Proof.
  unfold monthOfDayInYear.
  repeat match goal with |- context [?a <? ?b] => destruct (a <? b) end; lia.
Qed.

Lemma monthOfDayInYear_spec L d :
  (L = 0 \/ L = 1) -> 0 <= d < 365 + L ->
  firstDayOfMonth L (monthOfDayInYear L d) <= d
    < firstDayOfMonth L (monthOfDayInYear L d + 1).
Proof.
  intros HL Hd. unfold monthOfDayInYear.
  destruct HL; subst L; split_ltb; norm_fdm; lia.
Qed.

(** The fields of a time value whose day number is that of a calendar date. *)
Lemma fields_of_day t y m d :
  0 <= m <= 11 -> 1 <= d <= DaysInMonth y m ->
  Day t = DayFromYear y + firstDayOfMonth (leapDays y) m + d - 1 ->
  YearFromTime t = y /\ MonthFromTime t = m /\ DateFromTime t = d.
Proof.
  intros Hm Hd E. unfold DaysInMonth in Hd.
  pose proof (leapDays_cases y) as HL.
  assert (Hy : YearFromTime t = y).
  { unfold YearFromTime. apply YearFromDay_unique. rewrite E, DayFromYear_succ, leapDays_DaysInYear.
    clear E. destruct HL as [HL|HL]; rewrite HL in *; each_month Hm; norm_fdm; lia. }
  assert (Hmo : MonthFromTime t = m).
  { unfold MonthFromTime, InLeapYear, DayWithinYear. rewrite Hy, E.
    replace (DayFromYear y + firstDayOfMonth (leapDays y) m + d - 1 - DayFromYear y)
      with (firstDayOfMonth (leapDays y) m + d - 1) by lia.
    apply monthOfDayInYear_first; auto. }
  repeat split; auto.
  unfold DateFromTime. rewrite Hmo. unfold DayWithinYear, InLeapYear. rewrite Hy, E. lia.
Qed.

Lemma DaysInMonth_range y m : 0 <= m <= 11 -> 28 <= DaysInMonth y m <= 31.
Proof.
  intros Hm. unfold DaysInMonth.
  destruct (leapDays_cases y) as [L|L]; rewrite L; each_month Hm; norm_fdm; lia.
Qed.

Lemma MakeDay_in_year y m d :
  0 <= m <= 11 ->
  MakeDay y m d = DayFromYear y + firstDayOfMonth (leapDays y) m + d - 1.
Proof.
  intros Hm. unfold MakeDay. rewrite Z.div_small, Z.mod_small by lia.
  replace (y + 0) with y by lia. reflexivity.
Qed.

(** Every time value has calendar fields in their ranges, and [MakeDay]
    gives back its day number. *)
Lemma fields_range t :
  0 <= MonthFromTime t <= 11 /\
  1 <= DateFromTime t <= DaysInMonth (YearFromTime t) (MonthFromTime t).
Proof.
  pose proof (YearFromDay_bounds (Day t)) as B.
  rewrite DayFromYear_succ, leapDays_DaysInYear in B.
  pose proof (leapDays_cases (YearFromDay (Day t))) as HL.
  unfold DateFromTime, DaysInMonth.
  unfold MonthFromTime, InLeapYear, DayWithinYear, YearFromTime.
  set (L := leapDays (YearFromDay (Day t))) in *.
  set (dwy := Day t - DayFromYear (YearFromDay (Day t))).
  pose proof (monthOfDayInYear_range L dwy).
  pose proof (monthOfDayInYear_spec L dwy HL ltac:(unfold dwy; lia)).
  lia.
Qed.

Lemma MakeDay_fields t :
  MakeDay (YearFromTime t) (MonthFromTime t) (DateFromTime t) = Day t.
Proof.
  pose proof (fields_range t) as [Hm _].
  rewrite MakeDay_in_year by auto.
  unfold DateFromTime. unfold DayWithinYear, InLeapYear. lia.
Qed.


Lemma MakeFullYear_id y : ~ 0 <= y <= 99 -> MakeFullYear y = y.
Proof.
  intros H. unfold MakeFullYear.
  destruct (Z.leb_spec 0 y); destruct (Z.leb_spec y 99); simpl; auto; lia.
Qed.

Lemma DateUTC_fields y m d h mi s ms :
  ~ 0 <= y <= 99 -> 0 <= m <= 11 -> 1 <= d <= DaysInMonth y m ->
  0 <= MakeTime h mi s ms < msPerDay ->
  YearFromTime (DateUTC y m d h mi s ms) = y /\
  MonthFromTime (DateUTC y m d h mi s ms) = m /\
  DateFromTime (DateUTC y m d h mi s ms) = d /\
  TimeWithinDay (DateUTC y m d h mi s ms) = MakeTime h mi s ms.
Proof.
  intros Hy Hm Hd Ht. unfold DateUTC. rewrite MakeFullYear_id by auto.
  destruct (fields_of_day (MakeDate (MakeDay y m d) (MakeTime h mi s ms)) y m d Hm Hd)
    as (F1 & F2 & F3).
  { rewrite Day_MakeDate by auto. apply MakeDay_in_year; auto. }
  repeat split; auto. apply TimeWithinDay_MakeDate; auto.
Qed.

Lemma utcDate_DateUTC y m d h mi s ms :
  ~ 0 <= y <= 99 -> 0 <= m <= 11 -> 1 <= d <= DaysInMonth y m ->
  0 <= MakeTime h mi s ms < msPerDay ->
  utcDate (DateUTC y m d h mi s ms) = mkDate y (m + 1) d.
Proof.
  intros Hy Hm Hd Ht. destruct (DateUTC_fields y m d h mi s ms Hy Hm Hd Ht) as (F1 & F2 & F3 & _).
  unfold utcDate, getUTCFullYear, getUTCMonth, getUTCDate. rewrite F1, F2, F3. reflexivity.
Qed.

Lemma clock_of_time t :
  HourFromTime t = TimeWithinDay t / msPerHour /\
  MinFromTime t = (TimeWithinDay t / msPerMinute) mod 60 /\
  SecFromTime t = (TimeWithinDay t / msPerSecond) mod 60 /\
  msFromTime t = TimeWithinDay t mod msPerSecond.
Proof.
  unfold HourFromTime, MinFromTime, SecFromTime, msFromTime, TimeWithinDay,
    msPerHour, msPerMinute, msPerSecond, msPerDay.
  repeat split; Z.div_mod_to_equations; lia.
Qed.

(** The text of [toISOString] from the fields of the time value. *)
Lemma toISOString_fields t y m d tod :
  YearFromTime t = y -> MonthFromTime t = m -> DateFromTime t = d ->
  TimeWithinDay t = tod ->
  toISOString t =
  isoYear y ++ "-" ++ pad2 (m + 1) ++ "-" ++ pad2 d ++ "T"
  ++ pad2 (tod / msPerHour) ++ ":" ++ pad2 ((tod / msPerMinute) mod 60) ++ ":"
  ++ pad2 ((tod / msPerSecond) mod 60) ++ "." ++ pad3 (tod mod msPerSecond) ++ "Z".
Proof.
  intros Hy Hm Hd Ht. unfold toISOString.
  destruct (clock_of_time t) as (C1 & C2 & C3 & C4).
  rewrite Hy, Hm, Hd, C1, C2, C3, C4, Ht. reflexivity.
Qed.

End DateFacts.

(** ** Strings, numerals and patterns *)

Module StringFacts.
Import Throwing JSString.

Ltac each_char c := destruct c as [[] [] [] [] [] [] [] []].

Lemma digit_cases d : 0 <= d <= 9 ->
  d = 0 \/ d = 1 \/ d = 2 \/ d = 3 \/ d = 4 \/ d = 5 \/ d = 6 \/ d = 7 \/ d = 8 \/ d = 9.
Proof. lia. Qed.

Lemma isDigit_digitChar d : 0 <= d <= 9 -> isDigit (digitChar d) = true.
Proof.
  intros H. apply digit_cases in H.
  repeat (destruct H as [H|H]; [subst; reflexivity|]). subst; reflexivity.
Qed.

Lemma digitValue_digitChar d : 0 <= d <= 9 -> digitValue (digitChar d) = d.
Proof.
  intros H. apply digit_cases in H.
  repeat (destruct H as [H|H]; [subst; reflexivity|]). subst; reflexivity.
Qed.

Lemma digitValue_range c : isDigit c = true -> 0 <= digitValue c <= 9.
Proof.
  unfold isDigit, digitValue. intros H. apply andb_true_iff in H as [H1 H2].
  apply Z.leb_le in H1, H2. lia.
Qed.

Lemma isDigit_not_space c : isDigit c = true -> isSpace c = false.
Proof.
  unfold isDigit, isSpace. intros H. apply andb_true_iff in H as [H1 H2].
  apply Z.leb_le in H1, H2.
  destruct (Z.leb_spec 9 (code c)); destruct (Z.leb_spec (code c) 13);
  destruct (Z.eqb_spec (code c) 32); destruct (Z.eqb_spec (code c) 160); simpl; lia.
Qed.

Lemma isDigit_lowerChar c : isDigit c = true -> lowerChar c = c.
Proof.
  unfold isDigit, lowerChar, isUpper. cbv zeta. intros H.
  apply andb_true_iff in H as [H1 H2]. apply Z.leb_le in H1, H2.
  destruct (Z.leb_spec 65 (code c)); [lia|].
  destruct (Z.leb_spec 192 (code c)); [lia|]. reflexivity.
Qed.

Lemma isDigit_code_neq c c' :
  isDigit c = true -> isDigit c' = false -> Ascii.eqb c c' = false.
Proof.
  intros H H'. destruct (Ascii.eqb_spec c c'); auto. subst. congruence.
Qed.

Lemma takeDigits_zero s : takeDigits (Some O) s = (EmptyString, s).
Proof. destruct s; simpl; auto. destruct (isDigit a); auto. Qed.

(** A run of digits followed by a non-digit (or filling the bound) is what
    a bounded digit item takes. *)
Lemma takeDigits_app hi ds rest :
  allDigits ds = true ->
  (String.length ds <= hi)%nat ->
  (String.length ds = hi \/ headNotDigit rest = true) ->
  takeDigits (Some hi) (ds ++ rest) = (ds, rest).
Proof.
  revert hi. induction ds as [|c ds IH]; intros hi Hd Hlen Hend; simpl in *.
  - destruct Hend as [E|E].
    + subst hi. apply takeDigits_zero.
    + destruct rest; simpl in *; auto.
      destruct (isDigit a); simpl in *; try discriminate. reflexivity.
  - apply andb_true_iff in Hd as [Hc Hd]. rewrite Hc.
    destruct hi as [|k]; [lia|].
    rewrite (IH k); auto; try lia.
    destruct Hend; [left; lia | right; auto].
Qed.

Lemma takeDigits_all_app ds rest :
  allDigits ds = true -> headNotDigit rest = true ->
  takeDigits None (ds ++ rest) = (ds, rest).
Proof.
  induction ds as [|c ds IH]; intros Hd Hend; simpl in *.
  - destruct rest; simpl in *; auto.
    destruct (isDigit a); simpl in *; try discriminate. reflexivity.
  - apply andb_true_iff in Hd as [Hc Hd]. rewrite Hc, IH; auto.
Qed.

Lemma exec_digits lo hi p ds rest :
  allDigits ds = true ->
  (lo <= String.length ds <= hi)%nat ->
  (String.length ds = hi \/ headNotDigit rest = true) ->
  exec (D lo hi :: p) (ds ++ rest) =
  match exec p rest with
  | Some (ps, r) => Some (ds :: ps, r)
  | None => None
  end.
Proof.
  intros Hd Hlen Hend. unfold D. cbn [exec].
  rewrite takeDigits_app by (auto; lia).
  destruct (Nat.leb_spec lo (String.length ds)); [reflexivity | lia].
Qed.

Lemma exec_lit c p r :
  exec (Lit c :: p) (String c r) =
  match exec p r with
  | Some (ps, rest) => Some (String c EmptyString :: ps, rest)
  | None => None
  end.
Proof. cbn [exec]. rewrite Ascii.eqb_refl. reflexivity. Qed.

Lemma append_assoc_cons c (a b : string) : String c a ++ b = String c (a ++ b).
Proof. reflexivity. Qed.

(** Decimal value of a run of digits. *)
Lemma digitsValueFrom_app acc a b :
  digitsValueFrom acc (a ++ b) = digitsValueFrom (digitsValueFrom acc a) b.
Proof. revert acc. induction a; intros; simpl; auto. Qed.

Lemma digitsValue_pad2 n : 0 <= n <= 99 -> digitsValue (pad2 n) = n.
Proof.
  intros H. unfold digitsValue, pad2. cbn [digitsValueFrom].
  rewrite !digitValue_digitChar by (Z.div_mod_to_equations; lia).
  Z.div_mod_to_equations; lia.
Qed.

Lemma digitsValue_pad3 n : 0 <= n <= 999 -> digitsValue (pad3 n) = n.
Proof.
  intros H. unfold digitsValue, pad3, pad2. cbn [digitsValueFrom].
  rewrite !digitValue_digitChar by (Z.div_mod_to_equations; lia).
  Z.div_mod_to_equations; lia.
Qed.

Lemma digitsValue_pad4 n : 0 <= n <= 9999 -> digitsValue (pad4 n) = n.
Proof.
  intros H. unfold digitsValue, pad4, pad3, pad2. cbn [digitsValueFrom].
  rewrite !digitValue_digitChar by (Z.div_mod_to_equations; lia).
  Z.div_mod_to_equations; lia.
Qed.

Lemma allDigits_pad2 n : 0 <= n -> allDigits (pad2 n) = true.
Proof.
  intros H. unfold pad2. cbn [allDigits].
  rewrite !isDigit_digitChar by (Z.div_mod_to_equations; lia). reflexivity.
Qed.

Lemma allDigits_pad4 n : 0 <= n -> allDigits (pad4 n) = true.
Proof.
  intros H. unfold pad4, pad3, pad2. cbn [allDigits].
  rewrite !isDigit_digitChar by (Z.div_mod_to_equations; lia). reflexivity.
Qed.

Lemma Number_digits s :
  allDigits s = true -> s <> EmptyString -> Number s = Some (digitsValue s).
Proof.
  intros H Hne. unfold Number. destruct s; [congruence|]. cbn [isEmpty]. rewrite H. reflexivity.
Qed.

Lemma split_digits sep ds :
  isDigit sep = false -> allDigits ds = true -> split sep ds = [ds].
Proof.
  intros Hs. induction ds as [|c ds IH]; intros H; simpl in *; auto.
  apply andb_true_iff in H as [Hc Hd].
  rewrite (isDigit_code_neq c sep Hc Hs), IH; auto.
Qed.

Lemma split_digits_sep sep ds rest :
  isDigit sep = false -> allDigits ds = true ->
  split sep (ds ++ String sep rest) = ds :: split sep rest.
Proof.
  intros Hs. induction ds as [|c ds IH]; intros H; simpl in *.
  - rewrite Ascii.eqb_refl. reflexivity.
  - apply andb_true_iff in H as [Hc Hd].
    rewrite (isDigit_code_neq c sep Hc Hs), IH; auto.
Qed.

End StringFacts.

(** ** The codec *)

Module CodecFacts.
Import Throwing JSString ESDate Codec Spec DateFacts StringFacts.

Lemma dateToISOString_text rt t :
  100 <= getFullYear rt t <= 9999 ->
  dateToISOString rt (TimeValue t) =
  Returned (canonicalText (getFullYear rt t) (getMonth rt t + 1) (getDate rt t)).
Proof.
  intros Hy. unfold dateToISOString. f_equal.
  pose proof (fields_range (LocalTime rt t)) as [Hm Hd].
  fold (getFullYear rt t) (getMonth rt t) (getDate rt t) in Hm, Hd.
  destruct (DateUTC_fields (getFullYear rt t) (getMonth rt t) (getDate rt t) 0 0 0 0)
    as (F1 & F2 & F3 & F4); auto; try lia.
  { unfold MakeTime, msPerDay; simpl; lia. }
  rewrite (toISOString_fields _ _ _ _ _ F1 F2 F3 F4).
  unfold isoYear, canonicalText.
  destruct (Z.leb_spec 0 (getFullYear rt t)); [|lia].
  destruct (Z.leb_spec (getFullYear rt t) 9999); [|lia].
  reflexivity.
Qed.

Lemma exec_isoDate y m d rest :
  0 <= y -> 0 <= m -> 0 <= d ->
  exec reIsoDate (pad4 y ++ "-" ++ pad2 m ++ "-" ++ pad2 d ++ rest) =
  Some ([pad4 y; "-"; pad2 m; "-"; pad2 d], rest).
Proof.
  intros Hy Hm Hd. unfold reIsoDate.
  rewrite exec_digits; [| apply allDigits_pad4; auto | simpl; lia | left; reflexivity].
  change ("-" ++ pad2 m ++ "-" ++ pad2 d ++ rest) with (String "-" (pad2 m ++ "-" ++ pad2 d ++ rest)).
  rewrite exec_lit.
  rewrite exec_digits; [| apply allDigits_pad2; auto | simpl; lia | left; reflexivity].
  change ("-" ++ pad2 d ++ rest) with (String "-" (pad2 d ++ rest)).
  rewrite exec_lit.
  rewrite exec_digits; [| apply allDigits_pad2; auto | simpl; lia | left; reflexivity].
  reflexivity.
Qed.

Lemma split_isoDate y m d :
  0 <= y <= 9999 -> 0 <= m <= 99 -> 0 <= d <= 99 ->
  map Number (split "-" (concat [pad4 y; "-"; pad2 m; "-"; pad2 d])) =
  [Some y; Some m; Some d].
Proof.
  intros Hy Hm Hd. unfold concat. cbn [fold_right].
  change ("-" ++ pad2 m ++ "-" ++ pad2 d ++ "") with (String "-" (pad2 m ++ "-" ++ pad2 d ++ "")).
  rewrite split_digits_sep; [| reflexivity | apply allDigits_pad4; lia].
  change ("-" ++ pad2 d ++ "") with (String "-" (pad2 d ++ "")).
  rewrite split_digits_sep; [| reflexivity | apply allDigits_pad2; lia].
  replace (pad2 d ++ "") with (pad2 d) by reflexivity.
  rewrite split_digits; [| reflexivity | apply allDigits_pad2; lia].
  cbn [map].
  rewrite !Number_digits; try (apply allDigits_pad2; lia); try (apply allDigits_pad4; lia);
    try discriminate.
  rewrite digitsValue_pad4, !digitsValue_pad2 by lia. reflexivity.
Qed.

(** Decoding a string that starts with the numerals of a date. *)
Lemma parseDateFromISO_prefix y m d rest :
  0 <= y <= 9999 -> 0 <= m <= 99 -> 0 <= d <= 99 ->
  parseDateFromISO (pad4 y ++ "-" ++ pad2 m ++ "-" ++ pad2 d ++ rest) =
  Some (TimeValue (DateUTC y (m - 1) d 12 0 0 0)).
Proof.
  intros Hy Hm Hd. unfold parseDateFromISO, matchPrefix.
  rewrite exec_isoDate by lia. rewrite split_isoDate by lia. reflexivity.
Qed.

End CodecFacts.

(** ** The range of time values *)

Module RangeFacts.
Import Throwing JSString ESDate Form Spec Token DateFacts StringFacts.

Lemma YearFromTime_lower t y : DayFromYear y <= Day t -> y <= YearFromTime t.
Proof. intros H. apply YearFromDay_largest. exact H. Qed.

Lemma YearFromTime_upper t y : Day t < DayFromYear (y + 1) -> YearFromTime t <= y.
Proof.
  intros H. destruct (Z_le_gt_dec (YearFromTime t) y); auto. exfalso.
  assert (y + 1 <= YearFromDay (Day t)) by (unfold YearFromTime in *; lia).
  apply YearFromDay_largest in H0. lia.
Qed.

(** A time value whose local year is at most 270000 either way is in the
    range of [Date]. *)
Lemma representable_of_year rt t :
  - msPerDay <= LocalTZA rt <= msPerDay ->
  - 270000 <= getFullYear rt t <= 270000 ->
  representable t.
Proof.
  intros Htz Hy. unfold getFullYear, YearFromTime in Hy.
  pose proof (YearFromDay_bounds (Day (LocalTime rt t))) as B.
  assert (L : DayFromYear (-270000) <= DayFromYear (YearFromDay (Day (LocalTime rt t))))
    by (apply DayFromYear_mono; lia).
  assert (U : DayFromYear (YearFromDay (Day (LocalTime rt t)) + 1) <= DayFromYear 270001)
    by (apply DayFromYear_mono; lia).
  change (DayFromYear (-270000)) with (-99335003) in L.
  change (DayFromYear 270001) with 97896313 in U.
  unfold representable, maxTime. unfold LocalTime, Day, msPerDay in *.
  Z.div_mod_to_equations. lia.
Qed.

(** Noon in UTC of a date given by a year of four digits and a month and
    a day of two digits: its local year is not far from the years of four
    digits. *)
Lemma firstDayOfMonth_bound L k :
  0 <= L <= 1 -> 0 <= k <= 11 -> 0 <= firstDayOfMonth L k <= 335.
Proof.
  intros HL Hk. each_month Hk; cbn [firstDayOfMonth]; lia.
Qed.

Lemma DateUTC_noon_year rt y m d :
  - msPerDay <= LocalTZA rt <= msPerDay ->
  0 <= y <= 9999 -> - 1 <= m <= 98 -> 0 <= d <= 99 ->
  98 <= getFullYear rt (DateUTC y m d 12 0 0 0) <= 10009.
Proof.
  intros Htz Hy Hm Hd.
  assert (HY : 100 <= MakeFullYear y <= 9999).
  { unfold MakeFullYear.
    destruct (Z.leb_spec 0 y); destruct (Z.leb_spec y 99); cbn [andb]; lia. }
  set (Y := MakeFullYear y) in *.
  assert (Hq : 99 <= Y + m / 12 <= 10007) by (Z.div_mod_to_equations; lia).
  pose proof (Z.mod_pos_bound m 12 ltac:(lia)) as Hr.
  pose proof (firstDayOfMonth_bound (leapDays (Y + m / 12)) (m mod 12)
                ltac:(destruct (leapDays_cases (Y + m / 12)); lia) ltac:(lia)) as Hf.
  pose proof (DayFromYear_mono 99 (Y + m / 12) ltac:(lia)) as L1.
  pose proof (DayFromYear_mono (Y + m / 12) 10007 ltac:(lia)) as U1.
  assert (L0 : DayFromYear 98 <= DayFromYear 99 - 2) by (vm_compute; discriminate).
  assert (U0 : DayFromYear 10007 + 436 < DayFromYear (10009 + 1)) by (vm_compute; reflexivity).
  assert (E : Day (LocalTime rt (DateUTC y m d 12 0 0 0))
              = (MakeDay Y m d * msPerDay + 43200000 + LocalTZA rt) / msPerDay).
  { unfold Day, LocalTime, DateUTC, MakeDate, MakeTime. fold Y. f_equal;
      try (unfold msPerHour, msPerMinute, msPerSecond; lia). }
  assert (B : MakeDay Y m d - 1 <= Day (LocalTime rt (DateUTC y m d 12 0 0 0))
              <= MakeDay Y m d + 1).
  { rewrite E. unfold msPerDay in *. Z.div_mod_to_equations. lia. }
  assert (M : DayFromYear (Y + m / 12) - 1 <= MakeDay Y m d
              <= DayFromYear (Y + m / 12) + 335 + 98).
  { unfold MakeDay. cbv zeta. lia. }
  unfold getFullYear. split.
  - apply YearFromTime_lower. lia.
  - apply YearFromTime_upper. lia.
Qed.

Lemma representable_of_utc_year t :
  - 270000 <= YearFromTime t <= 270000 -> representable t.
Proof.
  intros Hy. unfold YearFromTime in Hy.
  pose proof (YearFromDay_bounds (Day t)) as B.
  assert (L : DayFromYear (-270000) <= DayFromYear (YearFromDay (Day t)))
    by (apply DayFromYear_mono; lia).
  assert (U : DayFromYear (YearFromDay (Day t) + 1) <= DayFromYear 270001)
    by (apply DayFromYear_mono; lia).
  change (DayFromYear (-270000)) with (-99335003) in L.
  change (DayFromYear 270001) with 97896313 in U.
  unfold representable, maxTime. unfold Day, msPerDay in *.
  Z.div_mod_to_equations. lia.
Qed.

Lemma plausible_year rt :
  plausibleNow rt -> 1969 <= getFullYear rt (now rt) <= 10000.
Proof.
  intros [Hn Htz]. unfold getFullYear. split.
  - apply YearFromTime_lower. change (DayFromYear 1969) with (-365).
    unfold LocalTime, Day, msPerDay in *. Z.div_mod_to_equations. lia.
  - apply YearFromTime_upper. change (DayFromYear (10000 + 1)) with 2933263.
    unfold LocalTime, Day, msPerDay in *. Z.div_mod_to_equations. lia.
Qed.

(** A count of at most five digits is below a hundred thousand. *)
Lemma digitsValue_five ds :
  allDigits ds = true -> (String.length ds <= 5)%nat -> 0 <= digitsValue ds <= 99999.
Proof.
  intros Hd Hl.
  destruct ds as [|a [|b [|c [|d [|e [|f r]]]]]]; cbn [String.length] in Hl; try lia;
    cbn [allDigits] in Hd;
    repeat match goal with
    | H : _ && _ = true |- _ => apply andb_true_iff in H; destruct H
    end;
    repeat match goal with
    | H : isDigit _ = true |- _ => apply digitValue_range in H
    end;
    unfold digitsValue; cbn [digitsValueFrom]; lia.
Qed.

(** The year that [shiftMonth] reaches. *)
Lemma shiftMonth_year d delta :
  1 <= month d <= 12 ->
  year (shiftMonth d delta) = year d + (month d - 1 + delta) / 12.
Proof. reflexivity. Qed.

Lemma TimeClip_within t : representable t -> TimeClip t = TimeValue t.
Proof.
  unfold representable, TimeClip. intros H.
  destruct (Z.leb_spec (- maxTime) t); destruct (Z.leb_spec t maxTime); cbn [andb];
    try reflexivity; lia.
Qed.

End RangeFacts.

(** ** Local time and month arithmetic *)

Module NavigationFacts.
Import Throwing JSString ESDate Spec DateFacts RangeFacts.

Lemma LocalTime_UTC rt x : LocalTime rt (UTC rt x) = x.
Proof. unfold LocalTime, UTC. lia. Qed.

Lemma UTC_LocalTime rt x : UTC rt (LocalTime rt x) = x.
Proof. unfold LocalTime, UTC. lia. Qed.

(** The local fields of a date built in local time from a calendar date and
    a time of day. *)
Lemma local_fields_make rt y m d tod :
  0 <= m <= 11 -> 1 <= d <= DaysInMonth y m -> 0 <= tod < msPerDay ->
  getFullYear rt (UTC rt (MakeDate (MakeDay y m d) tod)) = y /\
  getMonth rt (UTC rt (MakeDate (MakeDay y m d) tod)) = m /\
  getDate rt (UTC rt (MakeDate (MakeDay y m d) tod)) = d /\
  TimeWithinDay (LocalTime rt (UTC rt (MakeDate (MakeDay y m d) tod))) = tod.
Proof.
  intros Hm Hd Ht. unfold getFullYear, getMonth, getDate. rewrite LocalTime_UTC.
  destruct (fields_of_day (MakeDate (MakeDay y m d) tod) y m d Hm Hd) as (F1 & F2 & F3).
  { rewrite Day_MakeDate by auto. apply MakeDay_in_year; auto. }
  repeat split; auto. apply TimeWithinDay_MakeDate; auto.
Qed.

Lemma MakeDay_normalize y k d :
  MakeDay y k d = MakeDay (y + k / 12) (k mod 12) d.
Proof.
  unfold MakeDay. rewrite Z.mod_mod by lia.
  rewrite (Z.div_small (k mod 12) 12) by (apply Z.mod_pos_bound; lia).
  replace (y + k / 12 + 0) with (y + k / 12) by lia. reflexivity.
Qed.

(** Day 0 of the next month is the last day of the month. *)
Lemma MakeDay_end_of_month y k :
  MakeDay y (k + 1) 0 =
  MakeDay (y + k / 12) (k mod 12) (DaysInMonth (y + k / 12) (k mod 12)).
Proof.
  pose proof (Z.mod_pos_bound k 12 ltac:(lia)) as Hr.
  rewrite (MakeDay_in_year (y + k / 12) (k mod 12)) by lia.
  unfold DaysInMonth, MakeDay.
  destruct (Z.eq_dec (k mod 12) 11) as [E|E].
  - assert (E1 : (k + 1) / 12 = k / 12 + 1) by (Z.div_mod_to_equations; lia).
    assert (E2 : (k + 1) mod 12 = 0) by (Z.div_mod_to_equations; lia).
    rewrite E1, E2, E. replace (y + (k / 12 + 1)) with (y + k / 12 + 1) by lia.
    rewrite DayFromYear_succ, leapDays_DaysInYear.
    change (11 + 1) with 12.
    destruct (leapDays_cases (y + k / 12)) as [L|L]; rewrite L;
    destruct (leapDays_cases (y + k / 12 + 1)) as [L'|L']; rewrite L'; norm_fdm; lia.
  - assert (E1 : (k + 1) / 12 = k / 12) by (Z.div_mod_to_equations; lia).
    assert (E2 : (k + 1) mod 12 = k mod 12 + 1) by (Z.div_mod_to_equations; lia).
    rewrite E1, E2. lia.
Qed.

(** [addMonths] steps the local calendar date as [shiftMonth] says and, in
    this model of local time, keeps the local time of day; for a date
    within 200000 years of the year 0 and a step of at most 240000 months
    every date computed on the way is in the range of [Date]. *)
Lemma addMonths_local rt t amount :
  - msPerDay <= LocalTZA rt <= msPerDay ->
  - 200000 <= getFullYear rt t <= 200000 -> - 240000 <= amount <= 240000 ->
  exists t',
    DateFns.addMonths rt (TimeValue t) amount = TimeValue t' /\
    localDate rt t' = shiftMonth (localDate rt t) amount /\
    TimeWithinDay (LocalTime rt t') = TimeWithinDay (LocalTime rt t) /\
    representable t'.
Proof.
  intros Htz Hy Ha.
  pose proof (fields_range (LocalTime rt t)) as [Hm Hd].
  pose proof (TimeWithinDay_range (LocalTime rt t)) as Htod.
  fold (getFullYear rt t) (getMonth rt t) (getDate rt t) in Hm, Hd.
  unfold DateFns.addMonths. cbv zeta. destruct (Z.eqb_spec amount 0) as [E|E].
  - subst amount. exists t. split; [reflexivity|]. split; [|split; [reflexivity|]].
    + unfold shiftMonth, localDate. cbn [year month day].
      replace (getMonth rt t + 1 - 1 + 0) with (getMonth rt t) by lia.
      rewrite Z.div_small, Z.mod_small by lia.
      replace (getFullYear rt t + 0) with (getFullYear rt t) by lia.
      rewrite Z.min_l by lia. reflexivity.
    + apply (representable_of_year rt); [exact Htz | lia].
  - set (Y := getFullYear rt t) in *. set (M := getMonth rt t) in *.
    set (Dd := getDate rt t) in *. set (tod := TimeWithinDay (LocalTime rt t)) in *.
    set (k := M + amount).
    set (Y' := Y + k / 12). set (M' := k mod 12).
    assert (HM' : 0 <= M' <= 11) by (unfold M'; pose proof (Z.mod_pos_bound k 12); lia).
    assert (HY' : - 270000 <= Y' <= 270000)
      by (unfold Y', k; Z.div_mod_to_equations; lia).
    pose proof (DaysInMonth_range Y' M' HM') as HD'.
    assert (Ee : setMonth rt t (k + 1) (Some 0)
                 = UTC rt (MakeDate (MakeDay Y' M' (DaysInMonth Y' M')) tod)).
    { unfold setMonth. fold (getFullYear rt t). fold Y. fold tod.
      rewrite MakeDay_end_of_month. reflexivity. }
    rewrite Ee.
    destruct (local_fields_make rt Y' M' (DaysInMonth Y' M') tod HM' ltac:(lia) Htod)
      as (F1 & F2 & F3 & F4).
    rewrite TimeClip_within by (apply (representable_of_year rt); [exact Htz | lia]).
    cbv beta iota.
    rewrite F1, F2, F3.
    assert (Hshift : shiftMonth (localDate rt t) amount
                     = mkDate Y' (M' + 1) (Z.min Dd (DaysInMonth Y' M'))).
    { unfold shiftMonth, localDate. cbn [year month day]. fold Y M Dd.
      replace (M + 1 - 1 + amount) with k by (unfold k; lia). reflexivity. }
    rewrite Hshift.
    destruct (Z.geb_spec Dd (DaysInMonth Y' M')) as [G|G].
    + eexists. split; [reflexivity|]. split; [|split; [exact F4|]].
      * unfold localDate. rewrite F1, F2, F3. rewrite Z.min_r by lia. reflexivity.
      * apply (representable_of_year rt); [exact Htz | lia].
    + unfold setFullYear. fold tod.
      destruct (local_fields_make rt Y' M' Dd tod HM' ltac:(unfold Dd in *; lia) Htod)
        as (G1 & G2 & G3 & G4).
      rewrite TimeClip_within by (apply (representable_of_year rt); [exact Htz | lia]).
      eexists. split; [reflexivity|]. split; [|split; [exact G4|]].
      * unfold localDate. rewrite G1, G2, G3. rewrite Z.min_l by lia. reflexivity.
      * apply (representable_of_year rt); [exact Htz | lia].
Qed.

End NavigationFacts.

(** ** Trimming and the slash forms *)

Module InputFacts.
Import Throwing JSString ESDate Form Spec StringFacts.

Lemma append_nil_r (s : string) : s ++ "" = s.
Proof. induction s; simpl; congruence. Qed.

Lemma exec_digits_end lo hi p ds :
  allDigits ds = true -> (lo <= String.length ds <= hi)%nat ->
  exec (D lo hi :: p) ds =
  match exec p EmptyString with
  | Some (ps, r) => Some (ds :: ps, r)
  | None => None
  end.
Proof.
  intros Hd Hl. rewrite <- (append_nil_r ds) at 1.
  apply exec_digits; auto.
Qed.

(** ** White space *)

Lemma trimStart_head c r : isSpace c = false -> trimStart (String c r) = String c r.
Proof. intros H. simpl. rewrite H. reflexivity. Qed.

Lemma trimEnd_idem s : trimEnd (trimEnd s) = trimEnd s.
Proof.
  induction s as [|c r IH]; simpl; auto.
  destruct (trimEnd r) as [|c' r'] eqn:E.
  - destruct (isSpace c) eqn:Ec; simpl; auto. rewrite Ec. reflexivity.
  - change (trimEnd (String c (String c' r')))
      with (match trimEnd (String c' r') with
            | EmptyString => if isSpace c then EmptyString else String c EmptyString
            | String a b => String c (String a b)
            end).
    rewrite IH. reflexivity.
Qed.

Lemma trimEnd_head s :
  match trimEnd s with
  | EmptyString => True
  | String c _ => match s with String c0 _ => c = c0 | EmptyString => False end
  end.
Proof.
  destruct s as [|c r]; simpl; auto.
  destruct (trimEnd r); [destruct (isSpace c)|]; auto.
Qed.

Lemma trimStart_head_not_space s :
  match trimStart s with
  | EmptyString => True
  | String c _ => isSpace c = false
  end.
Proof.
  induction s as [|c r IH]; simpl; auto.
  destruct (isSpace c) eqn:E; auto.
Qed.

Lemma trimStart_fixed s :
  match s with EmptyString => True | String c _ => isSpace c = false end ->
  trimStart s = s.
Proof. destruct s; simpl; auto. intros ->. reflexivity. Qed.

Lemma trim_idem s : trim (trim s) = trim s.
Proof.
  unfold trim.
  assert (H : trimStart (trimEnd (trimStart s)) = trimEnd (trimStart s)).
  { apply trimStart_fixed.
    pose proof (trimEnd_head (trimStart s)) as H1.
    pose proof (trimStart_head_not_space s) as H2.
    destruct (trimEnd (trimStart s)); auto.
    destruct (trimStart s); [contradiction|]. subst. exact H2. }
  rewrite H. apply trimEnd_idem.
Qed.

(** ** Inputs that start with a digit *)

Lemma digit_not_shortcut_letter c :
  isDigit c = true -> memChar (lowerChar c) ["d"; "m"; "y"]%char = false.
Proof.
  intros H. rewrite isDigit_lowerChar by auto. revert H.
  each_char c; intros H; try reflexivity; discriminate.
Qed.

Lemma matchFull_reShortcut_digit c r :
  isDigit c = true -> matchFull reShortcut (toLowerCase (String c r)) = None.
Proof.
  intros H. unfold matchFull, reShortcut. cbn [toLowerCase exec].
  rewrite digit_not_shortcut_letter by auto. reflexivity.
Qed.

Lemma parseShortcut_digit rt c r :
  isDigit c = true -> trim (String c r) = String c r ->
  Picker.parseShortcut rt (String c r) = None.
Proof.
  intros H Ht. unfold Picker.parseShortcut. rewrite Ht.
  rewrite matchFull_reShortcut_digit by auto. reflexivity.
Qed.

Lemma spanDigits_all s : allDigits s = true -> spanDigits s = (s, EmptyString).
Proof.
  induction s as [|c r IH]; simpl; auto. intros H.
  apply andb_true_iff in H as [Hc Hr]. rewrite Hc, IH; auto.
Qed.

Lemma sign_of_digit c r :
  isDigit c = true ->
  match String c r with
  | String "-" r' => (true, r')
  | String "+" r' => (false, r')
  | _ => (false, String c r)
  end = (false, String c r).
Proof. each_char c; intros H; try reflexivity; discriminate. Qed.

Lemma parseInt_digits s :
  allDigits s = true -> s <> EmptyString -> parseInt s = Some (digitsValue s).
Proof.
  intros H Hne. destruct s as [|c r]; [congruence|].
  pose proof H as H'. cbn [allDigits] in H'. apply andb_true_iff in H' as [Hc Hr].
  unfold parseInt. rewrite trimStart_head by (apply isDigit_not_space; auto).
  rewrite sign_of_digit by auto.
  rewrite spanDigits_all by auto. reflexivity.
Qed.

Lemma digitRun_nonempty lo hi s : (1 <= lo)%nat -> digitRun lo hi s -> s <> EmptyString.
Proof. intros Hlo [_ H] ->. simpl in H. lia. Qed.

Lemma digitRun_head lo hi s :
  (1 <= lo)%nat -> digitRun lo hi s ->
  exists c r, s = String c r /\ isDigit c = true.
Proof.
  intros Hlo [Hd Hl]. destruct s as [|c r]; [simpl in Hl; lia|].
  exists c, r. split; auto. cbn [allDigits] in Hd. apply andb_true_iff in Hd. tauto.
Qed.

Lemma length2_inv s : String.length s = 2%nat ->
  exists a b, s = String a (String b EmptyString).
Proof.
  destruct s as [|a [|b [|c r]]]; simpl; intros H; try discriminate. eauto.
Qed.

Lemma length4_inv s : String.length s = 4%nat ->
  exists a b c d, s = String a (String b (String c (String d EmptyString))).
Proof.
  destruct s as [|a [|b [|c [|d [|e r]]]]]; simpl; intros H; try discriminate.
  eauto 6.
Qed.

(** ** The three slash forms *)

Ltac run_exec :=
  repeat first
    [ rewrite exec_digits by (auto; try reflexivity; lia)
    | rewrite exec_digits_end by (auto; lia)
    | match goal with |- context [exec (Lit ?c :: _) (String ?c _)] => rewrite exec_lit end
    | match goal with |- context [(String ?c EmptyString ++ ?r)%string] =>
        change (String c EmptyString ++ r)%string with (String c r) end ].

Lemma slash_month_day ms ds :
  digitRun 1 2 ms -> digitRun 1 2 ds ->
  test reMonthDay (slashed ms ds None) = true /\
  testNumericDate (slashed ms ds None) = true /\
  split "/" (slashed ms ds None) = [ms; ds].
Proof.
  intros [Hm Lm] [Hd Ld]. unfold slashed.
  assert (T : test reMonthDay (ms ++ "/" ++ ds) = true).
  { unfold test, matchFull, reMonthDay. run_exec. reflexivity. }
  repeat split; auto.
  - unfold testNumericDate. fold reMonthDay. rewrite T. reflexivity.
  - change ("/" ++ ds) with (String "/" ds).
    rewrite split_digits_sep, split_digits; auto.
Qed.

Lemma slash_month_day_year2 ms ds ys :
  digitRun 1 2 ms -> digitRun 1 2 ds -> digitRun 2 2 ys ->
  test reMonthDay (slashed ms ds (Some ys)) = false /\
  test reMonthDayYear2 (slashed ms ds (Some ys)) = true /\
  testNumericDate (slashed ms ds (Some ys)) = true /\
  split "/" (slashed ms ds (Some ys)) = [ms; ds; ys].
Proof.
  intros [Hm Lm] [Hd Ld] [Hy Ly]. unfold slashed.
  assert (T1 : test reMonthDay (ms ++ "/" ++ ds ++ "/" ++ ys) = false).
  { unfold test, matchFull, reMonthDay. run_exec. reflexivity. }
  assert (T2 : test reMonthDayYear2 (ms ++ "/" ++ ds ++ "/" ++ ys) = true).
  { unfold test, matchFull, reMonthDayYear2. run_exec. reflexivity. }
  repeat split; auto.
  - unfold testNumericDate. fold reMonthDay. rewrite T1. cbn [orb].
    unfold test, matchFull. run_exec. reflexivity.
  - change ("/" ++ ds ++ "/" ++ ys) with (String "/" (ds ++ String "/" ys)).
    rewrite !split_digits_sep, split_digits; auto.
Qed.

Lemma slash_month_day_year4 ms ds ys :
  digitRun 1 2 ms -> digitRun 1 2 ds -> digitRun 4 4 ys ->
  test reMonthDay (slashed ms ds (Some ys)) = false /\
  test reMonthDayYear2 (slashed ms ds (Some ys)) = false /\
  test reMonthDayYear4 (slashed ms ds (Some ys)) = true /\
  testNumericDate (slashed ms ds (Some ys)) = true /\
  split "/" (slashed ms ds (Some ys)) = [ms; ds; ys].
Proof.
  intros [Hm Lm] [Hd Ld] [Hy Ly]. unfold slashed.
  assert (T1 : test reMonthDay (ms ++ "/" ++ ds ++ "/" ++ ys) = false).
  { unfold test, matchFull, reMonthDay. run_exec. reflexivity. }
  assert (T2 : test reMonthDayYear2 (ms ++ "/" ++ ds ++ "/" ++ ys) = false).
  { unfold test, matchFull, reMonthDayYear2. run_exec.
    destruct (length4_inv ys ltac:(lia)) as (a & b & c & d & ->).
    cbn [allDigits] in Hy. repeat (apply andb_true_iff in Hy as [? Hy]).
    cbn [exec takeDigits D]. 
    repeat match goal with H : isDigit _ = true |- _ => rewrite H; clear H end.
    reflexivity. }
  assert (T3 : test reMonthDayYear4 (ms ++ "/" ++ ds ++ "/" ++ ys) = true).
  { unfold test, matchFull, reMonthDayYear4. run_exec. reflexivity. }
  repeat split; auto.
  - unfold testNumericDate. fold reMonthDay. rewrite T1. cbn [orb].
    unfold test, matchFull. run_exec. reflexivity.
  - change ("/" ++ ds ++ "/" ++ ys) with (String "/" (ds ++ String "/" ys)).
    rewrite !split_digits_sep, split_digits; auto.
Qed.

Lemma matchFull_reMonthDayYear4 ms ds ys :
  digitRun 1 2 ms -> digitRun 1 2 ds -> digitRun 4 4 ys ->
  matchFull reMonthDayYear4 (slashed ms ds (Some ys)) = Some [ms; "/"; ds; "/"; ys].
Proof.
  intros [Hm Lm] [Hd Ld] [Hy Ly]. unfold slashed, matchFull, reMonthDayYear4.
  run_exec. reflexivity.
Qed.

(** The inputs of the slash forms start and end with a digit: trimming
    leaves them as they are, and they are no shortcut. *)
Lemma slashed_head ms ds oy :
  digitRun 1 2 ms -> exists c r, slashed ms ds oy = String c r /\ isDigit c = true.
Proof.
  intros Hm. destruct (digitRun_head 1 2 ms ltac:(lia) Hm) as (c & r & -> & Hc).
  destruct oy; unfold slashed; cbn [append]; eauto.
Qed.

Lemma parseShortcut_slashed rt text ms ds oy :
  digitRun 1 2 ms -> trim text = slashed ms ds oy ->
  Picker.parseShortcut rt (trim text) = None.
Proof.
  intros Hm Ht. destruct (slashed_head ms ds oy Hm) as (c & r & E & Hc).
  unfold Picker.parseShortcut. rewrite trim_idem, Ht, E.
  rewrite matchFull_reShortcut_digit by auto. reflexivity.
Qed.

Lemma slashed_nonempty ms ds oy : digitRun 1 2 ms -> isEmpty (slashed ms ds oy) = false.
Proof.
  intros Hm. destruct (slashed_head ms ds oy Hm) as (c & r & -> & _). reflexivity.
Qed.

End InputFacts.

(** ** The blur handler on the slash forms *)

Module BlurFacts.
Import Throwing JSString ESDate Form Spec DateFacts StringFacts NavigationFacts InputFacts.

Lemma isEmpty_false s : s <> EmptyString -> isEmpty s = false.
Proof. destruct s; [congruence | reflexivity]. Qed.

Lemma isEmpty_true_inv s : isEmpty s = true -> s = EmptyString.
Proof. destruct s; [reflexivity | discriminate]. Qed.

Lemma digitRun_intro lo hi s :
  allDigits s = true -> (lo <=? String.length s)%nat && (String.length s <=? hi)%nat = true ->
  digitRun lo hi s.
Proof.
  intros H1 H2. apply andb_true_iff in H2 as [A B].
  apply Nat.leb_le in A, B. split; auto.
Qed.

(** The month and day that [handleBlur] reads from a slash form. *)
Lemma numericOutOfRange_slashed ms ds oy :
  digitRun 1 2 ms -> digitRun 1 2 ds -> yearRun oy ->
  Picker.numericOutOfRange (slashed ms ds oy)
  = outOfRange (digitsValue ms) (digitsValue ds).
Proof.
  intros Hm Hd Hy. unfold Picker.numericOutOfRange.
  assert (E : testNumericDate (slashed ms ds oy) = true /\
              nth 0 (split "/" (slashed ms ds oy)) EmptyString = ms /\
              nth 1 (split "/" (slashed ms ds oy)) EmptyString = ds).
  { destruct oy as [ys|].
    - destruct Hy as [Hy|Hy].
      + destruct (slash_month_day_year2 ms ds ys Hm Hd Hy) as (_ & _ & T & S).
        rewrite S. auto.
      + destruct (slash_month_day_year4 ms ds ys Hm Hd Hy) as (_ & _ & _ & T & S).
        rewrite S. auto.
    - destruct (slash_month_day ms ds Hm Hd) as (_ & T & S). rewrite S. auto. }
  destruct E as (-> & -> & ->).
  rewrite !parseInt_digits; try (apply Hm); try (apply Hd);
    try (eapply digitRun_nonempty; [|eassumption]; lia).
  reflexivity.
Qed.

Lemma parsePatterns_slashed rt ms ds oy :
  digitRun 1 2 ms -> digitRun 1 2 ds -> yearRun oy ->
  Picker.parsePatterns rt (slashed ms ds oy)
  = TimeValue (newDateLocal rt (yearOf rt oy) (digitsValue ms - 1) (digitsValue ds)).
Proof.
  intros Hm Hd Hy. unfold Picker.parsePatterns. cbv zeta.
  assert (Pm : parseInt ms = Some (digitsValue ms)).
  { apply parseInt_digits; [apply Hm | eapply digitRun_nonempty; [|eassumption]; lia]. }
  assert (Pd : parseInt ds = Some (digitsValue ds)).
  { apply parseInt_digits; [apply Hd | eapply digitRun_nonempty; [|eassumption]; lia]. }
  destruct oy as [ys|].
  - destruct Hy as [Hy|Hy].
    + destruct (slash_month_day_year2 ms ds ys Hm Hd Hy) as (T1 & T2 & _ & S).
      rewrite T1, T2, S. cbn [nth].
      rewrite Pm, Pd, parseInt_digits;
        [| apply Hy | eapply digitRun_nonempty; [|eassumption]; lia].
      unfold yearOf. destruct Hy as [_ Hl].
      replace (String.length ys) with 2%nat by lia. reflexivity.
    + destruct (slash_month_day_year4 ms ds ys Hm Hd Hy) as (T1 & T2 & T3 & _ & S).
      rewrite T1, T2, T3, S. cbn [nth].
      rewrite Pm, Pd, parseInt_digits;
        [| apply Hy | eapply digitRun_nonempty; [|eassumption]; lia].
      unfold yearOf. destruct Hy as [_ Hl].
      replace (String.length ys) with 4%nat by lia. reflexivity.
  - destruct (slash_month_day ms ds Hm Hd) as (T1 & _ & S).
    rewrite T1, S. cbn [nth]. rewrite Pm, Pd. reflexivity.
Qed.

(** [handleBlur] on the slash forms: the range check, then the date of the
    first pattern that matches; the locale format is not consulted. *)
Lemma handleBlur_slashed rt st text ms ds oy :
  digitRun 1 2 ms -> digitRun 1 2 ds -> yearRun oy ->
  trim text = slashed ms ds oy ->
  Picker.handleBlur rt st text =
  if outOfRange (digitsValue ms) (digitsValue ds) then Returned (rejected st)
  else Picker.commit rt (blurred st)
         (TimeValue (newDateLocal rt (yearOf rt oy) (digitsValue ms - 1) (digitsValue ds))).
Proof.
  intros Hm Hd Hy Ht. unfold Picker.handleBlur. cbv zeta.
  rewrite (parseShortcut_slashed rt text ms ds oy Hm Ht). rewrite Ht.
  rewrite slashed_nonempty by auto.
  rewrite numericOutOfRange_slashed by auto.
  destruct (outOfRange (digitsValue ms) (digitsValue ds)); [reflexivity|].
  rewrite parsePatterns_slashed by auto. reflexivity.
Qed.

Lemma handleBlurUTC_slashed rt st text ms ds oy :
  digitRun 1 2 ms -> digitRun 1 2 ds -> yearRun oy ->
  trim text = slashed ms ds oy ->
  PickerUTC.handleBlur rt st text =
  if outOfRange (digitsValue ms) (digitsValue ds) then Returned (rejected st)
  else PickerUTC.commit rt (blurred st)
         (TimeValue (newDateLocal rt (yearOf rt oy) (digitsValue ms - 1) (digitsValue ds))).
Proof.
  intros Hm Hd Hy Ht. unfold PickerUTC.handleBlur, PickerUTC.parseShortcut. cbv zeta.
  rewrite (parseShortcut_slashed rt text ms ds oy Hm Ht). rewrite Ht.
  rewrite slashed_nonempty by auto.
  rewrite numericOutOfRange_slashed by auto.
  destruct (outOfRange (digitsValue ms) (digitsValue ds)); [reflexivity|].
  rewrite parsePatterns_slashed by auto. reflexivity.
Qed.

Lemma outOfRange_true m d :
  ~ 1 <= m <= 12 \/ ~ 1 <= d <= 31 -> outOfRange m d = true.
Proof.
  intros H. unfold outOfRange.
  destruct (Z.ltb_spec m 1); destruct (Z.gtb_spec m 12);
  destruct (Z.ltb_spec d 1); destruct (Z.gtb_spec d 31); simpl; auto; lia.
Qed.

Lemma outOfRange_false m d :
  1 <= m <= 12 -> 1 <= d <= 31 -> outOfRange m d = false.
Proof.
  intros H1 H2. unfold outOfRange.
  destruct (Z.ltb_spec m 1); destruct (Z.gtb_spec m 12);
  destruct (Z.ltb_spec d 1); destruct (Z.gtb_spec d 31); simpl; auto; lia.
Qed.

(** The local calendar date of [new Date(y, m - 1, d)]. *)
Lemma newDateLocal_date rt y m d :
  ~ 0 <= y <= 99 -> 1 <= m <= 12 -> 1 <= d <= DaysInMonth y (m - 1) ->
  localDate rt (newDateLocal rt y (m - 1) d) = mkDate y m d.
Proof.
  intros Hy Hm Hd. unfold newDateLocal. rewrite MakeFullYear_id by auto.
  destruct (local_fields_make rt y (m - 1) d (MakeTime 0 0 0 0)) as (F1 & F2 & F3 & _);
    auto; try lia.
  { unfold MakeTime, msPerDay; simpl; lia. }
  unfold localDate. rewrite F1, F2, F3. f_equal. lia.
Qed.

(** The last branch of [handleBlur]: an input that is no shortcut, passes
    the range check and matches none of the three patterns is decided by the
    locale format. *)
Lemma handleBlur_fallback rt st text :
  trim text <> EmptyString ->
  Picker.parseShortcut rt (trim text) = None ->
  Picker.numericOutOfRange (trim text) = false ->
  test reMonthDay (trim text) = false ->
  test reMonthDayYear2 (trim text) = false ->
  test reMonthDayYear4 (trim text) = false ->
  Picker.handleBlur rt st text =
  match parse_P rt (trim text) with
  | TimeValue t => Picker.commit rt (blurred st) (TimeValue t)
  | InvalidDate => Returned (rejected st)
  end.
Proof.
  intros Hne Hs Hr T1 T2 T3. unfold Picker.handleBlur. cbv zeta.
  rewrite isEmpty_false, Hs, Hr by auto.
  unfold Picker.parsePatterns. cbv zeta. rewrite T1, T2, T3.
  destruct (parse_P rt (trim text)); reflexivity.
Qed.

(** The error branch of [handleBlur]. *)
Lemma handleBlur_rejects rt st text :
  failsToParse rt text -> Picker.handleBlur rt st text = Returned (rejected st).
Proof.
  intros (Hne & Hs & Hf). unfold Picker.handleBlur. cbv zeta.
  rewrite isEmpty_false, Hs by auto.
  destruct (Picker.numericOutOfRange (trim text)) eqn:E; [reflexivity|].
  destruct Hf as [Hf|Hf]; [discriminate|]. rewrite Hf. reflexivity.
Qed.

Lemma commit_error rt st d st' :
  Picker.commit rt st d = Returned st' -> error st' = None.
Proof. destruct d; simpl; intros H; inversion H; reflexivity. Qed.

Lemma handleInputChange_no_error st newValue :
  errorState (Picker.handleInputChange st newValue) = false.
Proof.
  unfold Picker.handleInputChange, errorState. cbv zeta.
  destruct (truthy (error (setInputValue newValue st))) eqn:E.
  - cbn. apply andb_false_r.
  - rewrite E. apply andb_false_r.
Qed.

Lemma handleBlur_error rt st text st' :
  Picker.handleBlur rt st text = Returned st' ->
  error st' = None \/
  (failsToParse rt text /\ error st' = Some invalidDateFormat).
Proof.
  unfold Picker.handleBlur. cbv zeta.
  destruct (isEmpty (trim text)) eqn:Ee.
  { intros H; inversion H; auto. }
  assert (Hne : trim text <> EmptyString).
  { intros E. rewrite E in Ee. discriminate. }
  destruct (Picker.parseShortcut rt (trim text)) eqn:Es.
  { intros H. left. eapply commit_error; eauto. }
  destruct (Picker.numericOutOfRange (trim text)) eqn:Er.
  { intros H; inversion H. right. split; [|reflexivity]. repeat split; auto. }
  destruct (Picker.parsePatterns rt (trim text)) eqn:Ep.
  { intros H. left. eapply commit_error; eauto. }
  intros H; inversion H. right. split; [|reflexivity]. repeat split; auto.
Qed.

Lemma handleKeyDown_error rt st ctrlKey key text st' :
  Picker.handleKeyDown rt st ctrlKey key text = Returned st' ->
  error st' = None \/ error st' = error st.
Proof.
  unfold Picker.handleKeyDown. cbv zeta. intros H.
  destruct ctrlKey, key;
    repeat match type of H with
    | Returned _ = Returned _ => inversion H; subst; auto
    | Picker.commit _ _ _ = Returned _ => left; eapply commit_error; eauto
    | context [match ?x with _ => _ end] => destruct x eqn:?
    end.
Qed.

(** No handler but a failed blur sets an error. *)
Lemma handle_error rt st ev st' :
  Picker.handle rt st ev = Returned st' ->
  error st' = None \/ error st' = error st \/
  (exists text, ev = Picker.Blur text /\ failsToParse rt text /\
                error st' = Some invalidDateFormat).
Proof.
  destruct ev as [newValue|ctrlKey key text| |text|date|]; cbn [Picker.handle]; intros H.
  - inversion H. unfold Picker.handleInputChange. cbv zeta.
    destruct (truthy (error (setInputValue newValue st))); auto.
  - destruct (handleKeyDown_error _ _ _ _ _ _ H) as [E|E]; [left | right; left]; exact E.
  - inversion H. right; left; reflexivity.
  - destruct (handleBlur_error _ _ _ _ H) as [E|[F E]]; [left; exact E|].
    right; right. exists text. auto.
  - unfold Picker.handleDateChange in H. destruct date.
    + left. eapply commit_error; eauto.
    + inversion H. auto.
  - inversion H. auto.
Qed.

End BlurFacts.

(** ** Shortcuts *)

Module ShortcutFacts.
Import Throwing JSString ESDate Form Spec DateFacts StringFacts NavigationFacts.

Lemma setDate_getDate rt t : setDate rt t (getDate rt t) = t.
Proof.
  unfold setDate, getDate. cbv zeta.
  rewrite MakeDay_fields, MakeDate_Day. apply UTC_LocalTime.
Qed.

Lemma setDate_eq rt t d :
  setDate rt t d
  = UTC rt (MakeDate (MakeDay (getFullYear rt t) (getMonth rt t) d)
                     (TimeWithinDay (LocalTime rt t))).
Proof. reflexivity. Qed.

Lemma setMonth_eq rt t m :
  setMonth rt t m None
  = UTC rt (MakeDate (MakeDay (getFullYear rt t) m (getDate rt t))
                     (TimeWithinDay (LocalTime rt t))).
Proof. reflexivity. Qed.

Lemma setFullYear_eq rt t y :
  setFullYear rt t y None None
  = UTC rt (MakeDate (MakeDay y (getMonth rt t) (getDate rt t))
                     (TimeWithinDay (LocalTime rt t))).
Proof. reflexivity. Qed.

Lemma setClamped_same rt t u :
  Dayjs.setClamped rt t u
    (match u with Dayjs.year => getFullYear rt t | _ => getMonth rt t end) = t.
Proof.
  pose proof (fields_range (LocalTime rt t)) as [Hm Hd].
  pose proof (TimeWithinDay_range (LocalTime rt t)) as Htod.
  fold (getFullYear rt t) (getMonth rt t) (getDate rt t) in Hm, Hd.
  pose proof (DaysInMonth_range (getFullYear rt t) _ Hm) as HD.
  pose proof (setDate_getDate rt t) as Hsame. rewrite setDate_eq in Hsame.
  unfold Dayjs.setClamped. cbv zeta.
  destruct (local_fields_make rt (getFullYear rt t) (getMonth rt t) 1
              (TimeWithinDay (LocalTime rt t)) Hm ltac:(lia) Htod) as (F1 & F2 & F3 & F4).
  rewrite <- (setDate_eq rt t 1) in F1, F2, F3, F4.
  remember (setDate rt t 1) as t1 eqn:E1.
  remember (getFullYear rt t) as Y. remember (getMonth rt t) as M.
  remember (getDate rt t) as Dd. remember (TimeWithinDay (LocalTime rt t)) as tod.
  assert (E2 : match u with
               | Dayjs.year => setFullYear rt t1 Y None None
               | _ => setMonth rt t1 M None
               end = t1).
  { rewrite setDate_eq in E1. rewrite <- HeqY, <- HeqM, <- Heqtod in E1.
    destruct u; rewrite ?setMonth_eq, ?setFullYear_eq, ?F1, ?F2, ?F3, ?F4; congruence. }
  assert (E3 : setDate rt
                 match u with
                 | Dayjs.year => setFullYear rt t1 Y None None
                 | _ => setMonth rt t1 M None
                 end
                 (Z.min Dd (Dayjs.daysInMonth rt
                    match u with
                    | Dayjs.year => setFullYear rt t1 Y None None
                    | _ => setMonth rt t1 M None
                    end)) = t).
  { rewrite E2. unfold Dayjs.daysInMonth. rewrite F1, F2, Z.min_l by lia.
    rewrite setDate_eq, F1, F2, F4. exact Hsame. }
  destruct u; exact E3.
Qed.

(** Adding zero days, months or years gives the same instant. *)
Lemma dayjs_add_zero rt t u : Dayjs.add rt t (Some 0) u = TimeValue t.
Proof.
  unfold Dayjs.add. f_equal. destruct u.
  - replace (getDate rt t + 0) with (getDate rt t) by lia. apply setDate_getDate.
  - replace (getMonth rt t + 0) with (getMonth rt t) by lia.
    apply (setClamped_same rt t Dayjs.month).
  - replace (getFullYear rt t + 0) with (getFullYear rt t) by lia.
    apply (setClamped_same rt t Dayjs.year).
Qed.

(** [parseShortcut] on a bare unit letter is today. *)
Lemma parseShortcut_bare rt input :
  toLowerCase (trim input) = "d" \/ toLowerCase (trim input) = "m"
  \/ toLowerCase (trim input) = "y" ->
  Picker.parseShortcut rt input = Some (TimeValue (now rt)).
Proof.
  intros H. unfold Picker.parseShortcut. cbv zeta.
  destruct H as [E|[E|E]]; rewrite E.
  - change (matchFull reShortcut "d") with (Some ["d"; EmptyString]).
    cbv beta iota. change (isEmpty EmptyString) with true.
    change ("d" =? "d")%string with true. cbv beta iota.
    rewrite dayjs_add_zero. reflexivity.
  - change (matchFull reShortcut "m") with (Some ["m"; EmptyString]).
    cbv beta iota. change (isEmpty EmptyString) with true.
    change ("m" =? "d")%string with false. change ("m" =? "m")%string with true.
    cbv beta iota. rewrite dayjs_add_zero. reflexivity.
  - change (matchFull reShortcut "y") with (Some ["y"; EmptyString]).
    cbv beta iota. change (isEmpty EmptyString) with true.
    change ("y" =? "d")%string with false. change ("y" =? "m")%string with false.
    change ("y" =? "y")%string with true.
    cbv beta iota. rewrite dayjs_add_zero. reflexivity.
Qed.

(** An input that the shortcut pattern does not match gives [null]. *)
Lemma parseShortcut_no_match rt input :
  matchFull reShortcut (toLowerCase (trim input)) = None ->
  Picker.parseShortcut rt input = None.
Proof. intros H. unfold Picker.parseShortcut. cbv zeta. rewrite H. reflexivity. Qed.

End ShortcutFacts.

(** ** Round trip of the codec *)

Module RoundTrip.
Import Throwing JSString ESDate Codec Spec DateFacts StringFacts CodecFacts.

(** The decoded time value is noon in UTC; read in local time it is the same
    calendar date whenever the offset is less than twelve hours either way. *)
Lemma local_date_of_utc_noon (rt : Runtime) (y m d : Z) :
  ~ 0 <= y <= 99 -> 0 <= m <= 11 -> 1 <= d <= DaysInMonth y m ->
  - 43200000 <= LocalTZA rt < 43200000 ->
  localDate rt (DateUTC y m d 12 0 0 0) = mkDate y (m + 1) d.
Proof.
  intros Hy Hm Hd Htz.
  destruct (fields_of_day (LocalTime rt (DateUTC y m d 12 0 0 0)) y m d Hm Hd)
    as (F1 & F2 & F3).
  { unfold LocalTime, DateUTC. rewrite MakeFullYear_id by auto.
    rewrite <- MakeDay_in_year by auto.
    unfold MakeDate, MakeTime, Day, msPerDay, msPerHour, msPerMinute, msPerSecond.
    Z.div_mod_to_equations. lia. }
  unfold localDate, getFullYear, getMonth, getDate. rewrite F1, F2, F3. reflexivity.
Qed.

(** C1, as amended: for every valid calendar date [d] with a year from 100
    to 9999, every time zone less than twelve hours from UTC and every
    [Date] whose local date is [d], [dateToISOString] gives the canonical
    text of [d], and [parseDateFromISO] decodes that text to a date whose
    local calendar date, the one the component shows, is [d] again; its
    calendar date in UTC is [d] too. *)
Theorem roundtrip_decode_encode (rt : Runtime) (t : Z) (d : CalendarDate) :
  validDate d -> 100 <= year d <= 9999 ->
  - 43200000 <= LocalTZA rt < 43200000 ->
  localDate rt t = d ->
  exists s t',
    dateToISOString rt (TimeValue t) = Returned s /\
    s = canonicalText (year d) (month d) (day d) /\
    parseDateFromISO s = Some (TimeValue t') /\
    localDate rt t' = d /\
    utcDate t' = d.
Proof.
  intros _ Hy Htz E. subst d. cbn [year month day localDate] in *.
  pose proof (fields_range (LocalTime rt t)) as [Hm Hd].
  fold (getFullYear rt t) (getMonth rt t) (getDate rt t) in Hm, Hd.
  exists (canonicalText (getFullYear rt t) (getMonth rt t + 1) (getDate rt t)).
  exists (DateUTC (getFullYear rt t) (getMonth rt t + 1 - 1) (getDate rt t) 12 0 0 0).
  split; [apply dateToISOString_text; auto|].
  split; [reflexivity|].
  pose proof (DaysInMonth_range (getFullYear rt t) _ Hm) as Hd31.
  split; [|split].
  - unfold canonicalText. apply parseDateFromISO_prefix; lia.
  - replace (getMonth rt t + 1 - 1) with (getMonth rt t) by lia.
    apply local_date_of_utc_noon; auto; lia.
  - replace (getMonth rt t + 1 - 1) with (getMonth rt t) by lia.
    apply utcDate_DateUTC; auto; try lia.
    unfold MakeTime, msPerDay; simpl; lia.
Qed.

(** The round trip at 8 July 2025, local midnight in India. *)
Lemma roundtrip_decode_encode_witness :
  validDate (mkDate 2025 7 8) /\
  localDate rtIST 1751913000000 = mkDate 2025 7 8 /\
  exists s t',
    dateToISOString rtIST (TimeValue 1751913000000) = Returned s /\
    s = canonicalText 2025 7 8 /\
    parseDateFromISO s = Some (TimeValue t') /\
    localDate rtIST t' = mkDate 2025 7 8 /\
    utcDate t' = mkDate 2025 7 8.
Proof.
  assert (V : validDate (mkDate 2025 7 8)).
  { unfold validDate. change (DaysInMonth (year (mkDate 2025 7 8)) (month (mkDate 2025 7 8) - 1)) with 31.
    simpl. lia. }
  split; [exact V|]. split; [reflexivity|].
  apply (roundtrip_decode_encode rtIST 1751913000000 (mkDate 2025 7 8)).
  - exact V.
  - simpl. lia.
  - simpl. lia.
  - reflexivity.
Defined.

(** C1 as stated fails: 1 January 10000 is a valid calendar date, its
    canonical string starts with a sign and six digits, and the decoder
    returns [null] on it. *)
Lemma roundtrip_fails_for_year_10000 :
  validDate (mkDate 10000 1 1) /\
  localDate rtUTC 253402300800000 = mkDate 10000 1 1 /\
  dateToISOString rtUTC (TimeValue 253402300800000)
    = Returned "+010000-01-01T00:00:00.000Z" /\
  parseDateFromISO "+010000-01-01T00:00:00.000Z" = None.
Proof.
  split.
  { unfold validDate. change (DaysInMonth (year (mkDate 10000 1 1)) (month (mkDate 10000 1 1) - 1)) with 31.
    simpl. lia. }
  repeat split; reflexivity.
Qed.

(** Years 0 to 99 are read as 1900 to 1999 by [Date.UTC]: the date of year
    50 does not come back either. *)
Lemma encode_year_50 :
  localDate rtUTC (-60575040000000) = mkDate 50 6 15 /\
  dateToISOString rtUTC (TimeValue (-60575040000000))
    = Returned "1950-06-15T00:00:00.000Z".
Proof. split; reflexivity. Qed.

(** Twelve hours ahead of UTC the decoded date, noon in UTC, is read as
    the next day: 20 January 2025 comes back as 21 January, and encoding
    it again gives the text of 21 January. *)
Lemma roundtrip_shifts_a_day_at_plus_12 :
  localDate rtNZST 1737288000000 = mkDate 2025 1 20 /\
  dateToISOString rtNZST (TimeValue 1737288000000)
    = Returned "2025-01-20T00:00:00.000Z" /\
  parseDateFromISO "2025-01-20T00:00:00.000Z" = Some (TimeValue 1737374400000) /\
  localDate rtNZST 1737374400000 = mkDate 2025 1 21 /\
  dateToISOString rtNZST (TimeValue 1737374400000)
    = Returned "2025-01-21T00:00:00.000Z".
Proof. repeat split; vm_compute; reflexivity. Qed.

End RoundTrip.

(** ** Shortcut tokens *)

Module Shortcut.
Import Throwing JSString ESDate Form Spec ShortcutFacts.

(** C4: [parseShortcut] resolves each of the bare letters d, m and y to
    today (now plus zero units).  The variants that handle the shortcuts
    inside their blur handler do not: [handleInputBlur] accepts a bare m or y
    with its pattern, reads the missing count as [NaN] and clears the field;
    [CustomDateField.handleBlur] takes a bare m or y for a date to parse. *)
Theorem bare_unit_letter_across_variants (rt : Runtime) (st : State) :
  Picker.parseShortcut rt "d" = Some (TimeValue (now rt)) /\
  Picker.parseShortcut rt "m" = Some (TimeValue (now rt)) /\
  Picker.parseShortcut rt "y" = Some (TimeValue (now rt)) /\
  PickerInline.handleInputBlur rt (setInputValue "m" st)
    = Returned (mkState None None (touched st) EmptyString (isFocused st)) /\
  PickerInline.handleInputBlur rt (setInputValue "y" st)
    = Returned (mkState None None (touched st) EmptyString (isFocused st)) /\
  CustomDateField.shortcutBranch rt "m" = None /\
  CustomDateField.shortcutBranch rt "y" = None.
Proof.
  split; [apply parseShortcut_bare; left; reflexivity|].
  split; [apply parseShortcut_bare; right; left; reflexivity|].
  split; [apply parseShortcut_bare; right; right; reflexivity|].
  repeat split; vm_compute; reflexivity.
Qed.

End Shortcut.

(** ** Commits of typed text *)

Module Commit.
Import Throwing JSString ESDate Form Codec Spec DateFacts StringFacts NavigationFacts InputFacts
  CodecFacts BlurFacts.

(** Every commit of the variant that calls [dateToISOString] stores the
    canonical text of the local date, for the years 100 to 9999. *)
Lemma commitUTC_stores_canonical_text rt st t :
  100 <= getFullYear rt t <= 9999 ->
  PickerUTC.commit rt st (TimeValue t) =
  Returned (setInputValue (format_P rt t)
          (setError None
             (setValue
                (Some (canonicalText (getFullYear rt t) (getMonth rt t + 1) (getDate rt t)))
                st))).
Proof.
  intros Hy. unfold PickerUTC.commit. rewrite dateToISOString_text by auto. reflexivity.
Qed.

(** [new Date(y, m, d)] is local midnight: in UTC its time of day is the
    offset taken off midnight, which is zero only for an offset of whole
    days. *)
Lemma local_midnight_time_of_day rt y m d :
  TimeWithinDay (newDateLocal rt y m d) = (- LocalTZA rt) mod msPerDay.
Proof.
  unfold newDateLocal, UTC, MakeDate, MakeTime, TimeWithinDay, msPerDay.
  replace (MakeDay (MakeFullYear y) m d * 86400000
           + (0 * msPerHour + 0 * msPerMinute + 0 * msPerSecond + 0) - LocalTZA rt)
    with (- LocalTZA rt + MakeDay (MakeFullYear y) m d * 86400000) by lia.
  apply Z.mod_add. lia.
Qed.

(** The value that [handleBlur] of date-picker-component.tsx stores for an
    in-range slash form is the UTC text of local midnight. *)
Lemma handleBlur_stores_local_midnight rt st text ms ds oy :
  digitRun 1 2 ms -> digitRun 1 2 ds -> yearRun oy ->
  trim text = slashed ms ds oy ->
  1 <= digitsValue ms <= 12 -> 1 <= digitsValue ds <= 31 ->
  outcome_map value (Picker.handleBlur rt st text)
  = Returned (Some (toISOString
       (newDateLocal rt (yearOf rt oy) (digitsValue ms - 1) (digitsValue ds)))).
Proof.
  intros Hm Hd Hy Ht Rm Rd.
  rewrite (handleBlur_slashed rt st text ms ds oy Hm Hd Hy Ht).
  rewrite outOfRange_false by auto. reflexivity.
Qed.

(** C3: evaluated at the typed input 07/08/2025 in a time zone five and a
    half hours ahead of UTC.  [handleBlur] of date-picker-component.tsx
    stores [toISOString] of local midnight, which is 18:30 of the day before
    in UTC, and a shortcut stores the current time of day; the variant that
    calls [dateToISOString] stores the date at zero time of day. *)
Theorem stored_value_is_not_utc_midnight :
  outcome_map value (Picker.handleBlur rtIST emptyState "07/08/2025")
    = Returned (Some "2025-07-07T18:30:00.000Z") /\
  outcome_map value (Picker.handleBlur rtUTC emptyState "d")
    = Returned (Some "2025-01-15T10:30:00.000Z") /\
  outcome_map value (PickerUTC.handleBlur rtIST emptyState "07/08/2025")
    = Returned (Some "2025-07-08T00:00:00.000Z").
Proof. repeat split; vm_compute; reflexivity. Qed.

(** C6: a slash-delimited numeric input (one or two digits, a slash, one or
    two digits, optionally a slash and a year of two or four digits) whose
    month is outside 1..12 or whose day is outside 1..31 is rejected by
    [handleBlur] with the error Invalid date format; the committed value and
    the text of the input stay as they were. *)
Theorem out_of_range_slash_input_is_rejected
    (rt : Runtime) (st : State) (text ms ds : string) (oy : option string) :
  digitRun 1 2 ms -> digitRun 1 2 ds -> yearRun oy ->
  trim text = slashed ms ds oy ->
  ~ 1 <= digitsValue ms <= 12 \/ ~ 1 <= digitsValue ds <= 31 ->
  exists st',
    Picker.handleBlur rt st text = Returned st' /\
    error st' = Some "Invalid date format" /\
    value st' = value st /\
    inputValue st' = inputValue st.
Proof.
  intros Hm Hd Hy Ht Hr. exists (rejected st).
  rewrite (handleBlur_slashed rt st text ms ds oy Hm Hd Hy Ht).
  rewrite outOfRange_true by auto. repeat split.
Qed.

(** The input 13/45/2025. *)
Lemma out_of_range_slash_input_is_rejected_witness :
  trim "13/45/2025" = slashed "13" "45" (Some "2025") /\
  exists st',
    Picker.handleBlur rtUTC emptyState "13/45/2025" = Returned st' /\
    error st' = Some "Invalid date format" /\
    value st' = value emptyState /\
    inputValue st' = inputValue emptyState.
Proof.
  split; [reflexivity|].
  apply (out_of_range_slash_input_is_rejected rtUTC emptyState "13/45/2025" "13" "45" (Some "2025")).
  - apply digitRun_intro; reflexivity.
  - apply digitRun_intro; reflexivity.
  - right. apply digitRun_intro; reflexivity.
  - reflexivity.
  - left. change (digitsValue "13") with 13. lia.
Defined.

(** The variant that stores UTC midnight rejects the same inputs. *)
Lemma out_of_range_slash_input_is_rejected_by_utc_variant
    (rt : Runtime) (st : State) (text ms ds : string) (oy : option string) :
  digitRun 1 2 ms -> digitRun 1 2 ds -> yearRun oy ->
  trim text = slashed ms ds oy ->
  ~ 1 <= digitsValue ms <= 12 \/ ~ 1 <= digitsValue ds <= 31 ->
  PickerUTC.handleBlur rt st text = Returned (rejected st).
Proof.
  intros Hm Hd Hy Ht Hr.
  rewrite (handleBlurUTC_slashed rt st text ms ds oy Hm Hd Hy Ht).
  rewrite outOfRange_true by auto. reflexivity.
Qed.

(** The variant without the range check commits a normalized date. *)
Lemma locale_first_variant_normalizes_13_45 :
  outcome_map value (PickerLocaleFirst.handleBlur rtUTC emptyState "13/45/2025")
    = Returned (Some "2026-02-14T00:00:00.000Z").
Proof. vm_compute. reflexivity. Qed.

(** The order of the flexible parser in [handleBlur] of
    date-picker-component.tsx, on an input that is no shortcut: the three
    slash forms with a month in 1..12 and a day in 1..31 commit
    [new Date(year, month - 1, day)] with the current year, 2000 plus the
    two-digit year, or the four-digit year, whatever the locale format would
    read; with a month or day out of range they are an error; and an input
    that passes the range check and matches none of the three patterns is
    decided by the locale format alone. *)
Lemma flexible_parser_precedence (rt : Runtime) (st : State) (text : string) :
  (forall ms ds oy,
     digitRun 1 2 ms -> digitRun 1 2 ds -> yearRun oy ->
     trim text = slashed ms ds oy ->
     (1 <= digitsValue ms <= 12 -> 1 <= digitsValue ds <= 31 ->
      Picker.handleBlur rt st text =
      Picker.commit rt (blurred st)
        (TimeValue (newDateLocal rt (yearOf rt oy) (digitsValue ms - 1) (digitsValue ds)))) /\
     (~ 1 <= digitsValue ms <= 12 \/ ~ 1 <= digitsValue ds <= 31 ->
      Picker.handleBlur rt st text = Returned (rejected st))) /\
  (trim text <> EmptyString ->
   Picker.parseShortcut rt (trim text) = None ->
   Picker.numericOutOfRange (trim text) = false ->
   test reMonthDay (trim text) = false ->
   test reMonthDayYear2 (trim text) = false ->
   test reMonthDayYear4 (trim text) = false ->
   Picker.handleBlur rt st text =
   match parse_P rt (trim text) with
   | TimeValue t => Picker.commit rt (blurred st) (TimeValue t)
   | InvalidDate => Returned (rejected st)
   end).
Proof.
  split.
  - intros ms ds oy Hm Hd Hy Ht. split.
    + intros Rm Rd. rewrite (handleBlur_slashed rt st text ms ds oy Hm Hd Hy Ht).
      rewrite outOfRange_false by auto. reflexivity.
    + intros Hr. rewrite (handleBlur_slashed rt st text ms ds oy Hm Hd Hy Ht).
      rewrite outOfRange_true by auto. reflexivity.
  - apply handleBlur_fallback.
Qed.

(** The input 4/5/23: the two-digit form, year 2023. *)
Lemma flexible_parser_precedence_example :
  trim "4/5/23" = slashed "4" "5" (Some "23") /\
  Picker.handleBlur rtUTC emptyState "4/5/23"
  = Picker.commit rtUTC (blurred emptyState)
      (TimeValue (newDateLocal rtUTC 2023 3 5)).
Proof.
  split; [reflexivity|].
  apply (proj1 (proj1 (flexible_parser_precedence rtUTC emptyState "4/5/23")
                  "4" "5" (Some "23")
                  ltac:(apply digitRun_intro; reflexivity)
                  ltac:(apply digitRun_intro; reflexivity)
                  ltac:(left; apply digitRun_intro; reflexivity)
                  ltac:(reflexivity))).
  - change (digitsValue "4") with 4. lia.
  - change (digitsValue "5") with 5. lia.
Qed.

(** The variant that tries the locale format first commits what the locale
    format reads, whatever the slash patterns would give. *)
Lemma locale_first_commits_locale_reading rt st text t :
  trim text <> EmptyString ->
  Picker.parseShortcut rt (trim text) = None ->
  parse_P rt (trim text) = TimeValue t ->
  PickerLocaleFirst.handleBlur rt st text
  = PickerLocaleFirst.commit rt (setIsFocused false st) (TimeValue t).
Proof.
  intros Hne Hs Hp. unfold PickerLocaleFirst.handleBlur, PickerLocaleFirst.parseShortcut.
  cbv zeta. rewrite isEmpty_false, Hs, Hp by auto. reflexivity.
Qed.

(** C5: evaluated at the input 4/5/23 with the en-US format.  The input
    matches the pattern of the two-digit year, which the claim puts before
    the locale format and which [handleBlur] of date-picker-component.tsx
    reads as 2023; the variant that tries the locale format first commits
    what that format reads, the year 23, and never reaches its own branch
    for two-digit years. *)
Theorem locale_first_variant_reads_year_23 :
  test reMonthDayYear2 "4/5/23" = true /\
  parse_P rtUTC "4/5/23" = TimeValue (-61433251200000) /\
  outcome_map value (PickerLocaleFirst.handleBlur rtUTC emptyState "4/5/23")
    = Returned (Some "0023-04-05T00:00:00.000Z") /\
  outcome_map value (Picker.handleBlur rtUTC emptyState "4/5/23")
    = Returned (Some "2023-04-05T00:00:00.000Z").
Proof. repeat split; vm_compute; reflexivity. Qed.

(** A four-digit year below 100 is read by the [Date] constructor as a year
    of the twentieth century. *)
Lemma four_digit_year_below_100 :
  outcome_map value (Picker.handleBlur rtUTC emptyState "4/5/0050")
    = Returned (Some "1950-04-05T00:00:00.000Z").
Proof. vm_compute. reflexivity. Qed.

(** The range check also covers a year of three digits, which none of the
    three patterns matches: out of range it is an error, in range it goes to
    the locale format. *)
Lemma three_digit_year :
  outcome_map error (Picker.handleBlur rtUTC emptyState "13/5/123")
    = Returned (Some "Invalid date format") /\
  outcome_map value (Picker.handleBlur rtUTC emptyState "3/5/123")
    = Returned (Some "0123-03-05T00:00:00.000Z").
Proof. split; vm_compute; reflexivity. Qed.

(** C8, as amended: the error branch of [handleBlur] in
    date-picker-component.tsx is atomic.  A commit (blur) whose non-empty
    input fails both the shortcut and the flexible parser leaves the
    committed value and the text of the input unchanged and sets the error
    Invalid date format; after an edit no error is shown; and no event
    introduces an error except such a failed blur. *)
Theorem failed_commit_is_atomic (rt : Runtime) (st : State) :
  (forall text, failsToParse rt text ->
     exists st',
       Picker.handleBlur rt st text = Returned st' /\
       value st' = value st /\
       inputValue st' = inputValue st /\
       error st' = Some "Invalid date format" /\
       errorState st' = true) /\
  (forall newValue, errorState (Picker.handleInputChange st newValue) = false) /\
  (forall ev st',
     Picker.handle rt st ev = Returned st' ->
     error st' = None \/ error st' = error st \/
     exists text, ev = Picker.Blur text /\ failsToParse rt text).
Proof.
  split; [|split].
  - intros text Hf. exists (rejected st).
    split; [apply handleBlur_rejects; auto|]. repeat split.
  - apply handleInputChange_no_error.
  - intros ev st' H. destruct (handle_error rt st ev st' H) as [E|[E|(text & E1 & E2 & _)]]; eauto.
Qed.

(** The input invalid, typed over a committed date. *)
Lemma failed_commit_is_atomic_witness :
  failsToParse rtUTC "invalid" /\
  exists st',
    Picker.handleBlur rtUTC
      (mkState (Some "2025-07-08T00:00:00.000Z") None true "invalid" true) "invalid"
      = Returned st' /\
    value st' = Some "2025-07-08T00:00:00.000Z" /\
    inputValue st' = "invalid" /\
    error st' = Some "Invalid date format" /\
    errorState st' = true.
Proof.
  assert (F : failsToParse rtUTC "invalid").
  { split; [discriminate|]. split; [reflexivity|]. right. reflexivity. }
  split; [exact F|].
  apply (proj1 (failed_commit_is_atomic rtUTC
                  (mkState (Some "2025-07-08T00:00:00.000Z") None true "invalid" true))
               "invalid" F).
Defined.

(** The variant that tries the locale format first has no error message:
    whenever the locale format and the three slash patterns all fail, it
    clears the committed value and the text of the input. *)
Lemma locale_first_clears_whenever_parsing_fails rt st text :
  trim text <> EmptyString ->
  Picker.parseShortcut rt (trim text) = None ->
  parse_P rt (trim text) = InvalidDate ->
  PickerLocaleFirst.parsePartial rt (trim text) InvalidDate = InvalidDate ->
  PickerLocaleFirst.handleBlur rt st text
  = Returned (mkState None None (touched st) EmptyString false).
Proof.
  intros Hne Hs Hp Hq. unfold PickerLocaleFirst.handleBlur, PickerLocaleFirst.parseShortcut.
  cbv zeta. rewrite isEmpty_false, Hs, Hp, Hq by auto. reflexivity.
Qed.

(** C8 as stated fails for the variant of unnamed part 0: at the text
    invalid, typed over the committed value 2025-07-08T00:00:00.000Z and
    blurred, that variant clears the committed value and the text of the
    input and leaves no error, where date-picker-component.tsx keeps both
    and sets the error. *)
Lemma locale_first_variant_clears_on_failure :
  failsToParse rtUTC "invalid" /\
  PickerLocaleFirst.handleBlur rtUTC
    (mkState (Some "2025-07-08T00:00:00.000Z") None true "invalid" true) "invalid"
  = Returned (mkState None None true EmptyString false) /\
  Picker.handleBlur rtUTC
    (mkState (Some "2025-07-08T00:00:00.000Z") None true "invalid" true) "invalid"
  = Returned (mkState (Some "2025-07-08T00:00:00.000Z") (Some "Invalid date format")
                true "invalid" false).
Proof.
  split; [|split; vm_compute; reflexivity].
  split; [discriminate|]. split; [reflexivity|]. right. reflexivity.
Qed.

End Commit.

(** ** Decoding stored values *)

Module Decode.
Import Throwing JSString ESDate Form Codec Spec DateFacts StringFacts NavigationFacts InputFacts
  CodecFacts BlurFacts.

Lemma takeDigits_inv n s a b :
  takeDigits (Some n) s = (a, b) ->
  s = a ++ b /\ allDigits a = true /\ (String.length a <= n)%nat.
Proof.
  revert n a b. induction s as [|c r IH]; intros n a b H; simpl in H.
  - inversion H. simpl. repeat split; auto. lia.
  - destruct (isDigit c) eqn:Ec.
    + destruct n as [|k].
      * inversion H. simpl. repeat split; auto.
      * destruct (takeDigits (Some k) r) as [a' b'] eqn:E.
        destruct (IH k a' b' E) as (E1 & E2 & E3).
        inversion H; subst.
        simpl. rewrite Ec, E2. repeat split; auto. lia.
    + inversion H. simpl. repeat split; auto. lia.
Qed.

Lemma exec_D_inv lo hi p s ps rest :
  exec (D lo hi :: p) s = Some (ps, rest) ->
  exists ds r ps',
    s = ds ++ r /\ digitRun lo hi ds /\ ps = ds :: ps' /\ exec p r = Some (ps', rest).
Proof.
  unfold D. cbn [exec]. destruct (takeDigits (Some hi) s) as [ds r] eqn:E.
  destruct (Nat.leb_spec lo (String.length ds)); [|discriminate].
  destruct (exec p r) as [[ps' rest']|] eqn:E'; [|discriminate].
  intros Hs; inversion Hs; subst.
  destruct (takeDigits_inv hi s ds r E) as (E1 & E2 & E3).
  exists ds, r, ps'. repeat split; auto.
Qed.

Lemma exec_Lit_inv c p s ps rest :
  exec (Lit c :: p) s = Some (ps, rest) ->
  exists r ps',
    s = String c r /\ ps = String c EmptyString :: ps' /\ exec p r = Some (ps', rest).
Proof.
  cbn [exec]. destruct s as [|c' r]; [discriminate|].
  destruct (Ascii.eqb_spec c' c); [|discriminate]. subst c'.
  destruct (exec p r) as [[ps' rest']|] eqn:E'; [|discriminate].
  intros H; inversion H; subst. eauto.
Qed.

(** What the date pattern matches. *)
Lemma exec_reIsoDate_inv s ps rest :
  exec reIsoDate s = Some (ps, rest) ->
  exists y m d,
    digitRun 4 4 y /\ digitRun 2 2 m /\ digitRun 2 2 d /\
    ps = [y; "-"; m; "-"; d] /\ s = y ++ "-" ++ m ++ "-" ++ d ++ rest.
Proof.
  unfold reIsoDate. intros H.
  apply exec_D_inv in H as (y & r1 & ps1 & -> & Hy & -> & H).
  apply exec_Lit_inv in H as (r2 & ps2 & -> & -> & H).
  apply exec_D_inv in H as (m & r3 & ps3 & -> & Hm & -> & H).
  apply exec_Lit_inv in H as (r4 & ps4 & -> & -> & H).
  apply exec_D_inv in H as (d & r5 & ps5 & -> & Hd & -> & H).
  cbn [exec] in H. inversion H; subst.
  exists y, m, d. repeat split; try apply Hy; try apply Hm; try apply Hd.
Qed.

Lemma exec_reIsoDate_digits y m d rest :
  digitRun 4 4 y -> digitRun 2 2 m -> digitRun 2 2 d ->
  exec reIsoDate (y ++ "-" ++ m ++ "-" ++ d ++ rest)
  = Some ([y; "-"; m; "-"; d], rest).
Proof.
  intros [Hy Ly] [Hm Lm] [Hd Ld]. unfold reIsoDate.
  rewrite exec_digits; [| auto | lia | left; lia].
  change ("-" ++ m ++ "-" ++ d ++ rest) with (String "-" (m ++ "-" ++ d ++ rest)).
  rewrite exec_lit.
  rewrite exec_digits; [| auto | lia | left; lia].
  change ("-" ++ d ++ rest) with (String "-" (d ++ rest)).
  rewrite exec_lit.
  rewrite exec_digits; [| auto | lia | left; lia].
  reflexivity.
Qed.

Lemma numbers_of_date_prefix y m d :
  digitRun 4 4 y -> digitRun 2 2 m -> digitRun 2 2 d ->
  map Number (split "-" (concat [y; "-"; m; "-"; d]))
  = [Some (digitsValue y); Some (digitsValue m); Some (digitsValue d)].
Proof.
  intros Hy Hm Hd. unfold concat. cbn [fold_right].
  change ("-" ++ m ++ "-" ++ d ++ "") with (String "-" (m ++ String "-" (d ++ ""))).
  rewrite append_nil_r.
  rewrite !split_digits_sep, split_digits; try reflexivity;
    try apply Hy; try apply Hm; try apply Hd.
  cbn [map].
  rewrite !Number_digits; try apply Hy; try apply Hm; try apply Hd;
    try (eapply digitRun_nonempty; [|eassumption]; lia).
  reflexivity.
Qed.

(** On a string with a date prefix the decoder returns the date that
    [Date.UTC] makes of the three numbers, at noon, whatever the numbers and
    whatever follows the prefix; it has no range check. *)
Lemma parseDateFromISO_on_prefix y m d rest :
  digitRun 4 4 y -> digitRun 2 2 m -> digitRun 2 2 d ->
  parseDateFromISO (y ++ "-" ++ m ++ "-" ++ d ++ rest)
  = Some (TimeValue (DateUTC (digitsValue y) (digitsValue m - 1) (digitsValue d) 12 0 0 0)).
Proof.
  intros Hy Hm Hd. unfold parseDateFromISO, matchPrefix.
  destruct (digitRun_head 4 4 y ltac:(lia) Hy) as (c & r & E & _).
  rewrite exec_reIsoDate_digits by auto.
  rewrite numbers_of_date_prefix by auto.
  rewrite E. reflexivity.
Qed.

(** The decoder returns [null] exactly on the strings without a date
    prefix. *)
Lemma parseDateFromISO_null s :
  parseDateFromISO s = None <-> ~ hasDatePrefix s.
Proof.
  split.
  - intros H (y & m & d & rest & Hy & Hm & Hd & ->).
    rewrite parseDateFromISO_on_prefix in H by auto. discriminate.
  - intros H. unfold parseDateFromISO, matchPrefix.
    destruct (isEmpty s); [reflexivity|].
    destruct (exec reIsoDate s) as [[ps rest]|] eqn:E; [|reflexivity].
    exfalso. apply H.
    apply exec_reIsoDate_inv in E as (y & m & d & Hy & Hm & Hd & _ & ->).
    exists y, m, d, rest. auto.
Qed.

(** For the numerals of a valid date with a year from 100 on, the decoded
    time value is that date in UTC, whatever follows the prefix. *)
Lemma parseDateFromISO_names_prefix_date y m d rest :
  100 <= y <= 9999 -> validDate (mkDate y m d) ->
  exists t,
    parseDateFromISO (pad4 y ++ "-" ++ pad2 m ++ "-" ++ pad2 d ++ rest)
      = Some (TimeValue t) /\
    utcDate t = mkDate y m d.
Proof.
  intros Hy [Hm Hd]. cbn [year month day] in Hm, Hd.
  pose proof (DaysInMonth_range y (m - 1) ltac:(lia)).
  exists (DateUTC y (m - 1) d 12 0 0 0). split.
  - apply parseDateFromISO_prefix; lia.
  - replace m with (m - 1 + 1) at 2 by lia.
    apply utcDate_DateUTC; auto; try lia.
    unfold MakeTime, msPerDay; simpl; lia.
Qed.

(** C2: evaluated at the value 2025-07-08T18:30:00Z in a time zone five and
    a half hours ahead of UTC.  [dateValue] of date-picker-component.tsx
    is [new Date(field.value)], the instant itself, whose local date is
    9 July, and the input shows 07/09/2025; the decoder that reads the
    prefix gives noon of 8 July in UTC, whose local date there is 8 July,
    and the variant that uses it shows 07/08/2025. *)
Theorem dateValue_shifts_a_day_in_IST :
  Picker.dateValue rtIST (setValue (Some "2025-07-08T18:30:00Z") emptyState)
    = Some (TimeValue 1751999400000) /\
  localDate rtIST 1751999400000 = mkDate 2025 7 9 /\
  outcome_map inputValue
    (Picker.syncInputValue rtIST (setValue (Some "2025-07-08T18:30:00Z") emptyState))
    = Returned "07/09/2025" /\
  parseDateFromISO "2025-07-08T18:30:00Z" = Some (TimeValue 1751976000000) /\
  PickerUTC.dateValue (setValue (Some "2025-07-08T18:30:00Z") emptyState)
    = Some (TimeValue 1751976000000) /\
  localDate rtIST 1751976000000 = mkDate 2025 7 8 /\
  outcome_map inputValue
    (PickerUTC.syncInputValue rtIST
       (setValue (Some "2025-07-08T18:30:00Z") emptyState) None)
    = Returned "07/08/2025".
Proof. repeat split; vm_compute; reflexivity. Qed.

(** Twelve hours ahead of UTC, noon in UTC is already the next local day. *)
Lemma utc_noon_is_next_day_at_plus_12 :
  parseDateString "2025-07-08T18:30:00Z" = Some (TimeValue 1751976000000) /\
  localDate rtNZST 1751976000000 = mkDate 2025 7 9.
Proof. split; vm_compute; reflexivity. Qed.

(** A year below 100 in the prefix is read as a year of the twentieth
    century. *)
Lemma decode_year_50 :
  parseDateFromISO "0050-06-15" = Some (TimeValue (-616852800000)) /\
  utcDate (-616852800000) = mkDate 1950 6 15.
Proof. split; vm_compute; reflexivity. Qed.

(** C7: evaluated at 2025-13-45T00:00:00Z.  The prefix is well formed,
    month 13 and day 45 are out of range, and [parseDateFromISO] returns the
    normalized date 14 February 2026 (so does the ISO branch of
    [parseDateString]); the localized branch of [parseDateString] has the
    range check and returns [null] on 13/45/2025. *)
Theorem parseDateFromISO_normalizes_out_of_range :
  hasDatePrefix "2025-13-45T00:00:00Z" /\
  parseDateFromISO "2025-13-45T00:00:00Z" = Some (TimeValue 1771070400000) /\
  utcDate 1771070400000 = mkDate 2026 2 14 /\
  toISOString 1771070400000 = "2026-02-14T12:00:00.000Z" /\
  parseDateString "2025-13-45T00:00:00Z" = Some (TimeValue 1771070400000) /\
  parseDateString "13/45/2025" = None.
Proof.
  split.
  { exists "2025", "13", "45", "T00:00:00Z".
    repeat split; try reflexivity; simpl; lia. }
  repeat split; vm_compute; reflexivity.
Qed.

Lemma matchPrefix_reIsoDate_slashed ms ds oy :
  digitRun 1 2 ms -> matchPrefix reIsoDate (slashed ms ds oy) = None.
Proof.
  intros [Hm Lm]. unfold matchPrefix, reIsoDate, D. cbn [exec].
  assert (E : exists rest, slashed ms ds oy = ms ++ rest /\ headNotDigit rest = true).
  { destruct oy; unfold slashed; eexists; split; reflexivity. }
  destruct E as (rest & -> & Hh).
  rewrite takeDigits_app by (auto; lia).
  destruct (Nat.leb_spec 4 (String.length ms)); [lia | reflexivity].
Qed.

(** C10, as amended: on a string of one or two digits, a slash, one or two
    digits, a slash and four digits, [parseDateString] returns [null] when
    the month is outside 1..12 or the day outside 1..31, and otherwise the
    instant [Date.UTC(year, month - 1, day, 12)]; that instant is noon of the
    named calendar date when the day exists in the month and the year is at
    least 100. *)
Theorem parseDateString_localized (ms ds ys : string) :
  digitRun 1 2 ms -> digitRun 1 2 ds -> digitRun 4 4 ys ->
  (1 <= digitsValue ms <= 12 -> 1 <= digitsValue ds <= 31 ->
   parseDateString (slashed ms ds (Some ys))
   = Some (TimeValue (DateUTC (digitsValue ys) (digitsValue ms - 1) (digitsValue ds)
                              12 0 0 0))) /\
  (1 <= digitsValue ms <= 12 ->
   1 <= digitsValue ds <= DaysInMonth (digitsValue ys) (digitsValue ms - 1) ->
   100 <= digitsValue ys ->
   utcDate (DateUTC (digitsValue ys) (digitsValue ms - 1) (digitsValue ds) 12 0 0 0)
   = mkDate (digitsValue ys) (digitsValue ms) (digitsValue ds) /\
   TimeWithinDay (DateUTC (digitsValue ys) (digitsValue ms - 1) (digitsValue ds) 12 0 0 0)
   = 12 * msPerHour) /\
  (~ 1 <= digitsValue ms <= 12 \/ ~ 1 <= digitsValue ds <= 31 ->
   parseDateString (slashed ms ds (Some ys)) = None).
Proof.
  intros Hm Hd Hy.
  assert (P : parseDateString (slashed ms ds (Some ys)) =
              if outOfRange (digitsValue ms) (digitsValue ds) then None
              else Some (TimeValue (DateUTC (digitsValue ys) (digitsValue ms - 1)
                                            (digitsValue ds) 12 0 0 0))).
  { unfold parseDateString.
    rewrite slashed_nonempty, matchPrefix_reIsoDate_slashed by auto.
    rewrite matchFull_reMonthDayYear4 by auto.
    rewrite !Number_digits; try apply Hm; try apply Hd; try apply Hy;
      try (eapply digitRun_nonempty; [|eassumption]; lia).
    reflexivity. }
  split; [|split].
  - intros Rm Rd. rewrite P, outOfRange_false by auto. reflexivity.
  - intros Rm Rd Ry.
    assert (Ht : 0 <= MakeTime 12 0 0 0 < msPerDay)
      by (unfold MakeTime, msPerDay, msPerHour; simpl; lia).
    destruct (DateUTC_fields (digitsValue ys) (digitsValue ms - 1) (digitsValue ds) 12 0 0 0)
      as (F1 & F2 & F3 & F4); auto; try lia.
    split.
    + unfold utcDate, getUTCFullYear, getUTCMonth, getUTCDate. rewrite F1, F2, F3.
      f_equal. lia.
    + rewrite F4. reflexivity.
  - intros Hr. rewrite P, outOfRange_true by auto. reflexivity.
Qed.

(** The string 11/25/2025. *)
Lemma parseDateString_localized_witness :
  parseDateString "11/25/2025" = Some (TimeValue (DateUTC 2025 10 25 12 0 0 0)) /\
  utcDate (DateUTC 2025 10 25 12 0 0 0) = mkDate 2025 11 25.
Proof.
  pose proof (parseDateString_localized "11" "25" "2025"
                ltac:(apply digitRun_intro; reflexivity)
                ltac:(apply digitRun_intro; reflexivity)
                ltac:(apply digitRun_intro; reflexivity)) as (A & B & _).
  split.
  - apply A; [change (digitsValue "11") with 11 | change (digitsValue "25") with 25]; lia.
  - apply B.
    + change (digitsValue "11") with 11. lia.
    + change (digitsValue "25") with 25.
      change (DaysInMonth (digitsValue "2025") (digitsValue "11" - 1)) with 30. lia.
    + change (digitsValue "2025") with 2025. lia.
Defined.

(** C10 as stated fails: 2/30/2025 has a month in 1..12 and a day in 1..31,
    and the date returned is 2 March 2025, not 30 February. *)
Lemma parseDateString_normalizes_30_february :
  parseDateString "2/30/2025" = Some (TimeValue 1740916800000) /\
  utcDate 1740916800000 = mkDate 2025 3 2.
Proof. split; vm_compute; reflexivity. Qed.

End Decode.

(** ** Keyboard navigation *)

Module Navigation.
Import Throwing JSString ESDate Form Spec DateFacts RangeFacts NavigationFacts BlurFacts.

(** C9, as amended: Ctrl+Left and Ctrl+Right on a committed value that
    parses to a valid date within 200000 years of the year 0 never fail; the
    date they commit is, in local time, the calendar date one month earlier
    or later with the day of the month capped by the length of the month
    reached, and it is in the range of [Date]. *)
Theorem month_navigation_clamps (rt : Runtime) (st : State)
    (v : string) (t : Z) (key : Key) (text : string) :
  value st = Some v -> v <> EmptyString -> DateParse rt v = TimeValue t ->
  key = ArrowLeft \/ key = ArrowRight ->
  - msPerDay <= LocalTZA rt <= msPerDay ->
  - 200000 <= getFullYear rt t <= 200000 ->
  exists t',
    Picker.handleKeyDown rt st true key text
      = Returned (setInputValue (format_P rt t')
                (setError None (setValue (Some (toISOString t')) st))) /\
    localDate rt t'
      = shiftMonth (localDate rt t) (match key with ArrowLeft => -1 | _ => 1 end) /\
    representable t'.
Proof.
  intros Hv Hne Hp Hk Htz Hy.
  destruct (addMonths_local rt t (match key with ArrowLeft => -1 | _ => 1 end) Htz Hy)
    as (t' & A & L & _ & R); [destruct key; lia|].
  exists t'. split; [|split; assumption].
  unfold Picker.handleKeyDown. cbv zeta. rewrite Hv. unfold truthy.
  rewrite (isEmpty_false v Hne). cbn [negb]. rewrite Hp.
  destruct Hk; subst key; rewrite A; reflexivity.
Qed.

(** 31 January 2025 plus one month is 28 February 2025. *)
Lemma month_navigation_clamps_witness :
  DateParse rtUTC "2025-01-31T00:00:00.000Z" = TimeValue 1738281600000 /\
  localDate rtUTC 1738281600000 = mkDate 2025 1 31 /\
  exists t',
    Picker.handleKeyDown rtUTC (setValue (Some "2025-01-31T00:00:00.000Z") emptyState)
        true ArrowRight EmptyString
      = Returned (setInputValue (format_P rtUTC t')
                (setError None
                   (setValue (Some (toISOString t'))
                      (setValue (Some "2025-01-31T00:00:00.000Z") emptyState)))) /\
    localDate rtUTC t' = mkDate 2025 2 28 /\
    representable t'.
Proof.
  split; [reflexivity|]. split; [reflexivity|].
  apply (month_navigation_clamps rtUTC
           (setValue (Some "2025-01-31T00:00:00.000Z") emptyState)
           "2025-01-31T00:00:00.000Z" 1738281600000 ArrowRight EmptyString).
  - reflexivity.
  - discriminate.
  - reflexivity.
  - right. reflexivity.
  - vm_compute. split; discriminate.
  - vm_compute. split; discriminate.
Defined.

(** C9 as stated fails at the end of the range of [Date]: 13 September
    275760 is a valid calendar date and the last instant a [Date] holds; a
    month later there is no date, and Ctrl+Right throws a [RangeError] (from
    [toISOString]) instead of committing 13 October. *)
Lemma month_navigation_fails_at_the_end_of_the_range :
  validDate (mkDate 275760 9 13) /\
  DateParse rtUTC "+275760-09-13T00:00:00.000Z" = TimeValue 8640000000000000 /\
  localDate rtUTC 8640000000000000 = mkDate 275760 9 13 /\
  DateFns.addMonths rtUTC (TimeValue 8640000000000000) 1 = InvalidDate /\
  Picker.handleKeyDown rtUTC
    (setValue (Some "+275760-09-13T00:00:00.000Z") emptyState)
    true ArrowRight EmptyString
  = Thrown RangeError.
Proof.
  split.
  { unfold validDate.
    change (DaysInMonth (year (mkDate 275760 9 13)) (month (mkDate 275760 9 13) - 1)) with 30.
    simpl. lia. }
  repeat split; vm_compute; reflexivity.
Qed.

(** In the variant that stores UTC midnight the committed value is decoded
    at noon in UTC, so twelve hours ahead of UTC the step starts from the
    next day. *)
Lemma utc_variant_steps_from_next_day_at_plus_12 :
  outcome_map value
    (PickerUTC.handleKeyDown rtNZST
       (setValue (Some "2025-01-31T00:00:00.000Z") emptyState)
       true ArrowRight EmptyString)
  = Returned (Some "2025-03-01T00:00:00.000Z").
Proof. vm_compute. reflexivity. Qed.

End Navigation.

(** ** More on the codec and the mount effect *)

Module CodecProps.
Import Throwing JSString ESDate Form Codec Spec DateFacts StringFacts NavigationFacts
  InputFacts CodecFacts BlurFacts RangeFacts.

Lemma append_assoc (a b c : string) : (a ++ b) ++ c = a ++ b ++ c.
Proof. induction a; simpl; congruence. Qed.

Lemma length_append (a b : string) :
  String.length (a ++ b) = (String.length a + String.length b)%nat.
Proof. induction a; simpl; auto. Qed.

(** A string whose first character is no white space does not trim to the
    empty string. *)
Lemma trim_head_nonempty c r : isSpace c = false -> isEmpty (trim (String c r)) = false.
Proof.
  intros H. unfold trim. rewrite trimStart_head by auto. cbn [trimEnd].
  destruct (trimEnd r); [rewrite H|]; reflexivity.
Qed.

Lemma digitRun_trim_nonempty lo hi ds rest :
  (1 <= lo)%nat -> digitRun lo hi ds -> isEmpty (trim (ds ++ rest)) = false.
Proof.
  intros Hlo H. destruct (digitRun_head lo hi ds Hlo H) as (c & r & -> & Hc).
  apply trim_head_nonempty, isDigit_not_space; auto.
Qed.

Lemma digitRun_pad4 n : 0 <= n -> digitRun 4 4 (pad4 n).
Proof. intros H. split; [apply allDigits_pad4; auto | simpl; lia]. Qed.

Lemma digitRun_pad2 lo n : 0 <= n -> (lo <= 2)%nat -> digitRun lo 2 (pad2 n).
Proof. intros H Hlo. split; [apply allDigits_pad2; auto | simpl; lia]. Qed.

(** What the pattern of the localized form matches. *)
Lemma exec_end_inv s ps rest : exec [] s = Some (ps, rest) -> ps = [] /\ rest = s.
Proof. cbn [exec]. intros H; inversion H; auto. Qed.

Lemma matchFull_reMonthDayYear4_inv s ps :
  matchFull reMonthDayYear4 s = Some ps ->
  exists ms ds ys,
    digitRun 1 2 ms /\ digitRun 1 2 ds /\ digitRun 4 4 ys /\
    ps = [ms; "/"; ds; "/"; ys] /\ s = slashed ms ds (Some ys).
Proof.
  unfold matchFull. destruct (exec reMonthDayYear4 s) as [[ps' rest]|] eqn:E; [|discriminate].
  destruct rest; [|discriminate]. intros H; inversion H; subst ps'. clear H.
  unfold reMonthDayYear4 in E.
  apply Decode.exec_D_inv in E as (ms & r1 & ps1 & -> & Hm & -> & E).
  apply Decode.exec_Lit_inv in E as (r2 & ps2 & -> & -> & E).
  apply Decode.exec_D_inv in E as (ds & r3 & ps3 & -> & Hd & -> & E).
  apply Decode.exec_Lit_inv in E as (r4 & ps4 & -> & -> & E).
  apply Decode.exec_D_inv in E as (ys & r5 & ps5 & -> & Hy & -> & E).
  apply exec_end_inv in E as [-> E]. subst r5.
  exists ms, ds, ys. repeat split; try apply Hm; try apply Hd; try apply Hy.
  unfold slashed. rewrite append_nil_r. reflexivity.
Qed.

(** The ISO branch of [parseDateString] is [parseDateFromISO]. *)
Lemma parseDateString_prefix y m d rest :
  digitRun 4 4 y -> digitRun 2 2 m -> digitRun 2 2 d ->
  parseDateString (y ++ "-" ++ m ++ "-" ++ d ++ rest)
  = Some (TimeValue (DateUTC (digitsValue y) (digitsValue m - 1) (digitsValue d) 12 0 0 0)).
Proof.
  intros Hy Hm Hd. unfold parseDateString, matchPrefix.
  destruct (digitRun_head 4 4 y ltac:(lia) Hy) as (c & r & E & _).
  rewrite Decode.exec_reIsoDate_digits by auto.
  rewrite Decode.numbers_of_date_prefix by auto.
  rewrite E. reflexivity.
Qed.

Lemma parseDateString_cases s d :
  parseDateString s = Some d ->
  (exists y m dd rest,
     digitRun 4 4 y /\ digitRun 2 2 m /\ digitRun 2 2 dd /\
     s = y ++ "-" ++ m ++ "-" ++ dd ++ rest /\
     d = TimeValue (DateUTC (digitsValue y) (digitsValue m - 1) (digitsValue dd) 12 0 0 0)) \/
  (exists ms ds ys,
     digitRun 1 2 ms /\ digitRun 1 2 ds /\ digitRun 4 4 ys /\
     s = slashed ms ds (Some ys) /\
     outOfRange (digitsValue ms) (digitsValue ds) = false /\
     d = TimeValue (DateUTC (digitsValue ys) (digitsValue ms - 1) (digitsValue ds) 12 0 0 0)).
Proof.
  intros H. pose proof H as H0. unfold parseDateString in H.
  destruct (isEmpty s); [discriminate|]. unfold matchPrefix in H.
  destruct (exec reIsoDate s) as [[ps rest]|] eqn:E.
  - left. apply Decode.exec_reIsoDate_inv in E as (y & m & dd & Hy & Hm & Hd & _ & ->).
    rewrite parseDateString_prefix in H0 by auto. inversion H0.
    exists y, m, dd, rest. repeat split; try apply Hy; try apply Hm; try apply Hd.
  - right. destruct (matchFull reMonthDayYear4 s) as [ps|] eqn:E4; [|discriminate].
    apply matchFull_reMonthDayYear4_inv in E4 as (ms & ds & ys & Hm & Hd & Hy & -> & ->).
    rewrite !Number_digits in H; try apply Hm; try apply Hd; try apply Hy;
      try (eapply digitRun_nonempty; [|eassumption]; lia).
    fold (outOfRange (digitsValue ms) (digitsValue ds)) in H.
    destruct (outOfRange (digitsValue ms) (digitsValue ds)) eqn:Er; [discriminate|].
    inversion H. exists ms, ds, ys.
    repeat split; try apply Hm; try apply Hd; try apply Hy; exact Er.
Qed.

(** The local date of noon in UTC, and its canonical text. *)
Lemma encode_utc_noon rt y m d :
  100 <= y <= 9999 -> validDate (mkDate y m d) ->
  - 43200000 <= LocalTZA rt < 43200000 ->
  dateToISOString rt (TimeValue (DateUTC y (m - 1) d 12 0 0 0))
  = Returned (canonicalText y m d).
Proof.
  intros Hy [Hm Hd] Htz. cbn [year month day] in Hm, Hd.
  pose proof (RoundTrip.local_date_of_utc_noon rt y (m - 1) d ltac:(lia) ltac:(lia) Hd Htz) as L.
  unfold localDate in L. injection L as L1 L2 L3.
  rewrite dateToISOString_text by (rewrite L1; lia).
  rewrite L1, L2, L3. replace (m - 1 + 1) with m by lia. reflexivity.
Qed.

(** X1.  [extractDateOnly] returns the first ten characters of a string with a
    date prefix, and [null] exactly where [parseDateFromISO] returns [null]. *)
Theorem extractDateOnly_is_the_prefix (s : string) :
  (extractDateOnly s = None <-> parseDateFromISO s = None) /\
  (forall p, extractDateOnly s = Some p ->
     String.length p = 10%nat /\ exists rest, s = p ++ rest).
Proof.
  unfold extractDateOnly, parseDateFromISO, matchPrefix.
  destruct (isEmpty s); [split; [tauto | discriminate]|].
  destruct (exec reIsoDate s) as [[ps rest]|] eqn:E.
  - split; [split; discriminate|].
    intros p Hp. inversion Hp; subst p. clear Hp.
    apply Decode.exec_reIsoDate_inv in E as (y & m & d & [_ Ly] & [_ Lm] & [_ Ld] & -> & ->).
    unfold concat. cbn [fold_right]. rewrite append_nil_r. split.
    + rewrite !length_append. simpl. lia.
    + exists rest. rewrite !append_assoc. reflexivity.
  - split; [tauto | discriminate].
Qed.

Lemma parseDateString_valid s d :
  parseDateString s = Some d -> exists t, d = TimeValue t.
Proof.
  intros H. destruct (parseDateString_cases s d H)
    as [(y & m & dd & rest & _ & _ & _ & _ & ->)|(ms & ds & ys & _ & _ & _ & _ & _ & ->)];
    eauto.
Qed.

Lemma parseDateFromISO_valid s d :
  parseDateFromISO s = Some d -> exists t, d = TimeValue t.
Proof.
  intros H. unfold parseDateFromISO, matchPrefix in H.
  destruct (isEmpty s); [discriminate|].
  destruct (exec reIsoDate s) as [[ps rest]|] eqn:E; [|discriminate].
  apply Decode.exec_reIsoDate_inv in E as (y & m & dd & Hy & Hm & Hd & -> & _).
  rewrite Decode.numbers_of_date_prefix in H by auto. inversion H. eauto.
Qed.

(** The dates that the decoders return have a local year from 98 to
    10009. *)
Lemma parseDateString_year rt s t :
  - msPerDay <= LocalTZA rt <= msPerDay ->
  parseDateString s = Some (TimeValue t) ->
  98 <= getFullYear rt t <= 10009.
Proof.
  intros Htz H.
  assert (R4 : forall x, digitRun 4 4 x -> 0 <= digitsValue x <= 9999).
  { intros x [Ha Hl]. destruct (length4_inv x ltac:(lia)) as (a & b & c & e & ->).
    cbn [allDigits] in Ha. repeat (apply andb_true_iff in Ha as [? Ha]).
    unfold digitsValue. cbn [digitsValueFrom].
    repeat match goal with H : isDigit _ = true |- _ => apply digitValue_range in H end.
    lia. }
  assert (R2 : forall x, digitRun 1 2 x -> 0 <= digitsValue x <= 99).
  { intros x [Ha Hl].
    destruct x as [|a [|b [|c r]]]; cbn [String.length] in Hl; try lia;
      cbn [allDigits] in Ha; repeat (apply andb_true_iff in Ha as [? Ha]);
      unfold digitsValue; cbn [digitsValueFrom];
      repeat match goal with H : isDigit _ = true |- _ => apply digitValue_range in H end;
      lia. }
  assert (R22 : forall x, digitRun 2 2 x -> 0 <= digitsValue x <= 99).
  { intros x [Ha Hl]. apply R2. split; [exact Ha | lia]. }
  destruct (parseDateString_cases s _ H)
    as [(y & m & dd & rest & Hy & Hm & Hd & _ & E)|(ms & ds & ys & Hm & Hd & Hy & _ & _ & E)];
    injection E as ->.
  - apply DateUTC_noon_year; auto. pose proof (R22 m Hm). lia.
  - apply DateUTC_noon_year; auto. pose proof (R2 ms Hm). lia.
Qed.

(** X2.  Neither decoder ever returns an invalid [Date]: the result is [null]
    or a date with a time value, so that a caller that has tested the result
    for [null] can format and encode it without an exception. *)
Theorem decoders_return_null_or_a_valid_date (rt : Runtime) (s : string) (d : Date) :
  parseDateString s = Some d \/ parseDateFromISO s = Some d ->
  exists t text,
    d = TimeValue t /\ formatDate rt d = Returned (format_P rt t) /\
    dateToISOString rt d = Returned text.
Proof.
  intros [H|H]; [apply parseDateString_valid in H | apply parseDateFromISO_valid in H];
    destruct H as (t & ->); eexists; eexists; repeat split.
Qed.

Lemma decoders_return_null_or_a_valid_date_witness :
  exists t text,
    TimeValue 1771070400000 = TimeValue t /\
    formatDate rtUTC (TimeValue 1771070400000) = Returned (format_P rtUTC t) /\
    dateToISOString rtUTC (TimeValue 1771070400000) = Returned text.
Proof.
  apply (decoders_return_null_or_a_valid_date rtUTC "2025-13-45" (TimeValue 1771070400000)).
  left. reflexivity.
Defined.

(** X3.  Encoding what the decoder reads from a canonical string gives the
    string back, and any time of day or offset after the date is dropped: for
    a valid date with a year from 100 to 9999 and a time zone less than twelve
    hours from UTC. *)
Theorem encode_of_decode_is_canonical (rt : Runtime) (y m d : Z) (rest : string) :
  100 <= y <= 9999 -> validDate (mkDate y m d) ->
  - 43200000 <= LocalTZA rt < 43200000 ->
  exists date,
    parseDateFromISO (pad4 y ++ "-" ++ pad2 m ++ "-" ++ pad2 d ++ rest) = Some date /\
    dateToISOString rt date = Returned (canonicalText y m d).
Proof.
  intros Hy Hv Htz. pose proof Hv as [Hm Hd]. cbn [year month day] in Hm, Hd.
  pose proof (DaysInMonth_range y (m - 1) ltac:(lia)).
  exists (TimeValue (DateUTC y (m - 1) d 12 0 0 0)). split.
  - apply parseDateFromISO_prefix; lia.
  - apply encode_utc_noon; auto.
Qed.

Lemma encode_of_decode_is_canonical_witness :
  validDate (mkDate 2025 11 25) /\
  exists date,
    parseDateFromISO (pad4 2025 ++ "-" ++ pad2 11 ++ "-" ++ pad2 25 ++ "T18:30:00Z")
      = Some date /\
    dateToISOString rtIST date = Returned (canonicalText 2025 11 25).
Proof.
  assert (V : validDate (mkDate 2025 11 25)).
  { unfold validDate.
    change (DaysInMonth (year (mkDate 2025 11 25)) (month (mkDate 2025 11 25) - 1)) with 30.
    simpl. lia. }
  split; [exact V|].
  apply (encode_of_decode_is_canonical rtIST 2025 11 25 "T18:30:00Z").
  - lia.
  - exact V.
  - simpl. lia.
Defined.

(** X4.  The mount effect of the variant that stores UTC midnight puts a
    default value in canonical form: an ISO string of a valid date, with
    whatever follows the date, and a localized string month/day/year both
    become the canonical text of the date (years 100 to 9999, a time zone less
    than twelve hours from UTC); a default that [parseDateString] cannot read
    stores [null]. *)
Theorem initFromDefault_stores_canonical_text (rt : Runtime) (st : State) :
  - 43200000 <= LocalTZA rt < 43200000 ->
  (forall y m d rest,
     100 <= y <= 9999 -> validDate (mkDate y m d) ->
     PickerUTC.initFromDefault rt st
       (Some (pad4 y ++ "-" ++ pad2 m ++ "-" ++ pad2 d ++ rest))
     = Returned (setValue (Some (canonicalText y m d)) st)) /\
  (forall ms ds ys,
     digitRun 1 2 ms -> digitRun 1 2 ds -> digitRun 4 4 ys ->
     100 <= digitsValue ys ->
     validDate (mkDate (digitsValue ys) (digitsValue ms) (digitsValue ds)) ->
     PickerUTC.initFromDefault rt st (Some (slashed ms ds (Some ys)))
     = Returned (setValue
         (Some (canonicalText (digitsValue ys) (digitsValue ms) (digitsValue ds))) st)) /\
  (forall s, parseDateString s = None ->
     PickerUTC.initFromDefault rt st (Some s) = Returned (setValue None st)).
Proof.
  intros Htz. split; [|split].
  - intros y m d rest Hy Hv. pose proof Hv as [Hm Hd]. cbn [year month day] in Hm, Hd.
    pose proof (DaysInMonth_range y (m - 1) ltac:(lia)).
    unfold PickerUTC.initFromDefault.
    rewrite (digitRun_trim_nonempty 4 4) by (auto; apply digitRun_pad4; lia).
    rewrite parseDateString_prefix;
      [| apply digitRun_pad4; lia | apply digitRun_pad2; lia | apply digitRun_pad2; lia].
    rewrite digitsValue_pad4, !digitsValue_pad2 by lia.
    rewrite encode_utc_noon by auto. reflexivity.
  - intros ms ds ys Hm Hd Hys Hy Hv. pose proof Hv as [Rm Rd]. cbn [year month day] in Rm, Rd.
    pose proof (DaysInMonth_range (digitsValue ys) (digitsValue ms - 1) ltac:(lia)).
    assert (Y4 : digitsValue ys <= 9999).
    { destruct Hys as [Ha Hl]. destruct (length4_inv ys ltac:(lia)) as (a & b & c & e & ->).
      cbn [allDigits] in Ha. repeat (apply andb_true_iff in Ha as [? Ha]).
      unfold digitsValue. cbn [digitsValueFrom].
      repeat match goal with H : isDigit _ = true |- _ => apply digitValue_range in H end.
      lia. }
    unfold PickerUTC.initFromDefault.
    assert (E : isEmpty (trim (slashed ms ds (Some ys))) = false).
    { unfold slashed. apply (digitRun_trim_nonempty 1 2); auto. }
    rewrite E.
    destruct (Decode.parseDateString_localized ms ds ys Hm Hd Hys) as (P & _ & _).
    rewrite P by lia.
    rewrite encode_utc_noon by (auto; lia). reflexivity.
  - intros s Hs. unfold PickerUTC.initFromDefault. rewrite Hs.
    destruct (isEmpty (trim s)); reflexivity.
Qed.

Lemma initFromDefault_stores_canonical_text_witness :
  PickerUTC.initFromDefault rtIST emptyState (Some "2025-11-25T18:30:00Z")
    = Returned (setValue (Some "2025-11-25T00:00:00.000Z") emptyState) /\
  PickerUTC.initFromDefault rtIST emptyState (Some "11/25/2025")
    = Returned (setValue (Some "2025-11-25T00:00:00.000Z") emptyState) /\
  PickerUTC.initFromDefault rtIST emptyState (Some "tomorrow")
    = Returned (setValue None emptyState).
Proof.
  assert (V : validDate (mkDate 2025 11 25)).
  { unfold validDate.
    change (DaysInMonth (year (mkDate 2025 11 25)) (month (mkDate 2025 11 25) - 1)) with 30.
    simpl. lia. }
  destruct (initFromDefault_stores_canonical_text rtIST emptyState ltac:(simpl; lia))
    as (A & B & C).
  split; [|split].
  - apply (A 2025 11 25 "T18:30:00Z"); [lia | exact V].
  - apply (B "11" "25" "2025"); try (apply digitRun_intro; reflexivity).
    + change (digitsValue "2025") with 2025. lia.
    + exact V.
  - apply (C "tomorrow"). reflexivity.
Defined.

End CodecProps.

(** ** Arithmetic of the shortcuts *)

Module ShortcutProps.
Import Throwing JSString ESDate Form Spec Token DateFacts StringFacts NavigationFacts
  InputFacts BlurFacts ShortcutFacts RangeFacts.

(** A time value is determined by its local calendar date and its local
    time of day. *)
Lemma local_fields_inj rt t t' :
  localDate rt t = localDate rt t' ->
  TimeWithinDay (LocalTime rt t) = TimeWithinDay (LocalTime rt t') ->
  t = t'.
Proof.
  unfold localDate, getFullYear, getMonth, getDate. intros L T.
  injection L as L1 L2 L3.
  assert (Ed : Day (LocalTime rt t) = Day (LocalTime rt t')).
  { rewrite <- (MakeDay_fields (LocalTime rt t)), <- (MakeDay_fields (LocalTime rt t')).
    rewrite L1, L3. replace (MonthFromTime (LocalTime rt t))
      with (MonthFromTime (LocalTime rt t')) by lia. reflexivity. }
  pose proof (MakeDate_Day (LocalTime rt t)) as A.
  pose proof (MakeDate_Day (LocalTime rt t')) as B.
  rewrite Ed, T in A. unfold LocalTime in *. lia.
Qed.

Lemma MakeDay_date_shift y m d n : MakeDay y m (d + n) = MakeDay y m d + n.
Proof. unfold MakeDay. lia. Qed.

(** Adding days moves the instant by whole days. *)
Lemma dayjs_add_day rt t n :
  Dayjs.add rt t (Some n) Dayjs.day = TimeValue (t + n * msPerDay).
Proof.
  unfold Dayjs.add. f_equal. rewrite setDate_eq, MakeDay_date_shift.
  unfold getFullYear, getMonth, getDate. rewrite MakeDay_fields.
  pose proof (MakeDate_Day (LocalTime rt t)) as A.
  unfold MakeDate, UTC, LocalTime in *. lia.
Qed.

(** The clamping setter of dayjs, in local fields. *)
Lemma setClamped_month rt t k :
  Dayjs.setClamped rt t Dayjs.month k
  = UTC rt (MakeDate
      (MakeDay (getFullYear rt t + k / 12) (k mod 12)
         (Z.min (getDate rt t) (DaysInMonth (getFullYear rt t + k / 12) (k mod 12))))
      (TimeWithinDay (LocalTime rt t))).
Proof.
  pose proof (fields_range (LocalTime rt t)) as [Hm Hd].
  pose proof (TimeWithinDay_range (LocalTime rt t)) as Htod.
  fold (getFullYear rt t) (getMonth rt t) (getDate rt t) in Hm, Hd.
  pose proof (DaysInMonth_range (getFullYear rt t) _ Hm) as HD.
  assert (HM' : 0 <= k mod 12 <= 11) by (pose proof (Z.mod_pos_bound k 12); lia).
  pose proof (DaysInMonth_range (getFullYear rt t + k / 12) _ HM') as HD'.
  unfold Dayjs.setClamped. cbv zeta.
  destruct (local_fields_make rt (getFullYear rt t) (getMonth rt t) 1
              (TimeWithinDay (LocalTime rt t)) Hm ltac:(lia) Htod) as (F1 & F2 & F3 & F4).
  rewrite <- (setDate_eq rt t 1) in F1, F2, F3, F4.
  remember (setDate rt t 1) as t1 eqn:E1.
  remember (getFullYear rt t) as Y. remember (getDate rt t) as Dd.
  remember (TimeWithinDay (LocalTime rt t)) as tod.
  destruct (local_fields_make rt (Y + k / 12) (k mod 12) 1 tod HM' ltac:(lia) Htod)
    as (G1 & G2 & G3 & G4).
  assert (E2 : setMonth rt t1 k None
               = UTC rt (MakeDate (MakeDay (Y + k / 12) (k mod 12) 1) tod)).
  { rewrite setMonth_eq, F1, F3, F4. rewrite MakeDay_normalize. reflexivity. }
  rewrite <- E2 in G1, G2, G3, G4.
  remember (setMonth rt t1 k None) as t2 eqn:E3.
  unfold Dayjs.daysInMonth. rewrite setDate_eq, G1, G2, G4. reflexivity.
Qed.

Lemma setClamped_year rt t y :
  Dayjs.setClamped rt t Dayjs.year y
  = UTC rt (MakeDate
      (MakeDay y (getMonth rt t) (Z.min (getDate rt t) (DaysInMonth y (getMonth rt t))))
      (TimeWithinDay (LocalTime rt t))).
Proof.
  pose proof (fields_range (LocalTime rt t)) as [Hm Hd].
  pose proof (TimeWithinDay_range (LocalTime rt t)) as Htod.
  fold (getFullYear rt t) (getMonth rt t) (getDate rt t) in Hm, Hd.
  pose proof (DaysInMonth_range (getFullYear rt t) _ Hm) as HD.
  pose proof (DaysInMonth_range y _ Hm) as HD'.
  unfold Dayjs.setClamped. cbv zeta.
  destruct (local_fields_make rt (getFullYear rt t) (getMonth rt t) 1
              (TimeWithinDay (LocalTime rt t)) Hm ltac:(lia) Htod) as (F1 & F2 & F3 & F4).
  rewrite <- (setDate_eq rt t 1) in F1, F2, F3, F4.
  remember (setDate rt t 1) as t1 eqn:E1.
  remember (getMonth rt t) as M. remember (getDate rt t) as Dd.
  remember (TimeWithinDay (LocalTime rt t)) as tod.
  destruct (local_fields_make rt y M 1 tod Hm ltac:(lia) Htod) as (G1 & G2 & G3 & G4).
  assert (E2 : setFullYear rt t1 y None None = UTC rt (MakeDate (MakeDay y M 1) tod)).
  { rewrite setFullYear_eq, F2, F3, F4. reflexivity. }
  rewrite <- E2 in G1, G2, G3, G4.
  remember (setFullYear rt t1 y None None) as t2 eqn:E3.
  unfold Dayjs.daysInMonth. rewrite setDate_eq, G1, G2, G4. reflexivity.
Qed.

Lemma shiftMonth_years d n :
  0 <= month d - 1 <= 11 ->
  shiftMonth d (n * 12)
  = mkDate (year d + n) (month d) (Z.min (day d) (DaysInMonth (year d + n) (month d - 1))).
Proof.
  intros Hm. unfold shiftMonth. cbv zeta.
  assert (E1 : (month d - 1 + n * 12) / 12 = n) by (Z.div_mod_to_equations; lia).
  assert (E2 : (month d - 1 + n * 12) mod 12 = month d - 1) by (Z.div_mod_to_equations; lia).
  rewrite E1, E2. f_equal. lia.
Qed.

(** Adding months or years with dayjs steps the local calendar date as
    [shiftMonth] says and keeps the local time of day. *)
Lemma dayjs_add_local rt t n :
  (exists t',
     Dayjs.add rt t (Some n) Dayjs.month = TimeValue t' /\
     localDate rt t' = shiftMonth (localDate rt t) n /\
     TimeWithinDay (LocalTime rt t') = TimeWithinDay (LocalTime rt t)) /\
  (exists t',
     Dayjs.add rt t (Some n) Dayjs.year = TimeValue t' /\
     localDate rt t' = shiftMonth (localDate rt t) (n * 12) /\
     TimeWithinDay (LocalTime rt t') = TimeWithinDay (LocalTime rt t)).
Proof.
  pose proof (fields_range (LocalTime rt t)) as [Hm Hd].
  pose proof (TimeWithinDay_range (LocalTime rt t)) as Htod.
  fold (getFullYear rt t) (getMonth rt t) (getDate rt t) in Hm, Hd.
  split.
  - eexists. split; [unfold Dayjs.add; rewrite setClamped_month; reflexivity|].
    set (k := getMonth rt t + n).
    assert (HM' : 0 <= k mod 12 <= 11) by (pose proof (Z.mod_pos_bound k 12); lia).
    pose proof (DaysInMonth_range (getFullYear rt t + k / 12) _ HM') as HD'.
    destruct (local_fields_make rt (getFullYear rt t + k / 12) (k mod 12)
                (Z.min (getDate rt t) (DaysInMonth (getFullYear rt t + k / 12) (k mod 12)))
                (TimeWithinDay (LocalTime rt t)) HM' ltac:(lia) Htod) as (G1 & G2 & G3 & G4).
    split; [|exact G4].
    unfold localDate at 1. rewrite G1, G2, G3.
    unfold shiftMonth, localDate. cbn [year month day].
    replace (getMonth rt t + 1 - 1 + n) with k by (unfold k; lia). reflexivity.
  - eexists. split; [unfold Dayjs.add; rewrite setClamped_year; reflexivity|].
    pose proof (DaysInMonth_range (getFullYear rt t + n) _ Hm) as HD'.
    destruct (local_fields_make rt (getFullYear rt t + n) (getMonth rt t)
                (Z.min (getDate rt t) (DaysInMonth (getFullYear rt t + n) (getMonth rt t)))
                (TimeWithinDay (LocalTime rt t)) Hm ltac:(lia) Htod) as (G1 & G2 & G3 & G4).
    split; [|exact G4].
    unfold localDate at 1. rewrite G1, G2, G3.
    rewrite shiftMonth_years by (unfold localDate; cbn [month]; lia).
    unfold localDate. cbn [year month day].
    replace (getMonth rt t + 1 - 1) with (getMonth rt t) by lia. reflexivity.
Qed.

(** The month and year steps of dayjs and of date-fns reach the same
    date, as long as the dates computed on the way are in the range of
    [Date]. *)
Lemma dayjs_add_is_addMonths rt t n :
  - msPerDay <= LocalTZA rt <= msPerDay ->
  - 200000 <= getFullYear rt t <= 200000 -> - 20000 <= n <= 20000 ->
  Dayjs.add rt t (Some n) Dayjs.month = DateFns.addMonths rt (TimeValue t) n /\
  Dayjs.add rt t (Some n) Dayjs.year = DateFns.addYears rt (TimeValue t) n.
Proof.
  intros Htz Hy Hn.
  destruct (dayjs_add_local rt t n) as [(a & A1 & A2 & A3) (b & B1 & B2 & B3)].
  destruct (addMonths_local rt t n Htz Hy ltac:(lia)) as (a' & A1' & A2' & A3' & _).
  destruct (addMonths_local rt t (n * 12) Htz Hy ltac:(lia)) as (b' & B1' & B2' & B3' & _).
  unfold DateFns.addYears. rewrite A1, A1', B1, B1'. split; f_equal.
  - apply (local_fields_inj rt); congruence.
  - apply (local_fields_inj rt); congruence.
Qed.

(** ** The tokens of [parseShortcut] *)

Lemma trimEnd_digits ds : allDigits ds = true -> trimEnd ds = ds.
Proof.
  induction ds as [|c r IH]; simpl; auto. intros H.
  apply andb_true_iff in H as [Hc Hr]. rewrite IH by auto.
  destruct r; [rewrite (isDigit_not_space c Hc)|]; reflexivity.
Qed.

Lemma toLowerCase_digits ds : allDigits ds = true -> toLowerCase ds = ds.
Proof.
  induction ds as [|c r IH]; simpl; auto. intros H.
  apply andb_true_iff in H as [Hc Hr]. rewrite IH, isDigit_lowerChar; auto.
Qed.

Lemma takeDigits_None_inv s a b :
  takeDigits None s = (a, b) -> s = a ++ b /\ allDigits a = true.
Proof.
  revert a b. induction s as [|c r IH]; intros a b H; simpl in H.
  - inversion H. auto.
  - destruct (isDigit c) eqn:Ec.
    + destruct (takeDigits None r) as [a' b'] eqn:E.
      destruct (IH a' b' eq_refl) as (E1 & E2).
      inversion H; subst. simpl. rewrite Ec, E2. auto.
    + inversion H. auto.
Qed.

(** What the pattern of the shortcuts matches: a unit letter, then digits
    only. *)
Lemma matchFull_reShortcut_iff s ps :
  matchFull reShortcut s = Some ps <->
  exists c ds, isUnitLetter c /\ allDigits ds = true /\
               s = String c ds /\ ps = [String c EmptyString; ds].
Proof.
  unfold matchFull, reShortcut. split.
  - cbn [exec]. destruct s as [|c r]; [discriminate|].
    destruct (memChar c ["d"; "m"; "y"]%char) eqn:Em; [|discriminate].
    destruct (takeDigits None r) as [a b] eqn:Et. cbn [Nat.leb].
    destruct (takeDigits_None_inv r a b Et) as (E1 & E2).
    destruct b; [|discriminate]. intros H; inversion H; subst.
    exists c, a. rewrite append_nil_r. repeat split; auto.
    cbn [memChar] in Em. unfold isUnitLetter.
    destruct (Ascii.eqb_spec c "d"); auto.
    destruct (Ascii.eqb_spec c "m"); auto.
    destruct (Ascii.eqb_spec c "y"); auto. discriminate.
  - intros (c & ds & Hc & Hd & -> & ->). cbn [exec].
    assert (Em : memChar c ["d"; "m"; "y"]%char = true)
      by (destruct Hc as [Hc|[Hc|Hc]]; subst c; reflexivity).
    rewrite Em. rewrite <- (append_nil_r ds) at 1.
    rewrite takeDigits_all_app by auto. reflexivity.
Qed.

(** [parseShortcut] on a unit letter followed by digits: now plus that many
    units; no digits count as zero. *)
Lemma parseShortcut_token rt input c ds :
  toLowerCase (trim input) = String c ds -> isUnitLetter c -> allDigits ds = true ->
  Picker.parseShortcut rt input
  = Some (Dayjs.add rt (now rt) (Some (digitsValue ds)) (unitOf c)).
Proof.
  intros E Hc Hd. unfold Picker.parseShortcut. cbv zeta. rewrite E.
  assert (M : matchFull reShortcut (String c ds) = Some [String c EmptyString; ds]).
  { apply matchFull_reShortcut_iff. exists c, ds. auto. }
  rewrite M.
  assert (N : (if isEmpty ds then Some 0 else parseInt ds) = Some (digitsValue ds)).
  { destruct ds as [|a r]; [reflexivity|]. cbn [isEmpty].
    apply parseInt_digits; [auto | discriminate]. }
  rewrite N. destruct Hc as [Hc|[Hc|Hc]]; subst c; reflexivity.
Qed.

Lemma parseShortcut_inv rt input d :
  Picker.parseShortcut rt input = Some d ->
  exists c ds, isUnitLetter c /\ allDigits ds = true /\
               toLowerCase (trim input) = String c ds /\
               d = Dayjs.add rt (now rt) (Some (digitsValue ds)) (unitOf c).
Proof.
  intros H. pose proof H as H0. unfold Picker.parseShortcut in H. cbv zeta in H.
  destruct (matchFull reShortcut (toLowerCase (trim input))) as [ps|] eqn:E;
    [|discriminate].
  apply matchFull_reShortcut_iff in E as (c & ds & Hc & Hd & E & _).
  rewrite (parseShortcut_token rt input c ds E Hc Hd) in H0. inversion H0.
  exists c, ds. auto.
Qed.

Lemma parseShortcut_valid rt input d :
  Picker.parseShortcut rt input = Some d -> exists t, d = TimeValue t.
Proof.
  intros H. apply parseShortcut_inv in H as (c & ds & _ & _ & _ & ->).
  unfold Dayjs.add. eauto.
Qed.

(** The shortcut dates for a count of at most five digits, typed between
    1970 and 9999, are in the range of [Date]. *)
Lemma shortcut_date_in_range rt c ds t :
  isUnitLetter c -> allDigits ds = true -> (String.length ds <= 5)%nat -> plausibleNow rt ->
  Dayjs.add rt (now rt) (Some (digitsValue ds)) (unitOf c) = TimeValue t ->
  representable t.
Proof.
  intros Hc Hd Hl Hp A.
  pose proof (digitsValue_five ds Hd Hl) as Hn.
  pose proof (plausible_year rt Hp) as Hy.
  pose proof (fields_range (LocalTime rt (now rt))) as [Hm _].
  fold (getMonth rt (now rt)) in Hm.
  destruct (dayjs_add_local rt (now rt) (digitsValue ds))
    as [(a & A1 & A2 & _) (b & B1 & B2 & _)].
  destruct Hc as [Hc|[Hc|Hc]]; subst c.
  - change (unitOf "d") with Dayjs.day in A. rewrite dayjs_add_day in A.
    injection A as <-. destruct Hp as [Hnow _].
    unfold representable, maxTime, msPerDay. lia.
  - change (unitOf "m") with Dayjs.month in A. rewrite A1 in A. injection A as <-.
    apply (representable_of_year rt); [apply Hp|].
    change (getFullYear rt a) with (year (localDate rt a)). rewrite A2.
    unfold shiftMonth, localDate. cbn [year month day].
    Z.div_mod_to_equations. lia.
  - change (unitOf "y") with Dayjs.year in A. rewrite B1 in A. injection A as <-.
    apply (representable_of_year rt); [apply Hp|].
    change (getFullYear rt b) with (year (localDate rt b)). rewrite B2.
    unfold shiftMonth, localDate. cbn [year month day].
    Z.div_mod_to_equations. lia.
Qed.

(** X5.  The inputs that are shortcuts, read off [parseShortcut]: it returns a
    date exactly when the trimmed, lower-cased input is d, m or y followed by
    digits only. *)
Theorem parseShortcut_domain (rt : Runtime) (input : string) :
  Picker.parseShortcut rt input <> None <->
  exists c ds, isUnitLetter c /\ allDigits ds = true /\
               toLowerCase (trim input) = String c ds.
Proof.
  split.
  - intros H. destruct (Picker.parseShortcut rt input) as [d|] eqn:E; [|congruence].
    apply parseShortcut_inv in E as (c & ds & Hc & Hd & E & _). eauto.
  - intros (c & ds & Hc & Hd & E).
    rewrite (parseShortcut_token rt input c ds E Hc Hd). discriminate.
Qed.

(** X6.  The shortcut d followed by a count of at most five digits is a date
    on the local calendar day that many days after today (the day number of
    its local time is today's plus the count), and a valid date; upper case
    and white space around the input do not matter, and leading zeros do not
    either. *)
Theorem day_shortcut_adds_whole_days (rt : Runtime) (input ds : string) :
  toLowerCase (trim input) = String "d" ds -> allDigits ds = true ->
  (String.length ds <= 5)%nat -> plausibleNow rt ->
  exists t',
    Picker.parseShortcut rt input = Some (TimeValue t') /\
    Day (LocalTime rt t') = Day (LocalTime rt (now rt)) + digitsValue ds /\
    representable t'.
Proof.
  intros E Hd Hl Hp.
  assert (A : Dayjs.add rt (now rt) (Some (digitsValue ds)) (unitOf "d")
              = TimeValue (now rt + digitsValue ds * msPerDay)) by apply dayjs_add_day.
  exists (now rt + digitsValue ds * msPerDay). split; [|split].
  - rewrite (parseShortcut_token rt input "d" ds E); auto; [rewrite A; reflexivity|].
    left. reflexivity.
  - unfold Day, LocalTime.
    replace (now rt + digitsValue ds * msPerDay + LocalTZA rt)
      with (now rt + LocalTZA rt + digitsValue ds * msPerDay) by lia.
    apply Z.div_add. unfold msPerDay. lia.
  - apply (shortcut_date_in_range rt "d" ds); auto. left. reflexivity.
Qed.

(** Typed in India on 15 January 2025, D07 with blanks around it is a date
    on 22 January. *)
Lemma day_shortcut_adds_whole_days_witness :
  localDate rtIST (now rtIST) = mkDate 2025 1 15 /\
  exists t',
    Picker.parseShortcut rtIST "  D07 " = Some (TimeValue t') /\
    Day (LocalTime rtIST t') = Day (LocalTime rtIST (now rtIST)) + 7 /\
    representable t'.
Proof.
  split; [reflexivity|].
  apply (day_shortcut_adds_whole_days rtIST "  D07 " "07").
  - reflexivity.
  - reflexivity.
  - simpl. lia.
  - split; vm_compute; split; discriminate.
Defined.

(** X8.  The shortcuts m and y followed by a count of at most five digits step
    the local calendar date of now by that many months, or twelve times that
    many, with the day of the month capped by the length of the month reached;
    the date is valid. *)
Theorem month_and_year_shortcuts_clamp (rt : Runtime) (input ds : string) (c : ascii) :
  toLowerCase (trim input) = String c ds -> allDigits ds = true ->
  c = "m"%char \/ c = "y"%char ->
  (String.length ds <= 5)%nat -> plausibleNow rt ->
  exists t',
    Picker.parseShortcut rt input = Some (TimeValue t') /\
    localDate rt t'
      = shiftMonth (localDate rt (now rt))
          (if Ascii.eqb c "m" then digitsValue ds else digitsValue ds * 12) /\
    representable t'.
Proof.
  intros E Hd Hc Hl Hp.
  destruct (dayjs_add_local rt (now rt) (digitsValue ds))
    as [(a & A1 & A2 & A3) (b & B1 & B2 & B3)].
  destruct Hc as [Hc|Hc]; subst c.
  - exists a. rewrite (parseShortcut_token rt input "m" ds E); auto;
      [|right; left; reflexivity].
    change (unitOf "m") with Dayjs.month. rewrite A1.
    split; [reflexivity|]. split; [exact A2|].
    apply (shortcut_date_in_range rt "m" ds a); auto. right; left; reflexivity.
  - exists b. rewrite (parseShortcut_token rt input "y" ds E); auto;
      [|right; right; reflexivity].
    change (unitOf "y") with Dayjs.year. rewrite B1.
    split; [reflexivity|]. split; [exact B2|].
    apply (shortcut_date_in_range rt "y" ds b); auto. right; right; reflexivity.
Qed.

(** Typed on 31 January 2025, m1 is 28 February 2025. *)
Lemma month_and_year_shortcuts_clamp_witness :
  localDate rtUTC 1738319400000 = mkDate 2025 1 31 /\
  exists t',
    Picker.parseShortcut (sampleRuntime 0 1738319400000) "m1" = Some (TimeValue t') /\
    localDate (sampleRuntime 0 1738319400000) t' = mkDate 2025 2 28 /\
    representable t'.
Proof.
  split; [reflexivity|].
  apply (month_and_year_shortcuts_clamp (sampleRuntime 0 1738319400000) "m1" "1" "m").
  - reflexivity.
  - reflexivity.
  - left. reflexivity.
  - simpl. lia.
  - split; vm_compute; split; discriminate.
Defined.

(** X9.  The tooltip shows what the shortcuts commit: its four dates are the
    texts that the input shows after d, d1, m1 and y1 are typed and the field
    is left at the same instant (between 1970 and 9999). *)
Theorem tooltip_shows_what_the_shortcuts_commit (rt : Runtime) (st : State) :
  plausibleNow rt ->
  exists a b c d,
    outcome_map inputValue (Picker.handleBlur rt st "d") = Returned a /\
    outcome_map inputValue (Picker.handleBlur rt st "d1") = Returned b /\
    outcome_map inputValue (Picker.handleBlur rt st "m1") = Returned c /\
    outcome_map inputValue (Picker.handleBlur rt st "y1") = Returned d /\
    Display.tooltipTitle rt
    = Returned
        ("d - Current date (" ++ a ++ ")" ++ Display.newline ++
         "d1 - One day more (" ++ b ++ ")" ++ Display.newline ++
         "m1 - One month more (" ++ c ++ ")" ++ Display.newline ++
         "y1 - One year more (" ++ d ++ ")" ++ Display.newline ++
         "Ctrl+Left/Right - Previous/Next month" ++ Display.newline ++
         "Ctrl+Up/Down - Next/Previous year").
Proof.
  intros Hp. pose proof (plausible_year rt Hp) as Hy.
  destruct (dayjs_add_is_addMonths rt (now rt) 1 (proj2 Hp) ltac:(lia) ltac:(lia))
    as [Em Ey].
  destruct (dayjs_add_local rt (now rt) 1) as [(tm & M1 & _) (ty & Y1 & _)].
  assert (B : forall text c ds,
            trim text = text -> toLowerCase text = String c ds -> isUnitLetter c ->
            allDigits ds = true -> text <> EmptyString ->
            forall t, Dayjs.add rt (now rt) (Some (digitsValue ds)) (unitOf c) = TimeValue t ->
            outcome_map inputValue (Picker.handleBlur rt st text) = Returned (format_P rt t)).
  { intros text c ds Ht El Hc Hd Hne t Ha. unfold Picker.handleBlur. cbv zeta.
    rewrite Ht, (isEmpty_false text Hne).
    rewrite (parseShortcut_token rt text c ds); auto; [|rewrite Ht; auto].
    rewrite Ha. reflexivity. }
  exists (format_P rt (now rt)), (format_P rt (now rt + 1 * msPerDay)),
         (format_P rt tm), (format_P rt ty).
  split; [|split; [|split; [|split]]].
  - apply (B "d" "d"%char EmptyString); try reflexivity; try discriminate.
    + left; reflexivity.
    + apply dayjs_add_zero.
  - apply (B "d1" "d"%char "1"); try reflexivity; try discriminate.
    + left; reflexivity.
    + apply dayjs_add_day.
  - apply (B "m1" "m"%char "1"); try reflexivity; try discriminate.
    + right; left; reflexivity.
    + exact M1.
  - apply (B "y1" "y"%char "1"); try reflexivity; try discriminate.
    + right; right; reflexivity.
    + exact Y1.
  - unfold Display.tooltipTitle. cbv zeta.
    rewrite <- Em, <- Ey, M1, Y1, dayjs_add_day. reflexivity.
Qed.

Lemma tooltip_shows_what_the_shortcuts_commit_witness :
  exists a b c d,
    outcome_map inputValue (Picker.handleBlur rtUTC emptyState "d") = Returned a /\
    outcome_map inputValue (Picker.handleBlur rtUTC emptyState "d1") = Returned b /\
    outcome_map inputValue (Picker.handleBlur rtUTC emptyState "m1") = Returned c /\
    outcome_map inputValue (Picker.handleBlur rtUTC emptyState "y1") = Returned d /\
    Display.tooltipTitle rtUTC
    = Returned
        ("d - Current date (" ++ a ++ ")" ++ Display.newline ++
         "d1 - One day more (" ++ b ++ ")" ++ Display.newline ++
         "m1 - One month more (" ++ c ++ ")" ++ Display.newline ++
         "y1 - One year more (" ++ d ++ ")" ++ Display.newline ++
         "Ctrl+Left/Right - Previous/Next month" ++ Display.newline ++
         "Ctrl+Up/Down - Next/Previous year").
Proof.
  apply (tooltip_shows_what_the_shortcuts_commit rtUTC emptyState).
  split; vm_compute; split; discriminate.
Defined.

End ShortcutProps.

(** ** What the handlers return, throw and keep *)

Module HandlerProps.
Import Throwing JSString ESDate Form Codec Spec Token DateFacts StringFacts NavigationFacts
  InputFacts CodecFacts BlurFacts ShortcutFacts RangeFacts.

Lemma commit_returns rt st t :
  Picker.commit rt st (TimeValue t)
  = Returned (setInputValue (format_P rt t)
               (setError None (setValue (Some (toISOString t)) st))).
Proof. reflexivity. Qed.

Lemma DateUTC_midnight y m d : TimeWithinDay (DateUTC y m d 0 0 0 0) = 0.
Proof.
  unfold DateUTC. apply TimeWithinDay_MakeDate.
  unfold MakeTime, msPerDay. simpl. lia.
Qed.

Lemma commitUTC_returns rt st t :
  exists v,
    PickerUTC.commit rt st (TimeValue t)
    = Returned (setInputValue (format_P rt t) (setError None (setValue (Some v) st))) /\
    dateToISOString rt (TimeValue t) = Returned v /\
    utcMidnightText v.
Proof.
  eexists. split; [reflexivity|]. split; [reflexivity|].
  eexists. split; [reflexivity | apply DateUTC_midnight].
Qed.

Lemma trim_allSpaces s : allSpaces s = true -> trim s = EmptyString.
Proof.
  unfold trim. induction s as [|c r IH]; simpl; auto. intros H.
  apply andb_true_iff in H as [Hc Hr]. rewrite Hc. auto.
Qed.

Lemma trim_empty_inv s : trim s <> EmptyString -> s <> EmptyString.
Proof. intros H E. subst s. apply H. reflexivity. Qed.

(** X10.  [handleBlur] of date-picker-component.tsx does not throw: for every
    state and every text that is no shortcut with a count of more than five
    digits, typed between 1970 and 9999, it returns, with the field touched
    and the focus flag off; a shortcut date that it commits is valid. *)
Theorem handleBlur_never_throws (rt : Runtime) (st : State) (text : string) :
  countWithin 5 text -> plausibleNow rt ->
  (exists st',
     Picker.handleBlur rt st text = Returned st' /\
     touched st' = true /\ isFocused st' = false) /\
  (forall d, Picker.parseShortcut rt (trim text) = Some d ->
     exists t, d = TimeValue t /\ representable t).
Proof.
  intros Hcount Hp.
  assert (V : forall d, Picker.parseShortcut rt (trim text) = Some d ->
                exists t, d = TimeValue t /\ representable t).
  { intros d Hs.
    apply ShortcutProps.parseShortcut_inv in Hs as (c & ds & Hc & Hd & E & ->).
    rewrite trim_idem in E.
    assert (A : exists t, Dayjs.add rt (now rt) (Some (digitsValue ds)) (unitOf c)
                          = TimeValue t) by (unfold Dayjs.add; eauto).
    destruct A as (t & A). exists t. split; [exact A|].
    apply (ShortcutProps.shortcut_date_in_range rt c ds t); auto.
    apply (Hcount c ds); auto. }
  split; [|exact V].
  unfold Picker.handleBlur. cbv zeta.
  destruct (isEmpty (trim text)); [eexists; repeat split|].
  destruct (Picker.parseShortcut rt (trim text)) as [d|] eqn:Es.
  { destruct (V d eq_refl) as (t & -> & _).
    rewrite commit_returns. eexists; repeat split. }
  destruct (Picker.numericOutOfRange (trim text)); [eexists; repeat split|].
  destruct (Picker.parsePatterns rt (trim text)) as [t|].
  - rewrite commit_returns. eexists; repeat split.
  - eexists; repeat split.
Qed.

Lemma handleBlur_never_throws_witness :
  (exists st',
     Picker.handleBlur rtUTC emptyState "d5" = Returned st' /\
     touched st' = true /\ isFocused st' = false) /\
  (forall d, Picker.parseShortcut rtUTC (trim "d5") = Some d ->
     exists t, d = TimeValue t /\ representable t).
Proof.
  apply (handleBlur_never_throws rtUTC emptyState "d5").
  - intros c ds E _ _. vm_compute in E. injection E as _ <-. simpl. lia.
  - split; vm_compute; split; discriminate.
Defined.

(** X11.  Leaving the field with nothing but white space in it stores [null]
    and clears the error and the text, whatever the state was. *)
Theorem blank_input_clears_the_field (rt : Runtime) (st : State) (text : string) :
  allSpaces text = true ->
  Picker.handleBlur rt st text = Returned (mkState None None true EmptyString false) /\
  PickerUTC.handleBlur rt st text = Returned (mkState None None true EmptyString false).
Proof.
  intros H. unfold Picker.handleBlur, PickerUTC.handleBlur. cbv zeta.
  rewrite (trim_allSpaces text H). split; reflexivity.
Qed.

Lemma blank_input_clears_the_field_witness :
  Picker.handleBlur rtUTC
    (mkState (Some "2025-07-08T00:00:00.000Z") (Some "Invalid date format") false "   " true)
    "   "
  = Returned (mkState None None true EmptyString false) /\
  PickerUTC.handleBlur rtUTC
    (mkState (Some "2025-07-08T00:00:00.000Z") (Some "Invalid date format") false "   " true)
    "   "
  = Returned (mkState None None true EmptyString false).
Proof.
  apply (blank_input_clears_the_field rtUTC
           (mkState (Some "2025-07-08T00:00:00.000Z") (Some "Invalid date format")
              false "   " true) "   ").
  reflexivity.
Defined.

(** X12.  In date-picker-component.tsx the mount effect stores a default value
    that is not blank as it is; when [new Date] cannot read it, the effect
    that formats the value throws a [RangeError], and so do Ctrl with an arrow
    key. *)
Theorem unreadable_default_value_throws (rt : Runtime) (st : State) (s : string) :
  trim s <> EmptyString -> DateParse rt s = InvalidDate ->
  Picker.initFromDefault st (Some s) = setValue (Some s) st /\
  Picker.syncInputValue rt (setValue (Some s) st) = Thrown RangeError /\
  (forall key text,
     key = ArrowLeft \/ key = ArrowRight \/ key = ArrowUp \/ key = ArrowDown ->
     Picker.handleKeyDown rt (setValue (Some s) st) true key text = Thrown RangeError).
Proof.
  intros Ht Hp. pose proof (trim_empty_inv s Ht) as Hne.
  split; [|split].
  - unfold Picker.initFromDefault. rewrite (isEmpty_false _ Ht). reflexivity.
  - unfold Picker.syncInputValue. cbn [value setValue]. unfold truthy.
    rewrite (isEmpty_false s Hne). cbn [negb]. rewrite Hp. reflexivity.
  - intros key text Hk. unfold Picker.handleKeyDown. cbv zeta. cbn [value setValue].
    unfold truthy. rewrite (isEmpty_false s Hne). cbn [negb]. rewrite Hp.
    destruct Hk as [Hk|[Hk|[Hk|Hk]]]; subst key; reflexivity.
Qed.

Lemma unreadable_default_value_throws_witness :
  Picker.initFromDefault emptyState (Some "tomorrow") = setValue (Some "tomorrow") emptyState /\
  Picker.syncInputValue rtUTC (setValue (Some "tomorrow") emptyState) = Thrown RangeError /\
  (forall key text,
     key = ArrowLeft \/ key = ArrowRight \/ key = ArrowUp \/ key = ArrowDown ->
     Picker.handleKeyDown rtUTC (setValue (Some "tomorrow") emptyState) true key text
     = Thrown RangeError).
Proof.
  apply (unreadable_default_value_throws rtUTC emptyState "tomorrow").
  - discriminate.
  - reflexivity.
Defined.

(** ** The variant that stores UTC midnight *)

Lemma handleKeyDownUTC_cases rt st ctrlKey key text :
  PickerUTC.handleKeyDown rt st ctrlKey key text = Returned st \/
  (exists t, PickerUTC.handleKeyDown rt st ctrlKey key text
             = PickerUTC.commit rt st (TimeValue t)) \/
  PickerUTC.handleKeyDown rt st ctrlKey key text = Thrown RangeError.
Proof.
  unfold PickerUTC.handleKeyDown, DateFns.addYears, PickerUTC.parseShortcut. cbv zeta.
  destruct ctrlKey; destruct key; cbv beta iota;
  repeat match goal with
  | |- Returned ?s = Returned ?s \/ _ => left; reflexivity
  | |- _ \/ (exists t, PickerUTC.commit ?r ?s (TimeValue ?x) = _) \/ _ =>
      right; left; exists x; reflexivity
  | |- _ \/ _ \/ PickerUTC.commit _ _ InvalidDate = _ => right; right; reflexivity
  | |- context [truthy ?x] => destruct (truthy x)
  | |- context [match value ?s with _ => _ end] => destruct (value s)
  | |- context [parseDateString ?v] =>
      let E := fresh "Ep" in
      destruct (parseDateString v) eqn:E;
      [apply CodecProps.parseDateString_valid in E; destruct E as (? & ->)|]
  | |- context [DateFns.addMonths ?r (TimeValue ?x) ?a] =>
      destruct (DateFns.addMonths r (TimeValue x) a)
  | |- context [Picker.parseShortcut ?r ?i] =>
      let E := fresh "Es" in
      destruct (Picker.parseShortcut r i) eqn:E;
      [apply ShortcutProps.parseShortcut_valid in E; destruct E as (? & ->)|]
  end.
Qed.

(** A step of at most two years from a date that [parseDateString] has read
    is a date, and its commit returns. *)
Lemma stepUTC_returns rt st v d amount :
  - msPerDay <= LocalTZA rt <= msPerDay ->
  parseDateString v = Some d -> - 24 <= amount <= 24 ->
  exists st', PickerUTC.commit rt st (DateFns.addMonths rt d amount) = Returned st'.
Proof.
  intros Htz Hp Ha.
  destruct (CodecProps.parseDateString_valid v d Hp) as (t & ->).
  pose proof (CodecProps.parseDateString_year rt v t Htz Hp) as Hy.
  destruct (addMonths_local rt t amount Htz ltac:(lia) ltac:(lia)) as (t' & -> & _).
  destruct (commitUTC_returns rt st t') as (x & -> & _). eexists; reflexivity.
Qed.

Lemma handleBlurUTC_cases rt st text :
  PickerUTC.handleBlur rt st text
    = Returned (setInputValue EmptyString (setError None (setValue None (blurred st)))) \/
  PickerUTC.handleBlur rt st text = Returned (rejected st) \/
  exists t, PickerUTC.handleBlur rt st text = PickerUTC.commit rt (blurred st) (TimeValue t).
Proof.
  unfold PickerUTC.handleBlur, PickerUTC.parseShortcut. cbv zeta.
  destruct (isEmpty (trim text)); [auto|].
  destruct (Picker.parseShortcut rt (trim text)) as [d|] eqn:Es.
  { destruct (ShortcutProps.parseShortcut_valid rt _ d Es) as (t & ->). eauto. }
  destruct (Picker.numericOutOfRange (trim text)); [auto|].
  destruct (Picker.parsePatterns rt (trim text)) as [t|]; eauto.
Qed.

(** X13.  In the variant that stores UTC midnight neither the effects nor the
    navigation keys throw, whatever the stored value and the default value
    are: between 1970 and 9999, Ctrl with an arrow key, the effect that runs
    on mount and the effect that formats the value always return (where
    date-picker-component.tsx throws on a value that is not a date). *)
Theorem utc_variant_never_throws (rt : Runtime) (st : State) :
  plausibleNow rt ->
  (forall key text,
     key = ArrowLeft \/ key = ArrowRight \/ key = ArrowUp \/ key = ArrowDown ->
     exists st', PickerUTC.handleKeyDown rt st true key text = Returned st') /\
  (forall defaultValue,
     exists st', PickerUTC.initFromDefault rt st defaultValue = Returned st') /\
  (forall defaultValue,
     exists st', PickerUTC.syncInputValue rt st defaultValue = Returned st').
Proof.
  intros [_ Htz]. split; [|split].
  - intros key text Hk.
    unfold PickerUTC.handleKeyDown, DateFns.addYears. cbv zeta.
    destruct (truthy (value st));
      [|destruct Hk as [Hk|[Hk|[Hk|Hk]]]; subst key; eexists; reflexivity].
    destruct (value st) as [v|];
      [|destruct Hk as [Hk|[Hk|[Hk|Hk]]]; subst key; eexists; reflexivity].
    destruct (parseDateString v) as [d|] eqn:Ep;
      [|destruct Hk as [Hk|[Hk|[Hk|Hk]]]; subst key; eexists; reflexivity].
    destruct Hk as [Hk|[Hk|[Hk|Hk]]]; subst key; cbv beta iota;
      apply (stepUTC_returns rt st v d); auto; lia.
  - intros dv. unfold PickerUTC.initFromDefault.
    destruct dv as [s|]; [|eexists; reflexivity].
    destruct (isEmpty (trim s)); [eexists; reflexivity|].
    destruct (parseDateString s) as [d|] eqn:Ep; [|eexists; reflexivity].
    destruct (CodecProps.parseDateString_valid s d Ep) as (t & ->).
    eexists; reflexivity.
  - intros dv. unfold PickerUTC.syncInputValue. cbv zeta.
    destruct (truthy _); [|eexists; reflexivity].
    destruct (match value st with Some v => Some v | None => dv end) as [v|];
      [|eexists; reflexivity].
    destruct (parseDateString v) as [d|] eqn:Ep; [|eexists; reflexivity].
    destruct (CodecProps.parseDateString_valid v d Ep) as (t & ->).
    eexists; reflexivity.
Qed.

Lemma utc_variant_never_throws_witness :
  exists st',
    PickerUTC.handleKeyDown rtIST (setValue (Some "tomorrow") emptyState)
      true ArrowLeft EmptyString
    = Returned st'.
Proof.
  apply (proj1 (utc_variant_never_throws rtIST (setValue (Some "tomorrow") emptyState)
                  ltac:(split; vm_compute; split; discriminate))
           ArrowLeft EmptyString).
  left. reflexivity.
Defined.

Lemma utcMidnightText_suffix v :
  utcMidnightText v -> exists datePart, v = datePart ++ "T00:00:00.000Z".
Proof.
  intros (t & -> & H0).
  rewrite (toISOString_fields t _ _ _ _ eq_refl eq_refl eq_refl H0).
  exists (isoYear (YearFromTime t) ++ "-" ++ pad2 (MonthFromTime t + 1) ++ "-"
          ++ pad2 (DateFromTime t)).
  rewrite !CodecProps.append_assoc. reflexivity.
Qed.

(** X14.  Whatever a handler of that variant stores is the text of midnight in
    UTC: after any event the value is the one before, [null], or the
    [toISOString] of an instant with a zero time of day, which ends in
    T00:00:00.000Z. *)
Theorem utc_variant_stores_midnight_text (rt : Runtime)
    (st st' : CalendarPopover.State) (ev : CalendarPopover.Event) :
  CalendarPopover.handle rt st ev = Returned st' ->
  value (CalendarPopover.form st') = value (CalendarPopover.form st) \/
  value (CalendarPopover.form st') = None \/
  exists v, value (CalendarPopover.form st') = Some v /\ utcMidnightText v /\
            exists datePart, v = datePart ++ "T00:00:00.000Z".
Proof.
  assert (C : forall f t f',
            PickerUTC.commit rt f (TimeValue t) = Returned f' ->
            exists v, value f' = Some v /\ utcMidnightText v /\
                      exists datePart, v = datePart ++ "T00:00:00.000Z").
  { intros f t f' H. destruct (commitUTC_returns rt f t) as (v & E & _ & M).
    rewrite E in H. inversion H. exists v. repeat split; auto.
    apply utcMidnightText_suffix; auto. }
  destruct ev as [nv|ck key text| |text| |nv|date| |]; cbn [CalendarPopover.handle];
    intros H; try (inversion H; subst; cbn; auto; fail).
  - inversion H. left. unfold CalendarPopover.onForm, PickerUTC.handleInputChange,
      Picker.handleInputChange. cbn [CalendarPopover.form]. cbv zeta.
    destruct (truthy _); reflexivity.
  - unfold CalendarPopover.liftForm in H.
    destruct (handleKeyDownUTC_cases rt (CalendarPopover.form st) ck key text)
      as [E|[(t & E)|E]]; rewrite E in H.
    + inversion H. left. reflexivity.
    + destruct (PickerUTC.commit rt (CalendarPopover.form st) (TimeValue t)) as [f'|] eqn:Ec;
        [|discriminate].
      inversion H. right; right. cbn [CalendarPopover.form]. eapply C; eauto.
    + discriminate.
  - unfold CalendarPopover.liftForm in H.
    destruct (handleBlurUTC_cases rt (CalendarPopover.form st) text)
      as [E|[E|(t & E)]]; rewrite E in H.
    + inversion H. right; left. reflexivity.
    + inversion H. left. reflexivity.
    + destruct (PickerUTC.commit rt (blurred (CalendarPopover.form st)) (TimeValue t))
        as [f'|] eqn:Ec; [|discriminate].
      inversion H. right; right. cbn [CalendarPopover.form]. eapply C; eauto.
  - unfold CalendarPopover.handleDateChange in H.
    destruct (CalendarPopover.calendarView st); try (inversion H; left; reflexivity).
    unfold PickerUTC.handleDateChange in H.
    destruct date as [[t|]|].
    + destruct (PickerUTC.commit rt (CalendarPopover.form st) (TimeValue t)) as [f'|] eqn:Ec;
        [|discriminate].
      inversion H. right; right. cbn [CalendarPopover.form]. eapply C; eauto.
    + discriminate.
    + inversion H. right; left. reflexivity.
Qed.

Lemma utc_variant_stores_midnight_text_witness :
  value (CalendarPopover.form
           (CalendarPopover.mkState
              (mkState (Some "2025-07-08T00:00:00.000Z") None true "07/08/2025" false)
              CalendarPopover.day false))
  = value (CalendarPopover.form
             (CalendarPopover.mkState (setValue None emptyState) CalendarPopover.day false)) \/
  value (CalendarPopover.form
           (CalendarPopover.mkState
              (mkState (Some "2025-07-08T00:00:00.000Z") None true "07/08/2025" false)
              CalendarPopover.day false)) = None \/
  exists v,
    value (CalendarPopover.form
             (CalendarPopover.mkState
                (mkState (Some "2025-07-08T00:00:00.000Z") None true "07/08/2025" false)
                CalendarPopover.day false)) = Some v /\
    utcMidnightText v /\ exists datePart, v = datePart ++ "T00:00:00.000Z".
Proof.
  apply (utc_variant_stores_midnight_text rtIST
           (CalendarPopover.mkState (setValue None emptyState) CalendarPopover.day false)
           (CalendarPopover.mkState
              (mkState (Some "2025-07-08T00:00:00.000Z") None true "07/08/2025" false)
              CalendarPopover.day false)
           (CalendarPopover.Blur "07/08/2025")).
  vm_compute. reflexivity.
Defined.



(** ** Errors and the first blur *)

Lemma commit_touched rt st d st' :
  Picker.commit rt st d = Returned st' -> touched st' = touched st.
Proof. destruct d; simpl; intros H; inversion H; reflexivity. Qed.

Lemma handleKeyDown_touched rt st ctrlKey key text st' :
  Picker.handleKeyDown rt st ctrlKey key text = Returned st' -> touched st' = touched st.
Proof.
  unfold Picker.handleKeyDown. cbv zeta. intros H.
  destruct ctrlKey, key;
    repeat match type of H with
    | Returned _ = Returned _ => inversion H; subst; auto
    | Picker.commit _ _ _ = Returned _ => eapply commit_touched; eauto
    | context [match ?x with _ => _ end] => destruct x eqn:?
    end.
Qed.

Lemma syncInputValue_touched rt st st' :
  Picker.syncInputValue rt st = Returned st' -> touched st' = touched st.
Proof.
  unfold Picker.syncInputValue. intros H.
  destruct (truthy (value st)); [|inversion H; reflexivity].
  destruct (value st) as [v|]; [|inversion H; reflexivity].
  destruct (DateParse rt v); simpl in H; inversion H; reflexivity.
Qed.

Lemma step_touched rt st ev st' :
  Session.isBlur ev = false -> Session.step rt st ev = Returned st' ->
  touched st' = touched st.
Proof.
  intros Hb. unfold Session.step.
  destruct (Picker.handle rt st ev) as [st1|] eqn:E; [|discriminate]. cbn [bind].
  assert (T1 : touched st1 = touched st).
  { destruct ev as [nv|ck key text| |text|date|]; cbn [Picker.handle] in E;
      try discriminate.
    - inversion E. unfold Picker.handleInputChange. cbv zeta.
      destruct (truthy _); reflexivity.
    - eapply handleKeyDown_touched; eauto.
    - inversion E. reflexivity.
    - unfold Picker.handleDateChange in E. destruct date as [d|].
      + eapply commit_touched; eauto.
      + inversion E. reflexivity.
    - inversion E. reflexivity. }
  destruct (Session.sameValue (value st1) (value st)).
  - intros H; inversion H; subst. exact T1.
  - intros H. rewrite (syncInputValue_touched rt st1 st' H). exact T1.
Qed.

(** X16.  No error is shown before the first blur: from an untouched state, a
    run of events without a blur ends untouched, the text field is not in its
    error state, and what it shows below the input is the helper text. *)
Theorem no_error_is_shown_before_the_first_blur
    (rt : Runtime) (st st' : State) (evs : list Picker.Event) (helperText : option string) :
  touched st = false ->
  forallb (fun ev => negb (Session.isBlur ev)) evs = true ->
  Session.run rt st evs = Returned st' ->
  touched st' = false /\ errorState st' = false /\
  Display.displayError st' helperText = helperText.
Proof.
  intros Ht Hb Hr.
  assert (T : touched st' = false).
  { revert st Ht Hr. induction evs as [|ev evs IH]; intros st Ht Hr.
    - inversion Hr; subst. exact Ht.
    - cbn [forallb] in Hb. apply andb_true_iff in Hb as [Hb1 Hb2].
      cbn [Session.run] in Hr.
      destruct (Session.step rt st ev) as [st1|] eqn:E; [|discriminate]. cbn [bind] in Hr.
      apply (IH Hb2 st1); auto.
      rewrite (step_touched rt st ev st1); auto.
      destruct (Session.isBlur ev); [discriminate | reflexivity]. }
  unfold errorState, Display.displayError. rewrite T. auto.
Qed.

(** Focus, the text 13/45 typed, Enter pressed. *)
Lemma no_error_is_shown_before_the_first_blur_witness :
  touched (mkState None None false "13/45" true) = false /\
  errorState (mkState None None false "13/45" true) = false /\
  Display.displayError (mkState None None false "13/45" true) (Some "Start date")
  = Some "Start date".
Proof.
  apply (no_error_is_shown_before_the_first_blur rtUTC emptyState
           (mkState None None false "13/45" true)
           [Picker.Focus; Picker.Change "13/45"; Picker.KeyDown false Enter "13/45"]
           (Some "Start date")).
  - reflexivity.
  - reflexivity.
  - vm_compute. reflexivity.
Defined.

End HandlerProps.

(** ** Stored values read back *)

Module ValueProps.
Import Throwing JSString ESDate Form Codec Spec Token DateFacts StringFacts NavigationFacts
  InputFacts CodecFacts BlurFacts ShortcutFacts RangeFacts.

Lemma exec_app p q s :
  exec (p ++ q) s =
  match exec p s with
  | Some (ps, r) =>
      match exec q r with
      | Some (qs, r') => Some ((ps ++ qs)%list, r')
      | None => None
      end
  | None => None
  end.
Proof.
  revert s. induction p as [|i p IH]; intros s.
  - cbn [app exec]. destruct (exec q s) as [[qs r']|]; reflexivity.
  - destruct i as [c|cs|lo hi]; cbn [app exec].
    + destruct s as [|c' r]; [reflexivity|]. destruct (Ascii.eqb c' c); [|reflexivity].
      rewrite IH. destruct (exec p r) as [[ps r1]|]; [|reflexivity].
      destruct (exec q r1) as [[qs r2]|]; reflexivity.
    + destruct s as [|c' r]; [reflexivity|]. destruct (memChar c' cs); [|reflexivity].
      rewrite IH. destruct (exec p r) as [[ps r1]|]; [|reflexivity].
      destruct (exec q r1) as [[qs r2]|]; reflexivity.
    + destruct (takeDigits hi s) as [ds r]. destruct (lo <=? String.length ds)%nat; [|reflexivity].
      rewrite IH. destruct (exec p r) as [[ps r1]|]; [|reflexivity].
      destruct (exec q r1) as [[qs r2]|]; reflexivity.
Qed.

Lemma allDigits_pad3 n : 0 <= n -> allDigits (pad3 n) = true.
Proof.
  intros H. unfold pad3, pad2. cbn [allDigits].
  rewrite !isDigit_digitChar by (Z.div_mod_to_equations; lia). reflexivity.
Qed.

(** The three forms that [DateParse] tries, on the text of a full
    timestamp. *)
Lemma matchFull_timestamp y mo d h mi s ms :
  digitRun 4 4 y -> digitRun 2 2 mo -> digitRun 2 2 d -> digitRun 2 2 h ->
  digitRun 2 2 mi -> digitRun 2 2 s -> digitRun 3 3 ms ->
  let text := y ++ "-" ++ mo ++ "-" ++ d ++ "T" ++ h ++ ":" ++ mi ++ ":" ++ s
              ++ "." ++ ms ++ "Z" in
  matchFull reIsoDate text = None /\
  matchFull (reIsoDate ++ reTimeUTC) text = None /\
  matchFull (reIsoDate ++ reTimeMsUTC) text
    = Some [y; "-"; mo; "-"; d; "T"; h; ":"; mi; ":"; s; "."; ms; "Z"].
Proof.
  intros Hy Hmo Hd [Hh Lh] [Hmi Lmi] [Hs Ls] [Hms Lms]. cbv zeta.
  unfold matchFull, reTimeUTC, reTimeMsUTC. rewrite !exec_app.
  rewrite !Decode.exec_reIsoDate_digits by auto.
  change ("T" ++ h ++ ":" ++ mi ++ ":" ++ s ++ "." ++ ms ++ "Z")
    with (String "T" (h ++ String ":" (mi ++ String ":" (s ++ String "." (ms ++ "Z"))))).
  split; [reflexivity|]. split.
  - rewrite exec_lit.
    rewrite exec_digits; [| auto | lia | left; lia]. rewrite exec_lit.
    rewrite exec_digits; [| auto | lia | left; lia]. rewrite exec_lit.
    rewrite exec_digits; [| auto | lia | left; lia]. reflexivity.
  - rewrite exec_lit.
    rewrite exec_digits; [| auto | lia | left; lia]. rewrite exec_lit.
    rewrite exec_digits; [| auto | lia | left; lia]. rewrite exec_lit.
    rewrite exec_digits; [| auto | lia | left; lia]. rewrite exec_lit.
    rewrite exec_digits; [| auto | lia | left; lia]. reflexivity.
Qed.

Lemma inRange_true lo x hi : lo <= x <= hi -> inRange lo x hi = true.
Proof.
  intros H. unfold inRange.
  destruct (Z.leb_spec lo x); destruct (Z.leb_spec x hi); simpl; auto; lia.
Qed.

(** [new Date] reads the text of [toISOString] back to the instant, for the
    years that are written with four digits. *)
Lemma DateParse_toISOString rt t :
  0 <= YearFromTime t <= 9999 -> DateParse rt (toISOString t) = TimeValue t.
Proof.
  intros Hy.
  pose proof (fields_range t) as [Hm Hd].
  pose proof (DaysInMonth_range (YearFromTime t) _ Hm) as HD.
  pose proof (TimeWithinDay_range t) as Htod.
  rewrite (toISOString_fields t _ _ _ _ eq_refl eq_refl eq_refl eq_refl).
  set (y := YearFromTime t) in *. set (m := MonthFromTime t) in *.
  set (d := DateFromTime t) in *. set (tod := TimeWithinDay t) in *.
  unfold msPerDay, msPerHour, msPerMinute, msPerSecond in *.
  set (h := tod / 3600000). set (mi := (tod / 60000) mod 60).
  set (s := (tod / 1000) mod 60). set (ms := tod mod 1000).
  assert (Rh : 0 <= h <= 23) by (unfold h; Z.div_mod_to_equations; lia).
  assert (Rmi : 0 <= mi <= 59) by (unfold mi; Z.div_mod_to_equations; lia).
  assert (Rs : 0 <= s <= 59) by (unfold s; Z.div_mod_to_equations; lia).
  assert (Rms : 0 <= ms <= 999) by (unfold ms; Z.div_mod_to_equations; lia).
  assert (Et : MakeTime h mi s ms = tod).
  { unfold MakeTime, msPerHour, msPerMinute, msPerSecond, h, mi, s, ms.
    Z.div_mod_to_equations. lia. }
  assert (Ey : isoYear y = pad4 y).
  { unfold isoYear. destruct (Z.leb_spec 0 y); [|lia].
    destruct (Z.leb_spec y 9999); [|lia]. reflexivity. }
  rewrite Ey.
  destruct (matchFull_timestamp (pad4 y) (pad2 (m + 1)) (pad2 d) (pad2 h) (pad2 mi)
              (pad2 s) (pad3 ms)) as (M1 & M2 & M3);
    try (apply CodecProps.digitRun_pad4; lia);
    try (apply CodecProps.digitRun_pad2; lia).
  { split; [apply allDigits_pad3; lia | simpl; lia]. }
  unfold DateParse, isoFields. rewrite M1, M2, M3. cbv beta iota.
  rewrite digitsValue_pad4, !digitsValue_pad2, digitsValue_pad3 by lia.
  unfold isoInstant. replace (m + 1 - 1) with m by lia.
  rewrite !inRange_true by (fold y; fold d; lia). cbn [andb orb].
  rewrite Et. unfold y, m, d, tod. rewrite MakeDay_fields, MakeDate_Day.
  rewrite TimeClip_within by (apply representable_of_utc_year; fold y; lia).
  reflexivity.
Qed.

Lemma toISOString_nonempty t : isEmpty (toISOString t) = false.
Proof.
  unfold toISOString, isoYear.
  destruct ((0 <=? YearFromTime t) && (YearFromTime t <=? 9999));
    [|destruct (YearFromTime t <? 0)]; reflexivity.
Qed.

(** What a handler of date-picker-component.tsx does to the value and the
    text: nothing to the value, or both cleared, or a date committed. *)
Lemma handleKeyDown_cases rt st ctrlKey key text :
  Picker.handleKeyDown rt st ctrlKey key text = Returned st \/
  Picker.handleKeyDown rt st ctrlKey key text = Thrown RangeError \/
  exists t, Picker.handleKeyDown rt st ctrlKey key text
            = Picker.commit rt st (TimeValue t).
Proof.
  unfold Picker.handleKeyDown, DateFns.addYears. cbv zeta.
  destruct ctrlKey; destruct key; cbv beta iota;
  repeat match goal with
  | |- Returned ?s = Returned ?s \/ _ => left; reflexivity
  | |- _ \/ _ \/ (exists t, Picker.commit ?r ?s (TimeValue ?x) = _) =>
      right; right; exists x; reflexivity
  | |- Picker.commit _ _ InvalidDate = _ \/ _ => right; left; reflexivity
  | |- Picker.commit _ _ (DateFns.addMonths _ InvalidDate _) = _ \/ _ =>
      right; left; reflexivity
  | |- context [truthy ?x] => destruct (truthy x)
  | |- context [match value ?s with _ => _ end] => destruct (value s)
  | |- context [DateParse ?r ?v] => destruct (DateParse r v)
  | |- context [DateFns.addMonths ?r (TimeValue ?x) ?a] =>
      destruct (DateFns.addMonths r (TimeValue x) a)
  | |- context [Picker.parseShortcut ?r ?i] =>
      let E := fresh "Es" in
      destruct (Picker.parseShortcut r i) eqn:E;
      [apply ShortcutProps.parseShortcut_valid in E; destruct E as (? & ->)|]
  end.
Qed.

Lemma handle_cases rt st ev st' :
  Picker.handle rt st ev = Returned st' ->
  value st' = value st \/
  (value st' = None /\ inputValue st' = EmptyString) \/
  exists t, value st' = Some (toISOString t) /\ inputValue st' = format_P rt t.
Proof.
  destruct ev as [nv|ck key text| |text|date|]; cbn [Picker.handle]; intros H.
  - inversion H. left. unfold Picker.handleInputChange. cbv zeta.
    destruct (truthy _); reflexivity.
  - destruct (handleKeyDown_cases rt st ck key text) as [E|[E|(t & E)]]; rewrite E in H.
    + inversion H. auto.
    + discriminate.
    + rewrite HandlerProps.commit_returns in H. inversion H. right; right. exists t. auto.
  - inversion H. auto.
  - unfold Picker.handleBlur in H. cbv zeta in H.
    destruct (isEmpty (trim text)); [inversion H; auto|].
    destruct (Picker.parseShortcut rt (trim text)) as [d|] eqn:Es.
    { destruct (ShortcutProps.parseShortcut_valid rt _ d Es) as (t & ->).
      rewrite HandlerProps.commit_returns in H. inversion H. right; right. exists t. auto. }
    destruct (Picker.numericOutOfRange (trim text)); [inversion H; auto|].
    destruct (Picker.parsePatterns rt (trim text)) as [t|].
    + rewrite HandlerProps.commit_returns in H. inversion H. right; right. exists t. auto.
    + inversion H. auto.
  - unfold Picker.handleDateChange in H. destruct date as [[t|]|].
    + rewrite HandlerProps.commit_returns in H. inversion H. right; right. exists t. auto.
    + discriminate.
    + inversion H. auto.
  - inversion H. auto.
Qed.

(** X17.  In date-picker-component.tsx the text shown and the value stored
    stay in step: an event that changes the value either clears both, or
    stores the [toISOString] of a date and shows that date formatted; and for
    the years written with four digits, the calendar is then given that very
    instant and the effect that formats the stored value finds the text
    already there. *)
Theorem text_and_value_stay_in_step (rt : Runtime) (st st' : State) (ev : Picker.Event) :
  Picker.handle rt st ev = Returned st' ->
  value st' <> value st ->
  (value st' = None /\ inputValue st' = EmptyString /\
   Picker.syncInputValue rt st' = Returned st') \/
  (exists t,
     value st' = Some (toISOString t) /\ inputValue st' = format_P rt t /\
     (0 <= YearFromTime t <= 9999 ->
      Picker.dateValue rt st' = Some (TimeValue t) /\
      Picker.syncInputValue rt st' = Returned st')).
Proof.
  intros H Hv. destruct (handle_cases rt st ev st' H) as [E|[[E1 E2]|(t & E1 & E2)]].
  - congruence.
  - left. repeat split; auto. unfold Picker.syncInputValue. rewrite E1. cbn [truthy].
    destruct st'. cbn in *. subst. reflexivity.
  - right. exists t. repeat split; auto.
    + unfold Picker.dateValue. rewrite E1. cbn [truthy].
      rewrite toISOString_nonempty, DateParse_toISOString by auto. reflexivity.
    + unfold Picker.syncInputValue. rewrite E1. cbn [truthy].
      rewrite toISOString_nonempty, DateParse_toISOString by auto. cbn [negb formatDate bind].
      destruct st'. cbn in *. subst. reflexivity.
Qed.

Lemma text_and_value_stay_in_step_witness :
  (value (mkState (Some "2025-07-08T00:00:00.000Z") None true "07/08/2025" false) = None /\
   inputValue (mkState (Some "2025-07-08T00:00:00.000Z") None true "07/08/2025" false)
     = EmptyString /\
   Picker.syncInputValue rtUTC
     (mkState (Some "2025-07-08T00:00:00.000Z") None true "07/08/2025" false)
   = Returned (mkState (Some "2025-07-08T00:00:00.000Z") None true "07/08/2025" false)) \/
  (exists t,
     value (mkState (Some "2025-07-08T00:00:00.000Z") None true "07/08/2025" false)
       = Some (toISOString t) /\
     inputValue (mkState (Some "2025-07-08T00:00:00.000Z") None true "07/08/2025" false)
       = format_P rtUTC t /\
     (0 <= YearFromTime t <= 9999 ->
      Picker.dateValue rtUTC
        (mkState (Some "2025-07-08T00:00:00.000Z") None true "07/08/2025" false)
      = Some (TimeValue t) /\
      Picker.syncInputValue rtUTC
        (mkState (Some "2025-07-08T00:00:00.000Z") None true "07/08/2025" false)
      = Returned (mkState (Some "2025-07-08T00:00:00.000Z") None true "07/08/2025" false))).
Proof.
  apply (text_and_value_stay_in_step rtUTC emptyState
           (mkState (Some "2025-07-08T00:00:00.000Z") None true "07/08/2025" false)
           (Picker.Blur "7/8/25")).
  - vm_compute. reflexivity.
  - discriminate.
Defined.

End ValueProps.

(** ** More on keyboard navigation and on what the field shows *)

Module NavigationProps.
Import Throwing JSString ESDate Form Codec Spec Token DateFacts StringFacts NavigationFacts
  InputFacts CodecFacts BlurFacts ShortcutFacts RangeFacts.

(** X18.  Ctrl+Up and Ctrl+Down on a committed value that parses to a valid
    date commit, in local time, the same month and day one year later or
    earlier, the day capped by the length of that month in the year reached
    (29 February becomes 28 February); for a year within 200000 of the year 0
    the date reached is valid. *)
Theorem year_navigation_clamps (rt : Runtime) (st : State)
    (v : string) (t : Z) (key : Key) (text : string) :
  value st = Some v -> v <> EmptyString -> DateParse rt v = TimeValue t ->
  key = ArrowUp \/ key = ArrowDown ->
  - msPerDay <= LocalTZA rt <= msPerDay -> - 200000 <= getFullYear rt t <= 200000 ->
  exists t',
    Picker.handleKeyDown rt st true key text
      = Returned (setInputValue (format_P rt t')
                (setError None (setValue (Some (toISOString t')) st))) /\
    localDate rt t'
      = (let y' := getFullYear rt t + (match key with ArrowUp => 1 | _ => -1 end) in
         mkDate y' (getMonth rt t + 1)
           (Z.min (getDate rt t) (DaysInMonth y' (getMonth rt t)))) /\
    representable t'.
Proof.
  intros Hv Hne Hp Hk Htz Hy.
  pose proof (fields_range (LocalTime rt t)) as [Hm _].
  fold (getMonth rt t) in Hm.
  destruct (addMonths_local rt t ((match key with ArrowUp => 1 | _ => -1 end) * 12) Htz Hy)
    as (t' & A & L & _ & R); [destruct key; lia|].
  assert (L' : localDate rt t'
               = mkDate (getFullYear rt t + (match key with ArrowUp => 1 | _ => -1 end))
                   (getMonth rt t + 1)
                   (Z.min (getDate rt t)
                      (DaysInMonth
                         (getFullYear rt t + (match key with ArrowUp => 1 | _ => -1 end))
                         (getMonth rt t)))).
  { rewrite L, ShortcutProps.shiftMonth_years by (unfold localDate; cbn [month]; lia).
    unfold localDate. cbn [year month day].
    replace (getMonth rt t + 1 - 1) with (getMonth rt t) by lia. reflexivity. }
  exists t'. split; [|split; [exact L'|exact R]].
  unfold Picker.handleKeyDown, DateFns.addYears. cbv zeta. rewrite Hv. unfold truthy.
  rewrite (isEmpty_false v Hne). cbn [negb]. rewrite Hp.
  destruct Hk; subst key; rewrite A; reflexivity.
Qed.

(** 29 February 2024 plus one year is 28 February 2025. *)
Lemma year_navigation_clamps_witness :
  DateParse rtUTC "2024-02-29T00:00:00.000Z" = TimeValue 1709164800000 /\
  localDate rtUTC 1709164800000 = mkDate 2024 2 29 /\
  exists t',
    Picker.handleKeyDown rtUTC (setValue (Some "2024-02-29T00:00:00.000Z") emptyState)
        true ArrowUp EmptyString
      = Returned (setInputValue (format_P rtUTC t')
                (setError None
                   (setValue (Some (toISOString t'))
                      (setValue (Some "2024-02-29T00:00:00.000Z") emptyState)))) /\
    localDate rtUTC t' = mkDate 2025 2 28 /\
    representable t'.
Proof.
  split; [reflexivity|]. split; [reflexivity|].
  apply (year_navigation_clamps rtUTC
           (setValue (Some "2024-02-29T00:00:00.000Z") emptyState)
           "2024-02-29T00:00:00.000Z" 1709164800000 ArrowUp EmptyString).
  - reflexivity.
  - discriminate.
  - reflexivity.
  - left. reflexivity.
  - vm_compute. split; discriminate.
  - vm_compute. split; discriminate.
Defined.

(** ** A month step and back *)

Lemma YearFromDay_near d k :
  - 365 <= k <= 365 -> YearFromDay d - 1 <= YearFromDay (d + k) <= YearFromDay d + 1.
Proof.
  intros Hk. pose proof (YearFromDay_bounds d) as B. pose proof (YearFromDay_bounds (d + k)) as B'.
  split.
  - destruct (Z_le_gt_dec (YearFromDay d - 1) (YearFromDay (d + k))); auto. exfalso.
    assert (DayFromYear (YearFromDay (d + k) + 1) <= DayFromYear (YearFromDay d - 1))
      by (apply DayFromYear_mono; lia).
    pose proof (DayFromYear_succ (YearFromDay d - 1)) as S1.
    replace (YearFromDay d - 1 + 1) with (YearFromDay d) in S1 by lia.
    destruct (DaysInYear_cases (YearFromDay d - 1)); lia.
  - destruct (Z_le_gt_dec (YearFromDay (d + k)) (YearFromDay d + 1)); auto. exfalso.
    assert (DayFromYear (YearFromDay d + 2) <= DayFromYear (YearFromDay (d + k)))
      by (apply DayFromYear_mono; lia).
    pose proof (DayFromYear_succ (YearFromDay d + 1)) as S1.
    replace (YearFromDay d + 1 + 1) with (YearFromDay d + 2) in S1 by lia.
    destruct (DaysInYear_cases (YearFromDay d + 1)); lia.
Qed.

Lemma shiftMonth_keeps_day y m d delta :
  1 <= m <= 12 -> 1 <= d <= 28 ->
  shiftMonth (mkDate y m d) delta
  = mkDate (y + (m - 1 + delta) / 12) ((m - 1 + delta) mod 12 + 1) d.
Proof.
  intros Hm Hd. unfold shiftMonth. cbn [year month day]. cbv zeta.
  pose proof (Z.mod_pos_bound (m - 1 + delta) 12 ltac:(lia)).
  pose proof (DaysInMonth_range (y + (m - 1 + delta) / 12) ((m - 1 + delta) mod 12) ltac:(lia)).
  rewrite Z.min_l by lia. reflexivity.
Qed.

Lemma shiftMonth_back y m d delta :
  1 <= m <= 12 -> 1 <= d <= 28 ->
  shiftMonth (shiftMonth (mkDate y m d) delta) (- delta) = mkDate y m d.
Proof.
  intros Hm Hd. rewrite shiftMonth_keeps_day by auto.
  pose proof (Z.mod_pos_bound (m - 1 + delta) 12 ltac:(lia)).
  rewrite shiftMonth_keeps_day by lia.
  f_equal; Z.div_mod_to_equations; lia.
Qed.

(** The days between a date and the same day of the month next to it. *)
Lemma MakeDay_month_step y m d delta :
  0 <= m <= 11 -> delta = 1 \/ delta = -1 ->
  - 31 <= MakeDay y (m + delta) d - MakeDay y m d <= 31.
Proof.
  intros Hm Hdelta.
  assert (S : forall k, MakeDay y (k + 1) d - MakeDay y k d
                        = DaysInMonth (y + k / 12) (k mod 12)).
  { intros k. pose proof (MakeDay_end_of_month y k) as E.
    rewrite (MakeDay_normalize y k d).
    replace (MakeDay y (k + 1) d) with (MakeDay y (k + 1) 0 + d) by (unfold MakeDay; lia).
    rewrite E. unfold MakeDay. lia. }
  destruct Hdelta; subst delta.
  - rewrite S. pose proof (Z.mod_pos_bound m 12 ltac:(lia)).
    pose proof (DaysInMonth_range (y + m / 12) (m mod 12) ltac:(lia)). lia.
  - pose proof (S (m + -1)) as S1. replace (m + -1 + 1) with m in S1 by lia.
    pose proof (Z.mod_pos_bound (m + -1) 12 ltac:(lia)).
    pose proof (DaysInMonth_range (y + (m + -1) / 12) ((m + -1) mod 12) ltac:(lia)). lia.
Qed.

(** One month forward or back from a day up to the 28th: the instant
    reached, its distance and the way back. *)
Lemma addMonths_step rt t delta :
  - msPerDay <= LocalTZA rt <= msPerDay ->
  - 199999 <= getFullYear rt t <= 199999 ->
  getDate rt t <= 28 -> delta = 1 \/ delta = -1 ->
  exists t1,
    DateFns.addMonths rt (TimeValue t) delta = TimeValue t1 /\
    DateFns.addMonths rt (TimeValue t1) (- delta) = TimeValue t /\
    YearFromTime t - 1 <= YearFromTime t1 <= YearFromTime t + 1.
Proof.
  intros Htz Hy H28 Hdelta.
  pose proof (fields_range (LocalTime rt t)) as [Hm Hd].
  fold (getFullYear rt t) (getMonth rt t) (getDate rt t) in Hm, Hd.
  destruct (addMonths_local rt t delta Htz ltac:(lia) ltac:(lia)) as (t1 & A1 & L1 & T1 & _).
  assert (Hy1 : - 200000 <= getFullYear rt t1 <= 200000).
  { change (getFullYear rt t1) with (year (localDate rt t1)). rewrite L1.
    unfold shiftMonth, localDate. cbn [year month day].
    Z.div_mod_to_equations. lia. }
  destruct (addMonths_local rt t1 (- delta) Htz Hy1 ltac:(lia)) as (t2 & A2 & L2 & T2 & _).
  exists t1. split; [exact A1|]. split.
  - rewrite A2. f_equal. apply (ShortcutProps.local_fields_inj rt); [|congruence].
    rewrite L2, L1. unfold localDate at 1. apply shiftMonth_back; lia.
  - assert (Ed : Day (LocalTime rt t1)
                 = MakeDay (getFullYear rt t) (getMonth rt t + delta) (getDate rt t)).
    { rewrite <- (MakeDay_fields (LocalTime rt t1)).
      fold (getFullYear rt t1) (getMonth rt t1) (getDate rt t1).
      unfold localDate in L1. rewrite shiftMonth_keeps_day in L1 by lia.
      injection L1 as E1 E2 E3.
      rewrite E1, E3. replace (getMonth rt t1)
        with ((getMonth rt t + 1 - 1 + delta) mod 12) by lia.
      replace (getMonth rt t + 1 - 1 + delta) with (getMonth rt t + delta) by lia.
      symmetry. apply MakeDay_normalize. }
    pose proof (MakeDay_month_step (getFullYear rt t) (getMonth rt t) (getDate rt t) delta
                  Hm Hdelta) as Hstep.
    rewrite <- Ed in Hstep.
    unfold getFullYear, getMonth, getDate in Hstep. rewrite MakeDay_fields in Hstep.
    assert (Eu : Day t1 = Day t + (Day (LocalTime rt t1) - Day (LocalTime rt t))).
    { pose proof (MakeDate_Day (LocalTime rt t1)) as B1.
      pose proof (MakeDate_Day (LocalTime rt t)) as B0.
      rewrite T1 in B1. unfold MakeDate, LocalTime, Day, msPerDay in *.
      Z.div_mod_to_equations. lia. }
    unfold YearFromTime. rewrite Eu. apply YearFromDay_near. lia.
Qed.

(** X19.  Ctrl+Right followed by Ctrl+Left, or the other way round, on a
    committed date whose day of the month is at most 28 and whose year is from
    1 to 9998, comes back to the local calendar date that was there: the
    second step stores a date of that day and shows it formatted. *)
Theorem month_step_and_back (rt : Runtime) (st : State)
    (v : string) (t : Z) (key back : Key) (text text' : string) :
  value st = Some v -> v <> EmptyString -> DateParse rt v = TimeValue t ->
  getDate rt t <= 28 -> 1 <= YearFromTime t <= 9998 ->
  - msPerDay <= LocalTZA rt <= msPerDay ->
  (key = ArrowRight /\ back = ArrowLeft) \/ (key = ArrowLeft /\ back = ArrowRight) ->
  exists st1 t2,
    Picker.handleKeyDown rt st true key text = Returned st1 /\
    Picker.handleKeyDown rt st1 true back text'
    = Returned (setInputValue (format_P rt t2)
                 (setError None (setValue (Some (toISOString t2)) st))) /\
    localDate rt t2 = localDate rt t.
Proof.
  intros Hv Hne Hp H28 Hy Htz Hk.
  set (delta := match key with ArrowLeft => -1 | _ => 1 end).
  assert (Hly : - 199999 <= getFullYear rt t <= 199999).
  { unfold getFullYear, YearFromTime in *.
    replace (Day (LocalTime rt t)) with (Day t + (Day (LocalTime rt t) - Day t)) by lia.
    pose proof (YearFromDay_near (Day t) (Day (LocalTime rt t) - Day t)) as N.
    assert (- 365 <= Day (LocalTime rt t) - Day t <= 365)
      by (unfold Day, LocalTime, msPerDay in *; Z.div_mod_to_equations; lia).
    specialize (N H). lia. }
  destruct (addMonths_step rt t delta Htz Hly H28) as (t1 & A1 & A2 & Y1).
  { unfold delta. destruct Hk as [[-> _]|[-> _]]; auto. }
  exists (setInputValue (format_P rt t1)
            (setError None (setValue (Some (toISOString t1)) st))), t.
  split; [|split; [|reflexivity]].
  - unfold Picker.handleKeyDown. cbv zeta. rewrite Hv. unfold truthy.
    rewrite (isEmpty_false v Hne). cbn [negb]. rewrite Hp.
    destruct Hk as [[-> _]|[-> _]]; unfold delta in A1; rewrite A1; reflexivity.
  - unfold Picker.handleKeyDown. cbv zeta. cbn [value setValue setError setInputValue].
    unfold truthy. rewrite ValueProps.toISOString_nonempty. cbn [negb].
    rewrite ValueProps.DateParse_toISOString by lia.
    destruct Hk as [[-> ->]|[-> ->]]; unfold delta in A2; cbn [Z.opp] in A2;
      rewrite A2; reflexivity.
Qed.

(** 15 January 2025 in India, a month forward and back. *)
Lemma month_step_and_back_witness :
  localDate rtIST 1736937000000 = mkDate 2025 1 15 /\
  exists st1 t2,
    Picker.handleKeyDown rtIST (setValue (Some "2025-01-15T10:30:00.000Z") emptyState)
      true ArrowRight EmptyString = Returned st1 /\
    Picker.handleKeyDown rtIST st1 true ArrowLeft EmptyString
    = Returned (setInputValue (format_P rtIST t2)
                 (setError None
                    (setValue (Some (toISOString t2))
                       (setValue (Some "2025-01-15T10:30:00.000Z") emptyState)))) /\
    localDate rtIST t2 = localDate rtIST 1736937000000.
Proof.
  split; [reflexivity|].
  apply (month_step_and_back rtIST (setValue (Some "2025-01-15T10:30:00.000Z") emptyState)
           "2025-01-15T10:30:00.000Z" 1736937000000 ArrowRight ArrowLeft
           EmptyString EmptyString).
  - reflexivity.
  - discriminate.
  - reflexivity.
  - vm_compute. discriminate.
  - vm_compute. split; discriminate.
  - vm_compute. split; discriminate.
  - left. split; reflexivity.
Defined.

End NavigationProps.

(** ** The text that the field shows, read again *)

Module DisplayProps.
Import Throwing JSString ESDate Form Codec Spec Token DateFacts StringFacts NavigationFacts
  InputFacts CodecFacts BlurFacts ShortcutFacts RangeFacts.

Lemma trimEnd_app_digits a ds :
  allDigits ds = true -> ds <> EmptyString -> trimEnd (a ++ ds) = a ++ ds.
Proof.
  intros Hd Hne. induction a as [|c a IH].
  - apply ShortcutProps.trimEnd_digits; auto.
  - cbn [append trimEnd]. rewrite IH.
    destruct (a ++ ds) eqn:E; [|reflexivity].
    exfalso. destruct a; [simpl in E; congruence | discriminate].
Qed.

(** A slash form with a year starts and ends with a digit: trimming leaves
    it as it is. *)
Lemma trim_slashed ms ds ys :
  digitRun 1 2 ms -> digitRun 4 4 ys ->
  trim (slashed ms ds (Some ys)) = slashed ms ds (Some ys).
Proof.
  intros Hm Hy. unfold trim.
  destruct (slashed_head ms ds (Some ys) Hm) as (c & r & E & Hc).
  rewrite E, trimStart_head by (apply isDigit_not_space; auto). rewrite <- E.
  unfold slashed.
  replace (ms ++ "/" ++ ds ++ "/" ++ ys) with ((ms ++ "/" ++ ds ++ "/") ++ ys)
    by (rewrite !CodecProps.append_assoc; reflexivity).
  apply trimEnd_app_digits; [apply Hy | eapply digitRun_nonempty; [|exact Hy]; lia].
Qed.

(** The text of the en-US format is a slash form of the local date, for
    the years 1 to 9999. *)
Lemma format_enUS_slashed rt t :
  1 <= getFullYear rt t <= 9999 ->
  format_enUS (LocalTZA rt) t
  = slashed (pad2 (getMonth rt t + 1)) (pad2 (getDate rt t)) (Some (pad4 (getFullYear rt t))).
Proof.
  intros Hy. unfold format_enUS, format_yyyy, yearOfEra. cbv zeta.
  fold (LocalTime rt t). fold (getFullYear rt t) (getMonth rt t) (getDate rt t).
  destruct (Z.ltb_spec 0 (getFullYear rt t)); [|lia].
  destruct (Z.ltb_spec (getFullYear rt t) 10000); [|lia]. reflexivity.
Qed.

Lemma canonicalText_nonempty y m d : isEmpty (canonicalText y m d) = false.
Proof. reflexivity. Qed.

Lemma newDateLocal_fields rt y m d :
  ~ 0 <= y <= 99 -> 0 <= m <= 11 -> 1 <= d <= DaysInMonth y m ->
  getFullYear rt (newDateLocal rt y m d) = y /\
  getMonth rt (newDateLocal rt y m d) = m /\
  getDate rt (newDateLocal rt y m d) = d.
Proof.
  intros Hy Hm Hd. unfold newDateLocal. rewrite MakeFullYear_id by auto.
  destruct (local_fields_make rt y m d (MakeTime 0 0 0 0)) as (F1 & F2 & F3 & _); auto.
  unfold MakeTime, msPerDay; simpl; lia.
Qed.

(** X20.  After a date is picked in the calendar of the variant that stores
    UTC midnight, with the en-US format and in a time zone less than twelve
    hours from UTC, the effect that formats the stored value leaves the state
    as it is, and leaving the field without an edit then changes neither the
    stored value nor the text: the text that the component wrote is read back
    to the same date (years 100 to 9999). *)
Theorem picked_date_survives_a_blur (rt : Runtime) (st : State) (t : Z)
    (defaultValue : option string) :
  format_P rt = format_enUS (LocalTZA rt) ->
  100 <= getFullYear rt t <= 9999 ->
  - 43200000 <= LocalTZA rt < 43200000 ->
  exists st1,
    PickerUTC.handleDateChange rt st true (Some (TimeValue t)) = Returned st1 /\
    value st1
      = Some (canonicalText (getFullYear rt t) (getMonth rt t + 1) (getDate rt t)) /\
    PickerUTC.syncInputValue rt st1 defaultValue = Returned st1 /\
    PickerUTC.handleBlur rt st1 (inputValue st1) = Returned (blurred st1).
Proof.
  intros Hf Hy Htz.
  pose proof (fields_range (LocalTime rt t)) as [Hm Hd].
  fold (getFullYear rt t) (getMonth rt t) (getDate rt t) in Hm, Hd.
  pose proof (DaysInMonth_range (getFullYear rt t) _ Hm) as HD.
  pose proof (Commit.commitUTC_stores_canonical_text rt st t Hy) as C1.
  pose proof (format_enUS_slashed rt t ltac:(lia)) as Ft. rewrite <- Hf in Ft.
  pose proof (RoundTrip.local_date_of_utc_noon rt (getFullYear rt t) (getMonth rt t)
                (getDate rt t) ltac:(lia) Hm Hd Htz) as Ln.
  remember (getFullYear rt t) as Y eqn:EY. remember (getMonth rt t) as M eqn:EM.
  remember (getDate rt t) as Dd eqn:ED. remember (format_P rt t) as text eqn:Etext.
  assert (Rm : digitRun 1 2 (pad2 (M + 1))) by (apply CodecProps.digitRun_pad2; lia).
  assert (Rd : digitRun 1 2 (pad2 Dd)) by (apply CodecProps.digitRun_pad2; lia).
  assert (Ry : digitRun 4 4 (pad4 Y)) by (apply CodecProps.digitRun_pad4; lia).
  exists (setInputValue text
            (setError None (setValue (Some (canonicalText Y (M + 1) Dd)) st))).
  split; [exact C1|]. split; [reflexivity|]. split.
  { unfold PickerUTC.syncInputValue. cbv zeta. cbn [value setValue setError setInputValue].
    unfold truthy. rewrite canonicalText_nonempty. cbn [negb]. unfold canonicalText.
    rewrite CodecProps.parseDateString_prefix;
      [| apply CodecProps.digitRun_pad4; lia | apply CodecProps.digitRun_pad2; lia
       | apply CodecProps.digitRun_pad2; lia].
    rewrite digitsValue_pad4, !digitsValue_pad2 by lia.
    replace (M + 1 - 1) with M by lia.
    remember (DateUTC Y M Dd 12 0 0 0) as noon eqn:En.
    unfold localDate in Ln. injection Ln as N1 N2 N3.
    pose proof (format_enUS_slashed rt noon ltac:(lia)) as Fn.
    rewrite <- Hf, N1, N3 in Fn. replace (getMonth rt noon + 1) with (M + 1) in Fn by lia.
    rewrite <- Ft in Fn.
    cbn [formatDate bind]. rewrite Fn. reflexivity. }
  cbn [inputValue setInputValue].
  rewrite (handleBlurUTC_slashed rt _ text (pad2 (M + 1)) (pad2 Dd) (Some (pad4 Y)));
    auto; [| right; exact Ry | rewrite Ft; apply trim_slashed; auto].
  rewrite !digitsValue_pad2 by lia.
  rewrite outOfRange_false by lia.
  assert (Ey : yearOf rt (Some (pad4 Y)) = Y).
  { unfold yearOf. change (String.length (pad4 Y)) with 4%nat.
    cbn [Nat.eqb]. apply digitsValue_pad4. lia. }
  rewrite Ey. replace (M + 1 - 1) with M by lia.
  destruct (newDateLocal_fields rt Y M Dd) as (L1 & L2 & L3); [lia | lia | lia |].
  pose proof (format_enUS_slashed rt (newDateLocal rt Y M Dd) ltac:(lia)) as F2.
  rewrite <- Hf, L1, L2, L3, <- Ft in F2.
  pose proof (Commit.commitUTC_stores_canonical_text rt
                (blurred (setInputValue text
                   (setError None (setValue (Some (canonicalText Y (M + 1) Dd)) st))))
                (newDateLocal rt Y M Dd)) as C2.
  rewrite L1, L2, L3, F2 in C2. rewrite C2 by lia. reflexivity.
Qed.

(** 8 July 2025, picked in India. *)
Lemma picked_date_survives_a_blur_witness :
  exists st1,
    PickerUTC.handleDateChange rtIST emptyState true (Some (TimeValue 1751913000000))
      = Returned st1 /\
    value st1 = Some (canonicalText 2025 7 8) /\
    PickerUTC.syncInputValue rtIST st1 None = Returned st1 /\
    PickerUTC.handleBlur rtIST st1 (inputValue st1) = Returned (blurred st1).
Proof.
  apply (picked_date_survives_a_blur rtIST emptyState 1751913000000 None).
  - reflexivity.
  - vm_compute. split; discriminate.
  - simpl. lia.
Defined.

(** Twelve hours ahead of UTC the stored value is read as the next day: after
    20 January 2025 is picked the effect shows 21 January, and leaving the
    field stores 21 January. *)
Lemma picked_date_drifts_at_plus_12 :
  localDate rtNZST 1737288000000 = mkDate 2025 1 20 /\
  PickerUTC.handleDateChange rtNZST emptyState true (Some (TimeValue 1737288000000))
    = Returned (mkState (Some "2025-01-20T00:00:00.000Z") None false "01/20/2025" false) /\
  PickerUTC.syncInputValue rtNZST
    (mkState (Some "2025-01-20T00:00:00.000Z") None false "01/20/2025" false) None
    = Returned (mkState (Some "2025-01-20T00:00:00.000Z") None false "01/21/2025" false) /\
  PickerUTC.handleBlur rtNZST
    (mkState (Some "2025-01-20T00:00:00.000Z") None false "01/21/2025" false) "01/21/2025"
    = Returned (mkState (Some "2025-01-21T00:00:00.000Z") None true "01/21/2025" false).
Proof. repeat split; vm_compute; reflexivity. Qed.

(** X21.  In that variant the calendar is handed back the date that was
    picked: after a selection, [dateValue] is noon in UTC of the selected
    local date, and its local date is that date again in every time zone less
    than twelve hours from UTC (years 100 to 9999). *)
Theorem picked_date_is_shown_in_the_calendar (rt : Runtime) (st : State) (t : Z) :
  100 <= getFullYear rt t <= 9999 ->
  - 43200000 <= LocalTZA rt < 43200000 ->
  exists st1 t',
    PickerUTC.handleDateChange rt st true (Some (TimeValue t)) = Returned st1 /\
    PickerUTC.dateValue st1 = Some (TimeValue t') /\
    utcDate t' = localDate rt t /\ TimeWithinDay t' = 12 * msPerHour /\
    localDate rt t' = localDate rt t.
Proof.
  intros Hy Htz.
  pose proof (fields_range (LocalTime rt t)) as [Hm Hd].
  fold (getFullYear rt t) (getMonth rt t) (getDate rt t) in Hm, Hd.
  pose proof (DaysInMonth_range (getFullYear rt t) _ Hm) as HD.
  set (Y := getFullYear rt t) in *. set (M := getMonth rt t) in *.
  set (Dd := getDate rt t) in *.
  assert (Ht : 0 <= MakeTime 12 0 0 0 < msPerDay)
    by (unfold MakeTime, msPerDay, msPerHour; simpl; lia).
  destruct (DateUTC_fields Y M Dd 12 0 0 0) as (F1 & F2 & F3 & F4); auto; try lia.
  eexists. exists (DateUTC Y M Dd 12 0 0 0). split; [|split; [|split; [|split]]].
  - unfold PickerUTC.handleDateChange.
    rewrite Commit.commitUTC_stores_canonical_text by auto. reflexivity.
  - unfold PickerUTC.dateValue. cbn [value setValue setError setInputValue truthy].
    fold Y M Dd. rewrite canonicalText_nonempty. cbn [negb]. unfold canonicalText.
    rewrite CodecProps.parseDateString_prefix;
      [| apply CodecProps.digitRun_pad4; lia | apply CodecProps.digitRun_pad2; lia
       | apply CodecProps.digitRun_pad2; lia].
    rewrite digitsValue_pad4, !digitsValue_pad2 by lia.
    replace (M + 1 - 1) with M by lia. reflexivity.
  - unfold utcDate, getUTCFullYear, getUTCMonth, getUTCDate, localDate.
    rewrite F1, F2, F3. reflexivity.
  - rewrite F4. reflexivity.
  - rewrite RoundTrip.local_date_of_utc_noon by (auto; lia). reflexivity.
Qed.

Lemma picked_date_is_shown_in_the_calendar_witness :
  exists st1 t',
    PickerUTC.handleDateChange rtIST emptyState true (Some (TimeValue 1751913000000))
      = Returned st1 /\
    PickerUTC.dateValue st1 = Some (TimeValue t') /\
    utcDate t' = localDate rtIST 1751913000000 /\ TimeWithinDay t' = 12 * msPerHour /\
    localDate rtIST t' = localDate rtIST 1751913000000.
Proof.
  apply (picked_date_is_shown_in_the_calendar rtIST emptyState 1751913000000).
  - vm_compute. split; discriminate.
  - simpl. lia.
Defined.

End DisplayProps.

(** ** The locale taken from the browser *)

Module LocaleProps.
Import JSString Form Locale.

Lemma assoc_None key :
  (forall k l, In (k, l) ownProperties -> key <> k) -> assoc key ownProperties = None.
Proof.
  intros H. unfold ownProperties in *. cbn [assoc].
  repeat match goal with
  | |- context [String.eqb key ?k] =>
      destruct (String.eqb_spec key k) as [E|_];
      [exfalso; revert E; eapply H; cbn [In]; eauto 12|]
  end.
  reflexivity.
Qed.

Lemma memString_false key l : ~ In key l -> memString key l = false.
Proof.
  induction l as [|x r IH]; intros H; cbn [memString]; auto.
  destruct (String.eqb_spec key x) as [E|_].
  - exfalso. apply H. left. auto.
  - apply IH. intros Hr. apply H. right. auto.
Qed.

Lemma localeMap_None key :
  (forall k l, In (k, l) ownProperties -> key <> k) -> ~ In key inheritedNames ->
  localeMap key = None.
Proof.
  intros H1 H2. unfold localeMap. rewrite assoc_None, memString_false; auto.
Qed.


Ltac no_such_key :=
  unfold ownProperties, inheritedNames; cbn [In];
  intuition (try congruence);
  repeat match goal with
  | H : (_, _) = (_, _) |- _ => injection H as ? ?; subst
  end; congruence.

(** X22.  For a language of the browser whose lower-cased tag is one of fr,
    de, es, it and ja followed by a dash and anything, the region is ignored
    and the locale of the language is taken. *)
Theorem region_is_ignored_for_listed_languages
    (language base rest : string) (l : Locale) :
  toLowerCase language = base ++ "-" ++ rest ->
  In (base, l) [("fr", fr); ("de", de); ("es", es); ("it", it); ("ja", ja)] ->
  getLocaleFromBrowser (Some language) = own l.
Proof.
  intros E Hb. unfold getLocaleFromBrowser. cbv zeta.
  assert (Hne : isEmpty language = false).
  { cbn [In] in Hb. destruct language; [|reflexivity]. exfalso.
    cbn [toLowerCase] in E.
    repeat (destruct Hb as [Hb|Hb]; [injection Hb as <- _; discriminate|]). exact Hb. }
  rewrite Hne, E.
  cbn [In] in Hb.
  repeat (destruct Hb as [Hb|Hb];
    [ injection Hb as <- <-;
      rewrite localeMap_None by (cbn [append]; no_such_key);
      cbn [append split Ascii.eqb Bool.eqb nth]; reflexivity |]).
  contradiction.
Qed.

Lemma region_is_ignored_for_listed_languages_witness :
  getLocaleFromBrowser (Some "fr-CA") = own fr.
Proof.
  apply (region_is_ignored_for_listed_languages "fr-CA" "fr" "ca" fr).
  - reflexivity.
  - left. reflexivity.
Defined.

(** X23.  English, Chinese and Portuguese are listed with a region only: with
    another region, or with none, the language of the browser falls back to
    en-US; so does a missing or empty language. *)
Theorem unlisted_regions_fall_back_to_enUS (language : string) :
  (forall base rest,
     toLowerCase language = base ++ rest ->
     (base = "en" /\ rest <> "-us" /\ rest <> "-gb") \/
     (base = "zh" /\ rest <> "-cn" /\ rest <> "-tw") \/
     (base = "pt" /\ rest <> "-br") ->
     rest = EmptyString \/ (exists region, rest = "-" ++ region) ->
     getLocaleFromBrowser (Some language) = own enUS) /\
  getLocaleFromBrowser None = own enUS /\
  getLocaleFromBrowser (Some EmptyString) = own enUS.
Proof.
  split; [|split; reflexivity].
  intros base rest E Hb Hr. unfold getLocaleFromBrowser. cbv zeta.
  assert (Hne : isEmpty language = false).
  { destruct language; [|reflexivity]. exfalso. cbn [toLowerCase] in E.
    destruct Hb as [[-> _]|[[-> _]|[-> _]]]; discriminate. }
  rewrite Hne, E.
  destruct Hb as [(-> & N1 & N2)|[(-> & N1 & N2)|(-> & N1)]];
    (destruct Hr as [->|(region & ->)];
     [ reflexivity
     | rewrite localeMap_None by (cbn [append] in *; no_such_key);
       cbn [append split Ascii.eqb Bool.eqb nth]; reflexivity ]).
Qed.

Lemma unlisted_regions_fall_back_to_enUS_witness :
  getLocaleFromBrowser (Some "en-AU") = own enUS /\
  getLocaleFromBrowser (Some "zh-HK") = own enUS /\
  getLocaleFromBrowser (Some "pt") = own enUS.
Proof.
  split; [|split].
  - apply (proj1 (unlisted_regions_fall_back_to_enUS "en-AU") "en" "-au").
    + reflexivity.
    + left. repeat split; discriminate.
    + right. exists "au". reflexivity.
  - apply (proj1 (unlisted_regions_fall_back_to_enUS "zh-HK") "zh" "-hk").
    + reflexivity.
    + right; left. repeat split; discriminate.
    + right. exists "hk". reflexivity.
  - apply (proj1 (unlisted_regions_fall_back_to_enUS "pt") "pt" EmptyString).
    + reflexivity.
    + right; right. split; [reflexivity | discriminate].
    + left. reflexivity.
Defined.

End LocaleProps.

(** ** The variants against each other *)

Module VariantProps.
Import Throwing JSString ESDate Form Codec Spec Token DateFacts StringFacts NavigationFacts
  InputFacts CodecFacts BlurFacts ShortcutFacts RangeFacts.




Lemma length_pos ds : ds <> EmptyString -> (1 <=? String.length ds)%nat = true.
Proof. destruct ds; [congruence | reflexivity]. Qed.



(** ** The locale-first variant on the slash forms *)

Lemma parsePartial_slashed rt ms ds oy :
  digitRun 1 2 ms -> digitRun 1 2 ds -> yearRun oy ->
  PickerLocaleFirst.parsePartial rt (slashed ms ds oy) InvalidDate
  = TimeValue (newDateLocal rt (yearOf rt oy) (digitsValue ms - 1) (digitsValue ds)).
Proof.
  intros Hm Hd Hy.
  rewrite <- (parsePatterns_slashed rt ms ds oy Hm Hd Hy).
  unfold PickerLocaleFirst.parsePartial, Picker.parsePatterns. cbv zeta.
  destruct oy as [ys|].
  - destruct Hy as [Hy|Hy].
    + destruct (slash_month_day_year2 ms ds ys Hm Hd Hy) as (T1 & T2 & _ & _).
      rewrite T1, T2. reflexivity.
    + destruct (slash_month_day_year4 ms ds ys Hm Hd Hy) as (T1 & T2 & T3 & _ & _).
      rewrite T1, T2, T3. reflexivity.
  - destruct (slash_month_day ms ds Hm Hd) as (T1 & _ & _). rewrite T1. reflexivity.
Qed.

(** X26.  Where the locale format does not read a slash form, the variant that
    tries it first commits what date-picker-component.tsx commits: for a month
    in 1..12 and a day in 1..31 the two handlers store the same value and show
    the same text; out of that range the first still commits (a normalized
    date) where the second reports the error. *)
Theorem locale_first_agrees_on_unread_slash_forms
    (rt : Runtime) (st : State) (text ms ds : string) (oy : option string) :
  digitRun 1 2 ms -> digitRun 1 2 ds -> yearRun oy ->
  trim text = slashed ms ds oy ->
  parse_P rt (slashed ms ds oy) = InvalidDate ->
  exists t,
    PickerLocaleFirst.handleBlur rt st text
    = Returned (setInputValue (format_P rt t)
                 (setError None (setValue (Some (toISOString t)) (setIsFocused false st)))) /\
    (1 <= digitsValue ms <= 12 -> 1 <= digitsValue ds <= 31 ->
     Picker.handleBlur rt st text
     = Returned (setInputValue (format_P rt t)
                  (setError None (setValue (Some (toISOString t)) (blurred st))))) /\
    (~ 1 <= digitsValue ms <= 12 \/ ~ 1 <= digitsValue ds <= 31 ->
     Picker.handleBlur rt st text = Returned (rejected st)).
Proof.
  intros Hm Hd Hy Ht Hp.
  exists (newDateLocal rt (yearOf rt oy) (digitsValue ms - 1) (digitsValue ds)).
  split; [|split].
  - unfold PickerLocaleFirst.handleBlur, PickerLocaleFirst.parseShortcut. cbv zeta.
    rewrite (parseShortcut_slashed rt text ms ds oy Hm Ht). rewrite Ht.
    rewrite slashed_nonempty, Hp, parsePartial_slashed by auto. reflexivity.
  - intros Rm Rd. rewrite (handleBlur_slashed rt st text ms ds oy Hm Hd Hy Ht).
    rewrite outOfRange_false by auto. reflexivity.
  - intros Hr. rewrite (handleBlur_slashed rt st text ms ds oy Hm Hd Hy Ht).
    rewrite outOfRange_true by auto. reflexivity.
Qed.

(** The input 4/5, which the en-US format does not read. *)
Lemma locale_first_agrees_on_unread_slash_forms_witness :
  exists t,
    PickerLocaleFirst.handleBlur rtUTC emptyState "4/5"
    = Returned (setInputValue (format_P rtUTC t)
                 (setError None
                    (setValue (Some (toISOString t)) (setIsFocused false emptyState)))) /\
    (1 <= digitsValue "4" <= 12 -> 1 <= digitsValue "5" <= 31 ->
     Picker.handleBlur rtUTC emptyState "4/5"
     = Returned (setInputValue (format_P rtUTC t)
                  (setError None (setValue (Some (toISOString t)) (blurred emptyState))))) /\
    (~ 1 <= digitsValue "4" <= 12 \/ ~ 1 <= digitsValue "5" <= 31 ->
     Picker.handleBlur rtUTC emptyState "4/5" = Returned (rejected emptyState)).
Proof.
  apply (locale_first_agrees_on_unread_slash_forms rtUTC emptyState "4/5" "4" "5" None).
  - apply digitRun_intro; reflexivity.
  - apply digitRun_intro; reflexivity.
  - exact I.
  - reflexivity.
  - reflexivity.
Defined.

End VariantProps.
